(** * snntorch / examples / tutorial_optuna.ipynb

    A shallow embedding of the two classes of the notebook, [Net] (the
    spike bookkeeping of the parameterisable network) and [SNNTrainer]
    (the training loop with its rudimentary early stop, and the evaluation
    routine), together with the properties of the early-stopping core.

    Python [float]s are IEEE 754 binary64 values: they are modelled by the
    primitive [float] type, whose operations are specified by [SpecFloat].
    Python [int]s are unbounded: they are modelled by [Z]. *)

From Stdlib Require Import ZArith List Bool Lia Floats Reals Lra.
Import ListNotations.

Set Warnings "-inexact-float".

(** ** Python values, exceptions and the numeric tower *)

(** The exceptions the embedded code can raise. *)
Inductive PyExc : Set :=
| AssertionError
| ZeroDivisionError
| OverflowError
| ValueError
| RuntimeError
| TrialPruned.

Inductive result (A : Type) : Type :=
| Ok (a : A)
| Raise (e : PyExc).
Arguments Ok {A} a.
Arguments Raise {A} e.

Definition raises {A : Type} (r : result A) : Prop := exists e, r = Raise e.

Definition bind_result {A B : Type} (r : result A) (k : A -> result B) : result B :=
  match r with
  | Ok a => k a
  | Raise e => Raise e
  end.

(** A number the notebook computes with: a Python [int], a Python [float],
    or a [numpy.float64], which is what [SF.accuracy_rate] returns. *)
Inductive PyNum : Set :=
| PyInt (z : Z)
| PyFloat (f : float)
| NpFloat64 (f : float).

Definition is_numpy (a : PyNum) : bool :=
  match a with
  | NpFloat64 _ => true
  | _ => false
  end.

(** [int] to [float], rounding to nearest even as CPython's
    [PyLong_AsDouble] does. *)
Definition Z2SF (z : Z) : spec_float := binary_normalize prec emax z 0 false.

Definition PyLong_AsDouble (z : Z) : result float :=
  match Z2SF z with
  | S754_infinity _ => Raise OverflowError
  | f => Ok (SF2Prim f)
  end.

(** [float / float]: CPython's [float_div]. *)
Definition float_truediv (a b : float) : result float :=
  if (b =? 0)%float then Raise ZeroDivisionError else Ok (a / b)%float.

(** The integer [z] as an exact (not normalised) binary number. *)
Definition Z2SF_exact (z : Z) : spec_float :=
  match z with
  | Z0 => S754_zero false
  | Zpos p => S754_finite false p 0
  | Zneg p => S754_finite true p 0
  end.

(** [int / int]: CPython's [long_true_divide], the correctly rounded
    quotient. *)
Definition long_true_divide (a b : Z) : result float :=
  if (b =? 0)%Z then Raise ZeroDivisionError
  else match SFdiv prec emax (Z2SF_exact a) (Z2SF_exact b) with
       | S754_infinity _ => Raise OverflowError
       | q => Ok (SF2Prim q)
       end.

(** The operand of a mixed operation as a binary64 value. *)
Definition py_float (a : PyNum) : result float :=
  match a with
  | PyInt z => PyLong_AsDouble z
  | PyFloat f => Ok f
  | NpFloat64 f => Ok f
  end.

(** The result of a mixed operation on [a] and [b] with value [f]: a
    [numpy.float64] as soon as one operand is one, a [float] otherwise. *)
Definition float_result (a b : PyNum) (f : float) : PyNum :=
  if is_numpy a || is_numpy b then NpFloat64 f else PyFloat f.

(** [a / b], the value of the quotient.  Python's own divisions raise
    [ZeroDivisionError] on a zero divisor.  When an operand is a
    [numpy.float64] the division is numpy's, which follows IEEE 754: a zero
    divisor gives an infinity or a NaN (and a warning), not an exception. *)
Definition py_truediv (a b : PyNum) : result float :=
  match a, b with
  | PyInt x, PyInt y => long_true_divide x y
  | _, _ =>
      bind_result (py_float a) (fun x =>
      bind_result (py_float b) (fun y =>
        if is_numpy a || is_numpy b then Ok (x / y)%float else float_truediv x y))
  end.

(** [a + b] *)
Definition py_add (a b : PyNum) : result PyNum :=
  match a, b with
  | PyInt x, PyInt y => Ok (PyInt (x + y))
  | _, _ =>
      bind_result (py_float a) (fun x =>
      bind_result (py_float b) (fun y => Ok (float_result a b (x + y)%float)))
  end.

(** [a * b] *)
Definition py_mul (a b : PyNum) : result PyNum :=
  match a, b with
  | PyInt x, PyInt y => Ok (PyInt (x * y))
  | _, _ =>
      bind_result (py_float a) (fun x =>
      bind_result (py_float b) (fun y => Ok (float_result a b (x * y)%float)))
  end.

(** ** Methods as state transformers that may raise

    A method receives the object ([self]) and yields an outcome together
    with the object as the call leaves it: an exception does not undo the
    assignments made before it. *)

Definition M (S A : Type) : Type := S -> result A * S.

Definition ret {S A : Type} (a : A) : M S A := fun s => (Ok a, s).

Definition bind {S A B : Type} (m : M S A) (k : A -> M S B) : M S B :=
  fun s =>
    match m s with
    | (Ok a, s') => k a s'
    | (Raise e, s') => (Raise e, s')
    end.

Definition throw {S A : Type} (e : PyExc) : M S A := fun s => (Raise e, s).

Definition lift {S A : Type} (r : result A) : M S A := fun s => (r, s).

Definition get {S : Type} : M S S := fun s => (Ok s, s).

Definition modify {S : Type} (f : S -> S) : M S unit := fun s => (Ok tt, f s).

Declare Scope py_scope.
Delimit Scope py_scope with py.
Notation "x <- m ;; k" := (bind m (fun x => k))
  (at level 61, m at next level, right associativity) : py_scope.
Notation "m ;;; k" := (bind m (fun _ => k))
  (at level 61, right associativity) : py_scope.
Local Open Scope py_scope.

(** ** The external collaborators

    The tensor framework, the neuron library and the loss functions are not
    part of the notebook.  What the notebook observes of them is gathered
    here: [Params] is the learnable state of a network with its optimiser,
    [Batch] a [(data, targets)] pair drawn from a loader. *)

Class Capability : Type := {
  Params : Type;
  Batch : Type;
  (** [data.size(0)] *)
  size0 : Batch -> Z;
  (** the values [cur.sum().item()] of one forward pass, in the order in
      which [Net.forward] meets them (time steps outside, layers inside) *)
  spike_sums : Params -> Batch -> list float;
  (** [self.loss_fn(spk_rec, targets).item()] *)
  loss_fn : Params -> Batch -> float;
  (** [SF.accuracy_rate(spk_rec, targets)], the value of the
      [numpy.float64] it returns *)
  accuracy_rate : Params -> Batch -> float;
  (** [optimizer.zero_grad(); loss_val.backward(); optimizer.step()] *)
  optimizer_step : Params -> Batch -> Params
}.

Section Notebook.

Context {cap : Capability}.

(** ** class Net *)

Inductive LayerKind : Set := FirstLayer | InnerLayer | OutputLayer.

Record Net : Type := mkNet {
  num_steps : Z;
  num_hidden_neurons : Z;
  num_hidden_layers : Z;
  layers : list LayerKind;
  params : Params;
  (** [nn.Module.training], set by [train()] and [eval()] *)
  training : bool;
  total_spike_count : PyNum;
  forward_count : Z
}.

Definition set_spikes (n : Net) (t : PyNum) (c : Z) : Net :=
  mkNet (num_steps n) (num_hidden_neurons n) (num_hidden_layers n) (layers n)
        (params n) (training n) t c.

Definition set_training (n : Net) (b : bool) : Net :=
  mkNet (num_steps n) (num_hidden_neurons n) (num_hidden_layers n) (layers n)
        (params n) b (total_spike_count n) (forward_count n).

Definition set_params (n : Net) (p : Params) : Net :=
  mkNet (num_steps n) (num_hidden_neurons n) (num_hidden_layers n) (layers n)
        p (training n) (total_spike_count n) (forward_count n).

(** [Net.reset_spikes] *)
Definition reset_spikes : M Net unit :=
  modify (fun n => set_spikes n (PyInt 0) 0).

(** The kind of the [n]-th layer built by the loop of [Net.__init__]. *)
Definition layer_kind (num_hidden_layers n : Z) : LayerKind :=
  if (n =? 0)%Z then FirstLayer
  else if (n <? num_hidden_layers)%Z then InnerLayer
  else OutputLayer.

(** [Net.__init__]; [p0] stands for the freshly initialised weights. *)
Definition Net_init (p0 : Params) (num_steps num_hidden_neurons num_hidden_layers : Z)
                    (beta1 : float) : result Net :=
  if negb ((0 <=? beta1)%float && (beta1 <=? 1)%float) then Raise AssertionError
  else if negb (0 <=? num_hidden_layers)%Z then Raise AssertionError
  else
    let layers :=
      map (fun n => layer_kind num_hidden_layers (Z.of_nat n))
          (seq 0 (Z.to_nat (num_hidden_layers + 1))) in
    let self :=
      mkNet num_steps num_hidden_neurons num_hidden_layers layers p0 true
            (PyInt 0) 0 in
    Ok (snd (reset_spikes self)).

(** [self.total_spike_count += cur.sum().item()], once per layer and step. *)
Fixpoint count_spikes (sums : list float) : M Net unit :=
  match sums with
  | [] => ret tt
  | s :: rest =>
      self <- get ;;
      t <- lift (py_add (total_spike_count self) (PyFloat s)) ;;
      modify (fun n => set_spikes n t (forward_count n)) ;;;
      count_spikes rest
  end.

(** [Net.forward]: the spike bookkeeping of one forward pass.  When
    [num_steps] is not positive, [range(self.num_steps)] is empty: no spike
    is counted, the pass is counted, and [torch.stack] raises on the empty
    spike record. *)
Definition forward (b : Batch) : M Net unit :=
  self <- get ;;
  (if (0 <? num_steps self)%Z
   then count_spikes (spike_sums (params self) b)
   else ret tt) ;;;
  modify (fun n => set_spikes n (total_spike_count n) (forward_count n + 1)) ;;;
  if (0 <? num_steps self)%Z then ret tt else throw RuntimeError.

(** [Net.get_spikes_per_digit] *)
Definition get_spikes_per_digit : M Net float :=
  self <- get ;;
  lift (py_truediv (total_spike_count self) (PyInt (forward_count self))).

(** ** class SNNTrainer *)

Record SNNTrainer : Type := mkTrainer {
  net : Net;
  num_epochs : Z;
  trainer_num_steps : Z;
  learning_rate : float;
  trial : Z;
  patience : Z;
  sig_improvement : float;
  loss_hist : list float;
  acc_hist : list float;
  epochs : Z;
  batches : Z
}.

Definition set_net (t : SNNTrainer) (n : Net) : SNNTrainer :=
  mkTrainer n (num_epochs t) (trainer_num_steps t) (learning_rate t) (trial t)
            (patience t) (sig_improvement t) (loss_hist t) (acc_hist t)
            (epochs t) (batches t).

Definition set_loss_hist (t : SNNTrainer) (l : list float) : SNNTrainer :=
  mkTrainer (net t) (num_epochs t) (trainer_num_steps t) (learning_rate t) (trial t)
            (patience t) (sig_improvement t) l (acc_hist t)
            (epochs t) (batches t).

Definition set_acc_hist (t : SNNTrainer) (l : list float) : SNNTrainer :=
  mkTrainer (net t) (num_epochs t) (trainer_num_steps t) (learning_rate t) (trial t)
            (patience t) (sig_improvement t) (loss_hist t) l
            (epochs t) (batches t).

Definition set_epochs (t : SNNTrainer) (e : Z) : SNNTrainer :=
  mkTrainer (net t) (num_epochs t) (trainer_num_steps t) (learning_rate t) (trial t)
            (patience t) (sig_improvement t) (loss_hist t) (acc_hist t)
            e (batches t).

Definition set_batches (t : SNNTrainer) (b : Z) : SNNTrainer :=
  mkTrainer (net t) (num_epochs t) (trainer_num_steps t) (learning_rate t) (trial t)
            (patience t) (sig_improvement t) (loss_hist t) (acc_hist t)
            (epochs t) b.

(** A method of [self.net] called from a method of the trainer. *)
Definition on_net {A : Type} (m : M Net A) : M SNNTrainer A :=
  fun t => let (r, n) := m (net t) in (r, set_net t n).

(** The check [torch.optim.Adam] makes on its learning rate:
    [if not 0.0 <= lr: raise ValueError].  A NaN fails it. *)
Definition Adam_init (lr : float) : result unit :=
  if (0 <=? lr)%float then Ok tt else Raise ValueError.

(** [SNNTrainer.__init__]: the threshold is computed first, the optimiser
    is built next. *)
Definition SNNTrainer_init (net : Net) (trial : Z) (num_epochs num_steps : Z)
    (learning_rate : float) (patience : Z) (sig_improvement : float)
  : result SNNTrainer :=
  bind_result
    (py_truediv (PyFloat sig_improvement) (PyInt (num_hidden_layers net ^ 3)))
    (fun sig =>
  bind_result (Adam_init learning_rate) (fun _ =>
       Ok (mkTrainer net num_epochs num_steps learning_rate trial patience sig
                     [] [] 0 0))).

(** The local variables [best_loss] and [loss_counter] of
    [SNNTrainer.train]. *)
Record EarlyStopState : Set := mkEarlyStop {
  best_loss : float;
  loss_counter : Z
}.

Definition initial_early_stop : EarlyStopState := mkEarlyStop infinity 0.

(** The metric tracker: the [if current_loss < ...] statement of
    [SNNTrainer.train]. *)
Definition record_loss (sig_improvement current_loss : float) (s : EarlyStopState)
  : EarlyStopState :=
  if (current_loss <? (1 - sig_improvement) * best_loss s)%float
  then mkEarlyStop current_loss 0
  else mkEarlyStop (best_loss s) (loss_counter s + 1).

(** The early-stopping policy: the condition of the last [if] of the
    loop body of [SNNTrainer.train]. *)
Definition should_stop (epoch loss_counter patience : Z) : bool :=
  (0 <? epoch)%Z && (patience <? loss_counter)%Z.

(** How the body of the inner loop is left. *)
Inductive Flow : Set :=
| Next (s : EarlyStopState)
| Return.

(** The body of the inner loop of [SNNTrainer.train], for batch [i] of
    epoch [epoch]. *)
Definition train_batch (epoch i : Z) (b : Batch) (s : EarlyStopState)
  : M SNNTrainer Flow :=
  on_net (modify (fun n => set_training n true)) ;;;
  self <- get ;;
  let p := params (net self) in
  on_net (forward b) ;;;
  on_net (modify (fun n => set_params n (optimizer_step p b))) ;;;
  let current_loss := loss_fn p b in
  modify (fun t => set_loss_hist t (loss_hist t ++ [current_loss])) ;;;
  (if ((i mod 100 =? 0)%Z && negb (i =? 0)%Z)%bool
   then modify (fun t => set_acc_hist t (acc_hist t ++ [accuracy_rate p b]))
   else ret tt) ;;;
  let s' := record_loss (sig_improvement self) current_loss s in
  modify (fun t => set_batches t (batches t + 1)) ;;;
  if should_stop epoch (loss_counter s') (patience self)
  then ret Return
  else ret (Next s').

(** [for i, (data, targets) in enumerate(train_loader)], from index [i]. *)
Fixpoint train_epoch (epoch i : Z) (bs : list Batch) (s : EarlyStopState)
  : M SNNTrainer Flow :=
  match bs with
  | [] => ret (Next s)
  | b :: rest =>
      f <- train_batch epoch i b s ;;
      match f with
      | Next s' => train_epoch epoch (i + 1) rest s'
      | Return => ret Return
      end
  end.

(** [for epoch in range(self.num_epochs)], with [n] epochs left from
    [epoch]; [train_loader e] is what iterating the loader yields the
    [e]-th time. *)
Fixpoint train_epochs (train_loader : Z -> list Batch) (epoch : Z) (n : nat)
    (s : EarlyStopState) : M SNNTrainer Flow :=
  match n with
  | O => ret (Next s)
  | S n' =>
      f <- train_epoch epoch 0 (train_loader epoch) s ;;
      match f with
      | Next s' =>
          modify (fun t => set_epochs t (epochs t + 1)) ;;;
          train_epochs train_loader (epoch + 1) n' s'
      | Return => ret Return
      end
  end.

(** How a call of [train] ended. *)
Inductive RunState : Set := Running | StoppedEarly | Completed.

(** [SNNTrainer.train] *)
Definition train (train_loader : Z -> list Batch) : M SNNTrainer RunState :=
  self <- get ;;
  f <- train_epochs train_loader 0 (Z.to_nat (num_epochs self)) initial_early_stop ;;
  match f with
  | Next _ => ret Completed
  | Return => ret StoppedEarly
  end.

(** The loop of [SNNTrainer.get_accuracy]. *)
Fixpoint accuracy_loop (bs : list Batch) (total_acc total : PyNum)
  : M SNNTrainer (PyNum * PyNum) :=
  match bs with
  | [] => ret (total_acc, total)
  | b :: rest =>
      self <- get ;;
      on_net (forward b) ;;;
      let acc := accuracy_rate (params (net self)) b in
      x <- lift (py_mul (NpFloat64 acc) (PyInt (size0 b))) ;;
      total_acc' <- lift (py_add total_acc x) ;;
      total' <- lift (py_add total (PyInt (size0 b))) ;;
      accuracy_loop rest total_acc' total'
  end.

(** [SNNTrainer.get_accuracy]: over an empty loader the quotient is
    [int / int]; as soon as a batch was seen its numerator is a
    [numpy.float64]. *)
Definition get_accuracy (test_loader : list Batch) : M SNNTrainer float :=
  on_net (modify (fun n => set_training n false)) ;;;
  r <- accuracy_loop test_loader (PyInt 0) (PyInt 0) ;;
  lift (py_truediv (fst r) (snd r)).

(** *** Calls on a network, as the trainer and the objective make them *)

Inductive NetCall : Type :=
| CallResetSpikes
| CallForward (b : Batch)
| CallTrain
| CallEval
| CallOptimizerStep (b : Batch).

Definition net_call (c : NetCall) : M Net unit :=
  match c with
  | CallResetSpikes => reset_spikes
  | CallForward b => forward b
  | CallTrain => modify (fun n => set_training n true)
  | CallEval => modify (fun n => set_training n false)
  | CallOptimizerStep b => modify (fun n => set_params n (optimizer_step (params n) b))
  end.

Fixpoint net_calls (cs : list NetCall) : M Net unit :=
  match cs with
  | [] => ret tt
  | c :: rest => net_call c ;;; net_calls rest
  end.

Definition is_forward (c : NetCall) : bool :=
  match c with
  | CallForward _ => true
  | _ => false
  end.

(** ** The objective *)

(** What a trial suggests, one field per [trial.suggest_*] call. *)
Record Trial : Set := mkTrial {
  number : Z;
  Timesteps : Z;
  Hidden_Layers : Z;
  Neurons_per_Hidden_Layer : Z;
  Learning_Rate : float;
  First_Layer_beta : float
}.

(** The bounds given to the [trial.suggest_*] calls. *)
Definition in_search_space (tr : Trial) : Prop :=
  (10 <= Timesteps tr <= 50)%Z /\
  (1 <= Hidden_Layers tr <= 10)%Z /\
  (5 <= Neurons_per_Hidden_Layer tr <= 300)%Z /\
  (1e-4 <=? Learning_Rate tr)%float = true /\
  (Learning_Rate tr <=? 1e-2)%float = true /\
  (0.5 <=? First_Layer_beta tr)%float = true /\
  (First_Layer_beta tr <=? 1)%float = true.

(** What [optuna_objective] hands back: the two objective values and the
    user attributes ["Epochs"] and ["Batches"] it sets on the trial. *)
Record Objective : Set := mkObjective {
  validation_accuracy : float;
  spikes_per_digit : float;
  attr_Epochs : Z;
  attr_Batches : Z
}.

(** [optuna_objective]; [validation_loader] is the module-level loader the
    function reads, [test_loader] its unused third argument. *)
Definition optuna_objective (p0 : Params) (validation_loader : list Batch)
    (tr : Trial) (train_loader : Z -> list Batch) (test_loader : list Batch)
  : result Objective :=
  let num_steps := Timesteps tr in
  let num_hidden_layers := Hidden_Layers tr in
  let num_hidden_neurons := Neurons_per_Hidden_Layer tr in
  if (300 * 15 <? num_hidden_layers * num_hidden_neurons * num_steps)%Z
  then Raise TrialPruned
  else
    bind_result (Net_init p0 num_steps num_hidden_neurons num_hidden_layers
                          (First_Layer_beta tr)) (fun net =>
    bind_result (SNNTrainer_init net (number tr) 30 num_steps (Learning_Rate tr)
                                 300 0.05) (fun trainer =>
    fst ((train train_loader ;;;
          self <- get ;;
          let attr_epochs := epochs self in
          let attr_batches := batches self in
          on_net reset_spikes ;;;
          validation_accuracy <- get_accuracy validation_loader ;;
          spikes_per_digit <- on_net get_spikes_per_digit ;;
          ret (mkObjective validation_accuracy spikes_per_digit
                           attr_epochs attr_batches)) trainer))).

End Notebook.

(** ** Notions the statements use *)

Section Notions.

Context {cap : Capability}.

(** The metric tracker fed a sequence of losses, oldest first. *)
Definition feed (sig_improvement : float) (losses : list float) (s : EarlyStopState)
  : EarlyStopState :=
  fold_left (fun s l => record_loss sig_improvement l s) losses s.

(** The spike counter is the [0] of [reset_spikes] or a float: what the
    methods of [Net] leave in it. *)
Definition spikes_ok (n : Net) : Prop :=
  match total_spike_count n with
  | PyInt z => z = 0%Z
  | PyFloat _ => True
  | NpFloat64 _ => True
  end.

(** The spike counter after adding the given sums to it. *)
Definition add_spikes (t : PyNum) (sums : list float) : PyNum :=
  fold_left (fun t s =>
               match t with
               | PyInt _ => PyFloat (0 + s)%float
               | PyFloat x => PyFloat (x + s)%float
               | NpFloat64 x => NpFloat64 (x + s)%float
               end) sums t.

(** An accumulator that started at the integer [0] and had floats added:
    it is still that [0], or a float. *)
Definition acc_ok (t : PyNum) : Prop :=
  match t with
  | PyInt z => z = 0%Z
  | PyFloat _ => True
  | NpFloat64 _ => True
  end.

Definition acc_float (t : PyNum) : float :=
  match t with
  | PyInt _ => 0%float
  | PyFloat x => x
  | NpFloat64 x => x
  end.

(** A loss the tracker is specified for: not negative and finite. *)
Definition valid_loss (l : float) : Prop :=
  (0 <=? l)%float = true /\ (l <? infinity)%float = true.

(** A batch the evaluation is specified for: it is not empty and its
    accuracy is a fraction. *)
Definition valid_batch (p : Params) (b : Batch) : Prop :=
  (0 < size0 b)%Z /\
  (0 <=? accuracy_rate p b)%float = true /\ (accuracy_rate p b <=? 1)%float = true.

Definition total_size (bs : list Batch) : Z :=
  fold_right (fun b n => (size0 b + n)%Z) 0%Z bs.

(** Python's [sum(xs, start)]. *)
Fixpoint py_sum (xs : list PyNum) (start : PyNum) : result PyNum :=
  match xs with
  | [] => Ok start
  | x :: rest => bind_result (py_add start x) (py_sum rest)
  end.

(** [[a * n for (a, n) in batches]] *)
Fixpoint py_products (batches : list (float * Z)) : result (list PyNum) :=
  match batches with
  | [] => Ok []
  | (a, n) :: rest =>
      bind_result (py_mul (NpFloat64 a) (PyInt n)) (fun x =>
      bind_result (py_products rest) (fun xs => Ok (x :: xs)))
  end.

(** The size-weighted average as the specification words it:
    [sum(batch_accuracy * batch_size) / sum(batch_size)], the accuracies
    being [numpy.float64] values and the sizes [int]s. *)
Definition weighted_average (batches : list (float * Z)) : result float :=
  bind_result (py_products batches) (fun xs =>
  bind_result (py_sum xs (PyInt 0)) (fun num =>
  bind_result (py_sum (map (fun b => PyInt (snd b)) batches) (PyInt 0)) (fun den =>
  py_truediv num den))).

(** The trainer once batch [i] has been processed: what [train_batch]
    leaves behind, whatever it decides. *)
Definition after_batch (i : Z) (b : Batch) (t : SNNTrainer) : SNNTrainer :=
  snd (train_batch 0 i b initial_early_stop t).

(** [t'] continues the run of [t]: the losses [ls] were appended to the
    loss history, one per processed batch, and nothing was taken away. *)
Definition run_extends (t t' : SNNTrainer) (ls : list float) : Prop :=
  loss_hist t' = loss_hist t ++ ls /\
  batches t' = (batches t + Z.of_nat (length ls))%Z /\
  (exists accs, acc_hist t' = acc_hist t ++ accs /\ (length accs <= length ls)%nat) /\
  patience t' = patience t /\
  sig_improvement t' = sig_improvement t /\
  num_epochs t' = num_epochs t /\
  forward_count (net t') = (forward_count (net t) + Z.of_nat (length ls))%Z /\
  spikes_ok (net t') /\
  num_steps (net t') = num_steps (net t).

(** The part of a trainer that evaluation has no business with. *)
Definition same_run (t t' : SNNTrainer) : Prop :=
  loss_hist t' = loss_hist t /\ acc_hist t' = acc_hist t /\
  epochs t' = epochs t /\ batches t' = batches t /\
  patience t' = patience t /\ sig_improvement t' = sig_improvement t /\
  num_epochs t' = num_epochs t /\ params (net t') = params (net t).

(** The first [n] batches, counted across epochs, of what the loader
    yields from epoch [epoch] on, within [k] epochs. *)
Fixpoint loader_batches (train_loader : Z -> list Batch) (epoch : Z) (k : nat)
  : list Batch :=
  match k with
  | O => []
  | S k' => train_loader epoch ++ loader_batches train_loader (epoch + 1) k'
  end.

End Notions.

(** ** A capability that replays recorded observations

    A batch carries what was observed when it was processed; the learnable
    state is the number of optimiser steps taken. *)

Record Observed : Set := mkObserved {
  obs_size : Z;
  obs_spikes : list float;
  obs_loss : float;
  obs_acc : float
}.

Definition replay : Capability := {|
  Params := nat;
  Batch := Observed;
  size0 := obs_size;
  spike_sums := fun _ b => obs_spikes b;
  loss_fn := fun _ b => obs_loss b;
  accuracy_rate := fun _ b => obs_acc b;
  optimizer_step := fun p _ => S p
|}.

(** A batch of [n] samples with loss [l] and accuracy [a]. *)
Definition observed (n : Z) (l a : float) : Observed :=
  mkObserved n [1; 2]%float l a.

(** The network [Net(25, 299, h, 0.9)] before any forward pass. *)
Definition demo_net (h : Z) : @Net replay :=
  @mkNet replay 25 299 h
        (map (fun n => layer_kind h (Z.of_nat n)) (seq 0 (Z.to_nat (h + 1))))
        O true (PyInt 0) 0.

(** A trainer for [demo_net 1] as [SNNTrainer.__init__] leaves it. *)
Definition demo_trainer (num_epochs patience : Z) (sig : float) : @SNNTrainer replay :=
  @mkTrainer replay (demo_net 1) num_epochs 25 0.002 0 patience sig [] [] 0 0.

(** A loader that yields nothing in epoch 0 and four batches, with losses
    1.0, 0.96, 0.95 and 0.1, in every later epoch. *)
Definition scenario_loader (epoch : Z) : list Observed :=
  if (epoch =? 0)%Z then []
  else [observed 128 1.0 0.5; observed 128 0.96 0.5; observed 128 0.95 0.5;
        observed 128 0.1 0.5]%float.

(** The network [Net(0, 5, 1, 0.9)], which has no time step, and a trainer
    for it. *)
Definition idle_net : @Net replay :=
  @mkNet replay 0 5 1
        (map (fun n => layer_kind 1 (Z.of_nat n)) (seq 0 (Z.to_nat (1 + 1))))
        O true (PyInt 0) 0.

Definition idle_trainer : @SNNTrainer replay :=
  @mkTrainer replay idle_net 30 25 0.002 0 300 0.05 [] [] 0 0.

(** A trial inside the search space: 10 time steps, 1 hidden layer of 5
    neurons. *)
Definition demo_trial : Trial := mkTrial 0 10 1 5 0.001 0.9.

(** ** Binary64 numbers as reals *)

Definition bpow (e : Z) : R := powerRZ 2 e.
Definition F2R (m e : Z) : R := (IZR m * bpow e)%R.
Arguments bpow : simpl never.
Arguments F2R : simpl never.

Definition inb (m e : Z) (ix : bool) (x : R) : Prop :=
  if ix then (F2R m e < x < F2R (m + 1) e)%R else x = F2R m e.

Definition shr_inv (mrs : shr_record) (e : Z) (x : R) : Prop :=
  (0 <= shr_m mrs)%Z /\ inb (shr_m mrs) e (shr_r mrs || shr_s mrs) x.

Definition loc_inexact (l : location) : bool :=
  match l with loc_Exact => false | loc_Inexact _ => true end.

(** A mantissa and exponent on the binary64 grid: the exponent is not below
    [emin], the mantissa has at most [prec] digits, and exactly [prec] of them
    above [emin]. *)
Definition grid (m e : Z) : Prop :=
  (emin <= e)%Z /\ (0 <= m < 2 ^ prec)%Z /\ ((emin < e)%Z -> (2 ^ (prec - 1) <= m)%Z).

(** The finite number or overflow built from a rounded mantissa. *)
Definition build (s : bool) (m e : Z) : spec_float :=
  match m with
  | Z0 => S754_zero s
  | Z.pos p => if (e <=? 971)%Z then S754_finite s p e else S754_infinity s
  | Z.neg _ => S754_nan
  end.

Definition SF2R (x : spec_float) : R :=
  match x with
  | S754_finite s m e => F2R (cond_Zopp s (Z.pos m)) e
  | _ => 0%R
  end.

Definition SFfinite (x : spec_float) : bool :=
  match x with
  | S754_zero _ | S754_finite _ _ _ => true
  | _ => false
  end.

Definition Rcmp (c : comparison) (a b : R) : Prop :=
  match c with
  | Lt => (a < b)%R
  | Eq => a = b
  | Gt => (b < a)%R
  end.

(** [r] is a faithful rounding of the real [x]: no representable number
    lies strictly between them. *)
Definition rounds (x : R) (r : spec_float) : Prop :=
  valid_binary r = true /\ r <> S754_nan /\
  forall c, SFfinite c = true -> valid_binary c = true ->
    ((x <= SF2R c)%R -> SFleb r c = true) /\
    ((SF2R c <= x)%R -> SFleb c r = true).

(** Infinities are ranked beyond every finite number. *)
Definition SFkey (x : spec_float) : R :=
  match x with
  | S754_infinity s => if s then (- bpow 1100)%R else bpow 1100
  | _ => SF2R x
  end.

(** The same for primitive floats. *)
Definition fkey (f : float) : R := SFkey (Prim2SF f).
Definition fnan (f : float) : Prop := Prim2SF f = S754_nan.
Definition ffinite (f : float) : Prop := SFfinite (Prim2SF f) = true.

(** * Rounding in binary64 *)

(** ** Powers of two and scaled integers *)

Lemma bpow_gt_0 e : (0 < bpow e)%R.
Proof. apply powerRZ_lt; lra. Qed.

Lemma bpow_plus a b : bpow (a + b) = (bpow a * bpow b)%R.
Proof. apply powerRZ_add; lra. Qed.

Lemma bpow_succ e : bpow (e + 1) = (2 * bpow e)%R.
Proof. rewrite bpow_plus. unfold bpow at 2. rewrite powerRZ_1. lra. Qed.

Lemma bpow_IZR k : (0 <= k)%Z -> bpow k = IZR (2 ^ k).
Proof.
  intros Hk. unfold bpow.
  rewrite <- (Z2Nat.id k Hk) at 1 2.
  rewrite <- pow_powerRZ. rewrite pow_IZR. reflexivity.
Qed.

Lemma bpow_le a b : (a <= b)%Z -> (bpow a <= bpow b)%R.
Proof.
  intros H. replace b with (a + (b - a))%Z by lia.
  rewrite bpow_plus, (bpow_IZR (b - a)) by lia.
  assert (1 <= IZR (2 ^ (b - a)))%R.
  { apply IZR_le. assert (0 < 2 ^ (b - a))%Z by (apply Z.pow_pos_nonneg; lia). lia. }
  pose proof (bpow_gt_0 a). nra.
Qed.

Lemma bpow_lt a b : (a < b)%Z -> (bpow a < bpow b)%R.
Proof.
  intros H. pose proof (bpow_le (a + 1) b ltac:(lia)) as H1.
  rewrite bpow_succ in H1. pose proof (bpow_gt_0 a). lra.
Qed.

Lemma F2R_shift m e k : (0 <= k)%Z -> F2R (m * 2 ^ k) e = F2R m (e + k).
Proof.
  intros Hk. unfold F2R. rewrite mult_IZR, <- bpow_IZR, bpow_plus by assumption. ring.
Qed.

Lemma F2R_le m1 m2 e : (m1 <= m2)%Z -> (F2R m1 e <= F2R m2 e)%R.
Proof.
  intros H. unfold F2R. apply IZR_le in H. pose proof (bpow_gt_0 e). nra.
Qed.

Lemma F2R_lt m1 m2 e : (m1 < m2)%Z -> (F2R m1 e < F2R m2 e)%R.
Proof.
  intros H. unfold F2R. apply IZR_lt in H. pose proof (bpow_gt_0 e). nra.
Qed.

Lemma F2R_le_inv m1 m2 e : (F2R m1 e <= F2R m2 e)%R -> (m1 <= m2)%Z.
Proof.
  intros H. destruct (Z_le_gt_dec m1 m2) as [|G]; [assumption|].
  apply Z.gt_lt, (F2R_lt _ _ e) in G. lra.
Qed.

Lemma F2R_lt_inv m1 m2 e : (F2R m1 e < F2R m2 e)%R -> (m1 < m2)%Z.
Proof.
  intros H. destruct (Z_lt_ge_dec m1 m2) as [|G]; [assumption|].
  apply Z.ge_le, (F2R_le _ _ e) in G. lra.
Qed.

(** Number of binary digits. *)
Lemma digits2_pos_size p : digits2_pos p = Pos.size p.
Proof. induction p; simpl; congruence. Qed.

Lemma Zdigits2_bounds m :
  (0 < m)%Z -> (2 ^ (Zdigits2 m - 1) <= m < 2 ^ Zdigits2 m)%Z.
Proof.
  destruct m as [|p|p]; try lia. intros _. simpl Zdigits2.
  rewrite digits2_pos_size.
  pose proof (Pos.size_gt p) as Hgt. pose proof (Pos.size_le p) as Hle.
  assert (E : Z.pos (2 ^ Pos.size p) = (2 ^ Z.pos (Pos.size p))%Z) by (rewrite Pos2Z.inj_pow; reflexivity).
  split.
  - assert (2 ^ Z.pos (Pos.size p) = 2 * 2 ^ (Z.pos (Pos.size p) - 1))%Z.
    { rewrite <- Z.pow_succ_r by lia. f_equal. lia. }
    lia.
  - lia.
Qed.

Lemma Zdigits2_unique m d :
  (2 ^ (d - 1) <= m < 2 ^ d)%Z -> (0 < m)%Z -> Zdigits2 m = d.
Proof.
  intros [H1 H2] Hm. pose proof (Zdigits2_bounds m Hm) as [H3 H4].
  assert (0 < d)%Z.
  { destruct (Z_lt_le_dec 0 d); [assumption|].
    assert (2 ^ d <= 2 ^ 0)%Z by (apply Z.pow_le_mono_r; lia). simpl in *. lia. }
  assert (0 < Zdigits2 m)%Z by (destruct m; simpl; lia).
  destruct (Z.lt_trichotomy (Zdigits2 m) d) as [L|[E|G]]; [|assumption|].
  - assert (2 ^ Zdigits2 m <= 2 ^ (d - 1))%Z by (apply Z.pow_le_mono_r; lia). lia.
  - assert (2 ^ d <= 2 ^ (Zdigits2 m - 1))%Z by (apply Z.pow_le_mono_r; lia). lia.
Qed.

Lemma Zdigits2_nonneg m : (0 <= Zdigits2 m)%Z.
Proof. destruct m; simpl; lia. Qed.

(** ** Shifting a mantissa to the right *)

Lemma F2R_succ m e : F2R m (e + 1) = (2 * IZR m * bpow e)%R.
Proof. unfold F2R. rewrite bpow_succ. ring. Qed.

Lemma shr_1_spec mrs e x :
  shr_inv mrs e x ->
  shr_inv (shr_1 mrs) (e + 1) x /\ shr_m (shr_1 mrs) = Z.div2 (shr_m mrs).
Proof.
  destruct mrs as [m r s]. unfold shr_inv, inb. cbn [shr_m shr_r shr_s].
  intros [Hm Hx].
  pose proof (bpow_gt_0 e) as Hb.
  assert (E1 : forall p, F2R (Z.pos p~1) e = ((2 * IZR (Z.pos p) + 1) * bpow e)%R).
  { intros p. unfold F2R. rewrite Pos2Z.inj_xI, plus_IZR, mult_IZR. reflexivity. }
  assert (E0 : forall p, F2R (Z.pos p~0) e = ((2 * IZR (Z.pos p)) * bpow e)%R).
  { intros p. unfold F2R. rewrite Pos2Z.inj_xO, mult_IZR. reflexivity. }
  assert (ES : forall k e', F2R (k + 1) e' = (F2R k e' + bpow e')%R).
  { intros k e'. unfold F2R. rewrite plus_IZR. ring. }
  pose proof (bpow_succ e) as EB.
  assert (ET : forall k, F2R k (e + 1) = (2 * F2R k e)%R).
  { intros k. unfold F2R. rewrite bpow_succ. ring. }
  assert (EZ : F2R 0 e = 0%R) by (unfold F2R; ring).
  assert (EO : F2R 1 e = bpow e) by (unfold F2R; ring).
  destruct m as [|[p|p|]|]; try lia; cbn [shr_1 shr_m shr_r shr_s];
    (split; [split; [lia|]|reflexivity]).
  all: cbn [orb]; rewrite ?ES, ?ET, ?EZ; rewrite ?ES, ?E1, ?E0, ?EZ, ?EO in Hx;
    rewrite ?EB; unfold F2R in *; destruct (r || s); lra.
Qed.

Lemma pow2_xI p : (2 ^ Z.pos p~1 = 2 * 2 ^ Z.pos p * 2 ^ Z.pos p)%Z.
Proof.
  assert (E : (Z.pos p~1 = 1 + Z.pos p + Z.pos p)%Z) by lia.
  rewrite E, !Z.pow_add_r by lia. reflexivity.
Qed.

Lemma pow2_xO p : (2 ^ Z.pos p~0 = 2 ^ Z.pos p * 2 ^ Z.pos p)%Z.
Proof.
  assert (E : (Z.pos p~0 = Z.pos p + Z.pos p)%Z) by lia.
  rewrite E, !Z.pow_add_r by lia. reflexivity.
Qed.

Lemma iter_shr_1_spec p : forall mrs e x,
  shr_inv mrs e x ->
  shr_inv (SpecFloat.iter_pos shr_1 p mrs) (e + Z.pos p) x /\
  shr_m (SpecFloat.iter_pos shr_1 p mrs) = (shr_m mrs / 2 ^ Z.pos p)%Z.
Proof.
  induction p as [p IH|p IH|]; intros mrs e x H; simpl SpecFloat.iter_pos.
  - destruct (shr_1_spec _ _ _ H) as [H1 E1].
    destruct (IH _ _ _ H1) as [H2 E2].
    destruct (IH _ _ _ H2) as [H3 E3].
    assert (0 < 2 ^ Z.pos p)%Z by (apply Z.pow_pos_nonneg; lia).
    split.
    + replace (e + Z.pos p~1)%Z with (e + 1 + Z.pos p + Z.pos p)%Z by lia. exact H3.
    + rewrite E3, E2, E1, Z.div2_div, pow2_xI.
      rewrite !Z.div_div by lia. f_equal. ring.
  - destruct (IH _ _ _ H) as [H2 E2].
    destruct (IH _ _ _ H2) as [H3 E3].
    assert (0 < 2 ^ Z.pos p)%Z by (apply Z.pow_pos_nonneg; lia).
    split.
    + replace (e + Z.pos p~0)%Z with (e + Z.pos p + Z.pos p)%Z by lia. exact H3.
    + rewrite E3, E2, pow2_xO. rewrite !Z.div_div by lia. reflexivity.
  - destruct (shr_1_spec _ _ _ H) as [H1 E1]. split; [exact H1|].
    rewrite E1, Z.div2_div. reflexivity.
Qed.

(** ** The grid of representable numbers *)

Lemma fexp_eq e : fexp prec emax e = Z.max (e - 53) (-1074).
Proof. reflexivity. Qed.

Lemma shr_record_of_loc_inv m l e x :
  (0 <= m)%Z -> inb m e (loc_inexact l) x -> shr_inv (shr_record_of_loc m l) e x.
Proof.
  intros Hm H. unfold shr_inv. destruct l as [|[ | | ]]; simpl in *; auto.
Qed.

Lemma shr_fexp_spec m e l x :
  (0 <= m)%Z -> (e <= fexp prec emax (Zdigits2 m + e))%Z ->
  inb m e (loc_inexact l) x ->
  shr_inv (fst (shr_fexp prec emax m e l)) (snd (shr_fexp prec emax m e l)) x /\
  snd (shr_fexp prec emax m e l) = fexp prec emax (Zdigits2 m + e) /\
  grid (shr_m (fst (shr_fexp prec emax m e l))) (snd (shr_fexp prec emax m e l)).
Proof.
  intros Hm He Hx. unfold shr_fexp.
  pose proof (shr_record_of_loc_inv m l e x Hm Hx) as Hinv.
  assert (Em : shr_m (shr_record_of_loc m l) = m) by (destruct l as [|[ | | ]]; reflexivity).
  set (d := Zdigits2 m) in *.
  assert (Hd : (0 <= d)%Z) by apply Zdigits2_nonneg.
  assert (Hb : (0 < m -> 2 ^ (d - 1) <= m < 2 ^ d)%Z) by apply Zdigits2_bounds.
  assert (Hz : (m = 0 -> d = 0)%Z) by (intros ->; reflexivity).
  rewrite fexp_eq in *.
  remember (Z.max (d + e - 53) (-1074) - e)%Z as n eqn:En.
  unfold grid, emin, prec, emax. change (3 - 1024 - 53)%Z with (-1074)%Z.
  change (53 - 1)%Z with 52%Z.
  destruct n as [|p|p]; unfold shr; cbn [fst snd].
  - rewrite Em. split; [exact Hinv|]. split; [lia|].
    split; [lia|]. split.
    + split; [lia|]. destruct (Z.eq_dec m 0) as [->|]; [lia|].
      assert (2 ^ d <= 2 ^ 53)%Z by (apply Z.pow_le_mono_r; lia). lia.
    + intros G. assert (d = 53)%Z by lia. 
      assert (0 < m)%Z by (destruct (Z.eq_dec m 0); [lia|lia]).
      replace 52%Z with (d - 1)%Z by lia. apply Hb; lia.
  - destruct (iter_shr_1_spec p _ e x Hinv) as [H1 E1].
    split; [exact H1|]. split; [lia|].
    rewrite E1, Em.
    assert (P : (0 < 2 ^ Z.pos p)%Z) by (apply Z.pow_pos_nonneg; lia).
    split; [lia|]. split.
    + split; [apply Z.div_pos; lia|].
      apply Z.div_lt_upper_bound; [lia|].
      destruct (Z.eq_dec m 0) as [->|]; [lia|].
      rewrite <- Z.pow_add_r by lia.
      assert (2 ^ d <= 2 ^ (Z.pos p + 53))%Z by (apply Z.pow_le_mono_r; lia). lia.
    + intros G. assert (Z.pos p = d - 53)%Z by lia.
      assert (0 < m)%Z by (destruct (Z.eq_dec m 0); [lia|lia]).
      apply Z.div_le_lower_bound; [lia|].
      rewrite <- Z.pow_add_r by lia.
      replace (Z.pos p + 52)%Z with (d - 1)%Z by lia. apply Hb; lia.
  - lia.
Qed.

Lemma round_nearest_even_cases mrs :
  let mr := round_nearest_even (shr_m mrs) (loc_of_shr_record mrs) in
  mr = shr_m mrs \/ (mr = (shr_m mrs + 1)%Z /\ shr_r mrs || shr_s mrs = true).
Proof.
  destruct mrs as [m [|] [|]]; simpl; auto.
  destruct (Z.even m); auto.
Qed.

Lemma shr_fexp_second m e :
  grid m e \/ ((m = 2 ^ prec)%Z /\ (emin <= e)%Z) ->
  let r := shr_fexp prec emax m e loc_Exact in
  F2R (shr_m (fst r)) (snd r) = F2R m e /\ grid (shr_m (fst r)) (snd r).
Proof.
  unfold grid, emin, prec, emax. change (3 - 1024 - 53)%Z with (-1074)%Z.
  change (53 - 1)%Z with 52%Z.
  intros [G | [-> He]]; unfold shr_fexp; rewrite fexp_eq; cbn [shr_record_of_loc].
  - destruct G as (He & Hm & Hn).
    assert (Hd : (Zdigits2 m <= 53)%Z).
    { destruct (Z.eq_dec m 0) as [->|]; [simpl; lia|].
      pose proof (Zdigits2_bounds m ltac:(lia)) as [B1 B2].
      destruct (Z_le_gt_dec (Zdigits2 m) 53); [assumption|].
      assert (2 ^ 53 <= 2 ^ (Zdigits2 m - 1))%Z by (apply Z.pow_le_mono_r; lia). lia. }
    remember (Z.max (Zdigits2 m + e - 53) (-1074) - e)%Z as n eqn:En.
    destruct n as [|p|p]; unfold shr; cbn [fst snd shr_m]; try (split; [reflexivity|lia]).
    lia.
  - change (Zdigits2 (2 ^ 53)) with 54%Z.
    replace (Z.max (54 + e - 53) (-1074) - e)%Z with 1%Z by lia.
    unfold shr. cbn [fst snd SpecFloat.iter_pos]. 
    change (2 ^ 53)%Z with 9007199254740992%Z. cbn [shr_1 shr_m].
    split.
    + unfold F2R. rewrite bpow_succ. 
      replace (IZR 9007199254740992) with (2 * IZR 4503599627370496)%R.
      * ring.
      * rewrite <- mult_IZR. reflexivity.
    + lia.
Qed.

Lemma grid_unfold m e :
  grid m e <-> ((-1074 <= e)%Z /\ (0 <= m < 2 ^ 53)%Z /\ ((-1074 < e)%Z -> (2 ^ 52 <= m)%Z)).
Proof. reflexivity. Qed.

Lemma Zdigits2_le_53 m : (0 <= m < 2 ^ 53)%Z -> (Zdigits2 m <= 53)%Z.
Proof.
  intros Hm. destruct (Z.eq_dec m 0) as [->|]; [simpl; lia|].
  pose proof (Zdigits2_bounds m ltac:(lia)) as [B1 B2].
  destruct (Z_le_gt_dec (Zdigits2 m) 53); [assumption|].
  assert (2 ^ 53 <= 2 ^ (Zdigits2 m - 1))%Z by (apply Z.pow_le_mono_r; lia). lia.
Qed.

Lemma bounded_grid m e :
  SpecFloat.bounded prec emax m e = true <-> grid (Z.pos m) e /\ (e <= 971)%Z.
Proof.
  unfold SpecFloat.bounded, canonical_mantissa. rewrite andb_true_iff, Z.eqb_eq, Z.leb_le.
  rewrite fexp_eq, grid_unfold. change (emax - prec)%Z with 971%Z.
  change (Z.pos (digits2_pos m)) with (Zdigits2 (Z.pos m)).
  pose proof (Zdigits2_bounds (Z.pos m) ltac:(lia)) as [B1 B2].
  set (d := Zdigits2 (Z.pos m)) in *.
  split.
  - intros [E L]. split; [|lia]. split; [lia|]. split.
    + split; [lia|]. assert (2 ^ d <= 2 ^ 53)%Z by (apply Z.pow_le_mono_r; lia). lia.
    + intros G. assert (d = 53)%Z by lia. subst d. replace 52%Z with (Zdigits2 (Z.pos m) - 1)%Z by lia.
      exact B1.
  - intros [(G1 & G2 & G3) L]. split; [|lia].
    pose proof (Zdigits2_le_53 (Z.pos m) G2) as D. fold d in D.
    destruct (Z.eq_dec e (-1074)) as [->|]; [lia|].
    specialize (G3 ltac:(lia)).
    destruct (Z_le_gt_dec d 52).
    + assert (2 ^ d <= 2 ^ 52)%Z by (apply Z.pow_le_mono_r; lia). lia.
    + lia.
Qed.

Lemma F2R_pow2 k e : (0 <= k)%Z -> F2R (2 ^ k) e = bpow (e + k).
Proof.
  intros Hk. unfold F2R. rewrite <- bpow_IZR, bpow_plus by assumption. ring.
Qed.

Lemma grid_lt_exp m1 e1 m2 e2 :
  grid m1 e1 -> grid m2 e2 -> (e1 < e2)%Z -> (F2R m1 e1 < F2R m2 e2)%R.
Proof.
  rewrite !grid_unfold. intros (A1 & A2 & A3) (B1 & B2 & B3) L.
  specialize (B3 ltac:(lia)).
  apply Rlt_le_trans with (F2R (2 ^ 53) e1).
  - apply F2R_lt. lia.
  - apply Rle_trans with (F2R (2 ^ 52) e2).
    + rewrite !F2R_pow2 by lia. apply bpow_le. lia.
    + apply F2R_le. lia.
Qed.

Lemma F2R_align m e e' : (e' <= e)%Z -> F2R m e = F2R (m * 2 ^ (e - e')) e'.
Proof.
  intros H. rewrite F2R_shift by lia. f_equal. lia.
Qed.

(** A grid point next to another one. *)
Lemma grid_step mc ec m e :
  grid mc ec -> grid m e ->
  ((F2R mc ec < F2R (m + 1) e)%R -> (F2R mc ec <= F2R m e)%R) /\
  ((F2R m e < F2R mc ec)%R -> (F2R (m + 1) e <= F2R mc ec)%R).
Proof.
  intros Gc G.
  destruct (Z_lt_le_dec ec e) as [L|L].
  - pose proof (grid_lt_exp _ _ _ _ Gc G L). split; intros; lra.
  - rewrite (F2R_align mc ec e L). split; intros H.
    + apply F2R_lt_inv in H. apply F2R_le. lia.
    + apply F2R_lt_inv in H. apply F2R_le. lia.
Qed.

Lemma binary_round_aux_value s m e l x :
  (0 <= m)%Z -> (e <= fexp prec emax (Zdigits2 m + e))%Z ->
  inb m e (loc_inexact l) x ->
  exists m2 e2,
    grid m2 e2 /\
    binary_round_aux prec emax s m e l = build s m2 e2 /\
    forall mc ec, grid mc ec ->
      ((x <= F2R mc ec)%R -> (F2R m2 e2 <= F2R mc ec)%R) /\
      ((F2R mc ec <= x)%R -> (F2R mc ec <= F2R m2 e2)%R).
Proof.
  intros Hm He Hx. unfold binary_round_aux.
  destruct (shr_fexp_spec m e l x Hm He Hx) as (Hinv & _ & G1).
  destruct (shr_fexp prec emax m e l) as [mrs1 e1]. cbn [fst snd] in *.
  pose proof (round_nearest_even_cases mrs1) as Hr. cbv zeta in Hr.
  set (mr := round_nearest_even (shr_m mrs1) (loc_of_shr_record mrs1)) in *.
  assert (G2 : grid mr e1 \/ ((mr = 2 ^ prec)%Z /\ (emin <= e1)%Z)).
  { rewrite grid_unfold in *. change (2 ^ prec)%Z with (2 ^ 53)%Z.
    change emin with (-1074)%Z. destruct G1 as (A & B & C).
    destruct Hr as [-> | [-> _]]; [left; auto|].
    destruct (Z.eq_dec (shr_m mrs1 + 1) (2 ^ 53)); [right; lia|left].
    split; [lia|]. split; [lia|]. intros. specialize (C ltac:(lia)). lia. }
  destruct (shr_fexp_second mr e1 G2) as [EV G3]. cbv zeta in *.
  destruct (shr_fexp prec emax mr e1 loc_Exact) as [mrs2 e2]. cbn [fst snd] in *.
  exists (shr_m mrs2), e2. split; [exact G3|]. split.
  - unfold build. change (emax - prec)%Z with 971%Z.
    destruct (shr_m mrs2); reflexivity.
  - intros mc ec Gc. rewrite EV.
    destruct Hinv as [Hm1 Hin]. unfold inb in Hin.
    destruct (grid_step mc ec (shr_m mrs1) e1 Gc G1) as [Sa Sb].
    destruct Hr as [-> | [-> Hix]].
    + destruct (shr_r mrs1 || shr_s mrs1); split; intros; lra.
    + rewrite Hix in Hin. split; intros; lra.
Qed.

(** ** Comparisons read on the reals *)

Lemma F2R_pos_gt_0 m e : (0 < F2R (Z.pos m) e)%R.
Proof.
  unfold F2R. pose proof (bpow_gt_0 e). assert (0 < IZR (Z.pos m))%R by (apply IZR_lt; lia). nra.
Qed.

Lemma F2R_opp m e : F2R (- m) e = (- F2R m e)%R.
Proof. unfold F2R. rewrite opp_IZR. ring. Qed.

Lemma F2R_neg m e : F2R (Z.neg m) e = (- F2R (Z.pos m) e)%R.
Proof. change (Z.neg m) with (- Z.pos m)%Z. apply F2R_opp. Qed.

Lemma F2R_0 e : F2R 0 e = 0%R.
Proof. unfold F2R. ring. Qed.

Lemma cmp_grid m1 e1 m2 e2 :
  grid (Z.pos m1) e1 -> grid (Z.pos m2) e2 ->
  Rcmp (match (e1 ?= e2)%Z with
        | Lt => Lt
        | Gt => Gt
        | Eq => Pos.compare_cont Eq m1 m2
        end) (F2R (Z.pos m1) e1) (F2R (Z.pos m2) e2).
Proof.
  intros G1 G2. destruct (Z.compare_spec e1 e2) as [->|L|L].
  - change (Pos.compare_cont Eq m1 m2) with (Pos.compare m1 m2).
    destruct (Pos.compare_spec m1 m2) as [->|L|L]; simpl.
    + reflexivity.
    + apply F2R_lt. lia.
    + apply F2R_lt. lia.
  - simpl. apply grid_lt_exp; assumption.
  - simpl. apply grid_lt_exp; assumption.
Qed.

Lemma Rcmp_opp c a b : Rcmp c a b -> Rcmp (CompOpp c) (- a) (- b).
Proof. destruct c; simpl; intros; lra. Qed.

Lemma valid_grid s m e :
  valid_binary (S754_finite s m e) = true -> grid (Z.pos m) e /\ (e <= 971)%Z.
Proof. simpl. apply bounded_grid. Qed.

Lemma SFcompare_R a b :
  SFfinite a = true -> SFfinite b = true ->
  valid_binary a = true -> valid_binary b = true ->
  exists c, SFcompare a b = Some c /\ Rcmp c (SF2R a) (SF2R b).
Proof.
  destruct a as [sa|sa| |sa ma ea]; try discriminate;
  destruct b as [sb|sb| |sb mb eb]; try discriminate; intros _ _ Va Vb.
  - exists Eq. split; reflexivity.
  - pose proof (F2R_pos_gt_0 mb eb).
    exists (if sb then Gt else Lt). split; [reflexivity|].
    destruct sb; simpl; rewrite ?F2R_neg; lra.
  - pose proof (F2R_pos_gt_0 ma ea).
    exists (if sa then Lt else Gt). split; [reflexivity|].
    destruct sa; simpl; rewrite ?F2R_neg; lra.
  - apply valid_grid in Va, Vb. destruct Va as [Ga _], Vb as [Gb _].
    pose proof (F2R_pos_gt_0 ma ea). pose proof (F2R_pos_gt_0 mb eb).
    pose proof (cmp_grid ma ea mb eb Ga Gb) as C.
    destruct sa, sb; simpl SFcompare; eexists; (split; [reflexivity|]);
      cbn [SF2R cond_Zopp]; rewrite ?F2R_neg, ?F2R_opp.
    + apply Rcmp_opp in C. destruct (ea ?= eb)%Z; exact C.
    + simpl. lra.
    + simpl. lra.
    + exact C.
Qed.

Lemma SFleb_R a b :
  SFfinite a = true -> SFfinite b = true ->
  valid_binary a = true -> valid_binary b = true ->
  (SFleb a b = true <-> (SF2R a <= SF2R b)%R).
Proof.
  intros Fa Fb Va Vb. destruct (SFcompare_R a b Fa Fb Va Vb) as (c & E & H).
  unfold SFleb. rewrite E. destruct c; simpl in H; split; intros; try reflexivity; try lra;
  discriminate.
Qed.

Lemma SFltb_R a b :
  SFfinite a = true -> SFfinite b = true ->
  valid_binary a = true -> valid_binary b = true ->
  (SFltb a b = true <-> (SF2R a < SF2R b)%R).
Proof.
  intros Fa Fb Va Vb. destruct (SFcompare_R a b Fa Fb Va Vb) as (c & E & H).
  unfold SFltb. rewrite E. destruct c; simpl in H; split; intros; try reflexivity; try lra;
  discriminate.
Qed.

Lemma SFcompare_opp a b : SFcompare (SFopp a) (SFopp b) = SFcompare b a.
Proof.
  destruct a as [sa|sa| |sa ma ea], b as [sb|sb| |sb mb eb];
    try destruct sa; try destruct sb; try reflexivity; simpl;
    rewrite (Z.compare_antisym ea eb); destruct (ea ?= eb)%Z; simpl; try reflexivity;
    change (Pos.compare_cont Eq mb ma) with (Pos.compare mb ma);
    change (Pos.compare_cont Eq ma mb) with (Pos.compare ma mb);
    rewrite (Pos.compare_antisym ma mb); try reflexivity.
  destruct (ma ?= mb)%positive; reflexivity.
Qed.

Lemma SFopp_involutive a : SFopp (SFopp a) = a.
Proof. destruct a as [s|s| |s m e]; simpl; rewrite ?negb_involutive; reflexivity. Qed.

Lemma SFleb_opp a b : SFleb (SFopp a) b = SFleb (SFopp b) a.
Proof.
  unfold SFleb. rewrite <- (SFopp_involutive b) at 1. rewrite SFcompare_opp. reflexivity.
Qed.

Lemma SF2R_opp a : SF2R (SFopp a) = (- SF2R a)%R.
Proof.
  destruct a as [s|s| |s m e]; simpl; try lra.
  destruct s; simpl; rewrite F2R_neg; lra.
Qed.

Lemma valid_opp a : valid_binary (SFopp a) = valid_binary a.
Proof. destruct a; reflexivity. Qed.

Lemma SFfinite_opp a : SFfinite (SFopp a) = SFfinite a.
Proof. destruct a; reflexivity. Qed.

Lemma rounds_opp x r : rounds x r -> rounds (- x) (SFopp r).
Proof.
  intros (V & N & H). split; [rewrite valid_opp; exact V|]. split.
  - destruct r; simpl; congruence.
  - intros c Fc Vc.
    destruct (H (SFopp c)) as [H1 H2]; rewrite ?SFfinite_opp, ?valid_opp; auto.
    rewrite SF2R_opp in H1, H2. split; intros.
    + rewrite SFleb_opp. apply H2. lra.
    + rewrite <- (SFopp_involutive c), SFleb_opp, SFopp_involutive. apply H1. lra.
Qed.

Lemma build_opp m e : build true m e = SFopp (build false m e).
Proof. destruct m; simpl; try reflexivity. destruct (e <=? 971)%Z; reflexivity. Qed.

Lemma build_valid s m e : grid m e -> valid_binary (build s m e) = true.
Proof.
  intros G. destruct m; simpl; try reflexivity.
  destruct (Z.leb_spec e 971); simpl; [|reflexivity].
  apply bounded_grid. auto.
Qed.

Lemma rounds_build_pos x m2 e2 :
  (0 <= x)%R -> grid m2 e2 ->
  (forall mc ec, grid mc ec ->
      ((x <= F2R mc ec)%R -> (F2R m2 e2 <= F2R mc ec)%R) /\
      ((F2R mc ec <= x)%R -> (F2R mc ec <= F2R m2 e2)%R)) ->
  rounds x (build false m2 e2).
Proof.
  intros Hx G H. split; [apply build_valid; exact G|]. split.
  { destruct m2; simpl; try discriminate; [destruct (e2 <=? 971)%Z; discriminate|].
    exfalso. rewrite grid_unfold in G. lia. }
  assert (G0 : grid 0 (-1074)) by (rewrite grid_unfold; lia).
  intros c Fc Vc. destruct c as [sc|sc| |sc mc ec]; try discriminate.
  - (* zero *)
    simpl SF2R. split; intros Hc.
    + assert (E : (F2R m2 e2 <= 0)%R).
      { destruct (H 0%Z (-1074)%Z G0) as [H1 _]. rewrite F2R_0 in H1. apply H1. lra. }
      destruct m2 as [|p|p]; [reflexivity| |exfalso; rewrite grid_unfold in G; lia].
      pose proof (F2R_pos_gt_0 p e2). lra.
    + destruct m2 as [|p|p]; [reflexivity| |exfalso; rewrite grid_unfold in G; lia].
      simpl. destruct (e2 <=? 971)%Z; reflexivity.
  - destruct (valid_grid _ _ _ Vc) as [Gc Lc].
    destruct (H (Z.pos mc) ec Gc) as [H1 H2].
    pose proof (F2R_pos_gt_0 mc ec) as Pc.
    destruct sc; cbn [SF2R cond_Zopp].
    + rewrite ?F2R_neg, ?F2R_opp. split; intros Hc; [lra|].
      destruct m2 as [|p|p]; [reflexivity| |exfalso; rewrite grid_unfold in G; lia].
      simpl. destruct (e2 <=? 971)%Z; reflexivity.
    + split; intros Hc.
      * specialize (H1 Hc).
        destruct m2 as [|p|p]; [reflexivity| |exfalso; rewrite grid_unfold in G; lia].
        simpl. destruct (Z.leb_spec e2 971) as [L|L].
        -- apply SFleb_R; try reflexivity; [apply bounded_grid; auto|exact Vc|exact H1].
        -- pose proof (grid_lt_exp _ _ _ _ Gc G ltac:(lia)). lra.
      * specialize (H2 Hc).
        destruct m2 as [|p|p]; [rewrite F2R_0 in H2; lra| |exfalso; rewrite grid_unfold in G; lia].
        simpl. destruct (Z.leb_spec e2 971) as [L|L]; [|reflexivity].
        apply SFleb_R; try reflexivity; [exact Vc|apply bounded_grid; auto|exact H2].
Qed.

Lemma inb_nonneg m e ix x : (0 <= m)%Z -> inb m e ix x -> (0 <= x)%R.
Proof.
  intros Hm H. assert (0 <= F2R m e)%R.
  { rewrite <- (F2R_0 e). apply F2R_le. exact Hm. }
  unfold inb in H. destruct ix; lra.
Qed.

(** The rounding at the heart of every operation. *)
Theorem binary_round_aux_rounds (s : bool) m e l x :
  (0 <= m)%Z -> (e <= fexp prec emax (Zdigits2 m + e))%Z ->
  inb m e (loc_inexact l) x ->
  rounds (if s then (- x)%R else x) (binary_round_aux prec emax s m e l).
Proof.
  intros Hm He Hx.
  destruct (binary_round_aux_value false m e l x Hm He Hx) as (m2 & e2 & G & E & H).
  destruct (binary_round_aux_value s m e l x Hm He Hx) as (m2' & e2' & G' & E' & H').
  pose proof (inb_nonneg _ _ _ _ Hm Hx) as Hx0.
  pose proof (rounds_build_pos x m2' e2' Hx0 G' H') as R.
  rewrite E'. destruct s; [|exact R].
  rewrite build_opp. apply rounds_opp. exact R.
Qed.

(** ** The operations round faithfully *)

Lemma rounds_self y :
  SFfinite y = true -> valid_binary y = true -> rounds (SF2R y) y.
Proof.
  intros Fy Vy. split; [exact Vy|]. split; [destruct y; discriminate|].
  intros c Fc Vc. split; intros; apply SFleb_R; assumption.
Qed.

Lemma rounds_zero s : rounds 0 (S754_zero s).
Proof. apply (rounds_self (S754_zero s)); reflexivity. Qed.

Lemma rounds_finite_le x r c :
  rounds x r -> SFfinite c = true -> valid_binary c = true ->
  (x <= SF2R c)%R -> SFleb r c = true.
Proof. intros (_ & _ & H) Fc Vc. apply H; assumption. Qed.

Lemma rounds_finite_ge x r c :
  rounds x r -> SFfinite c = true -> valid_binary c = true ->
  (SF2R c <= x)%R -> SFleb c r = true.
Proof. intros (_ & _ & H) Fc Vc. apply H; assumption. Qed.

Lemma SFleb_finite_l r c : SFfinite c = true -> SFleb r c = true -> r <> S754_infinity false.
Proof. intros Fc H ->. destruct c as [s|s| |s m e]; try discriminate. Qed.

Lemma SFleb_finite_r r c : SFfinite c = true -> SFleb c r = true -> r <> S754_infinity true.
Proof. intros Fc H ->. destruct c as [s|s| |s m e]; try discriminate; destruct s; discriminate. Qed.

(** A representable real is rounded to itself. *)
Lemma rounds_exact x r c :
  rounds x r -> SFfinite c = true -> valid_binary c = true -> SF2R c = x ->
  SFfinite r = true /\ SF2R r = x.
Proof.
  intros Hr Fc Vc E.
  pose proof (rounds_finite_le x r c Hr Fc Vc ltac:(lra)) as L1.
  pose proof (rounds_finite_ge x r c Hr Fc Vc ltac:(lra)) as L2.
  destruct Hr as (Vr & Nr & _).
  assert (Fr : SFfinite r = true).
  { destruct r as [s|[|]| |s m e]; try reflexivity; try congruence.
    - destruct c as [sc|sc| |[|] ? ?]; discriminate.
    - destruct c as [sc|sc| |[|] ? ?]; discriminate. }
  split; [exact Fr|].
  apply SFleb_R in L1, L2; try assumption. lra.
Qed.

Lemma iter_xO m d : Z.pos (Pos.iter xO m d) = (Z.pos m * 2 ^ Z.pos d)%Z.
Proof.
  induction d as [|d IH] using Pos.peano_ind.
  - simpl. lia.
  - rewrite Pos.iter_succ, Pos2Z.inj_xO, IH, Pos2Z.inj_succ, Z.pow_succ_r by lia. ring.
Qed.

Lemma shl_align_spec mx ex ex' :
  let r := shl_align mx ex ex' in
  (snd r = Z.min ex ex') /\ Z.pos (fst r) = (Z.pos mx * 2 ^ (ex - snd r))%Z.
Proof.
  unfold shl_align. remember (ex' - ex)%Z as n eqn:En.
  destruct n as [|p|p]; cbn [fst snd].
  - split; [lia|]. replace (ex - ex)%Z with 0%Z by lia. simpl. lia.
  - split; [lia|]. replace (ex - ex)%Z with 0%Z by lia. simpl. lia.
  - split; [lia|]. rewrite iter_xO. f_equal. f_equal. lia.
Qed.

Lemma shl_align_F2R mx ex ex' :
  F2R (Z.pos (fst (shl_align mx ex ex'))) (snd (shl_align mx ex ex')) = F2R (Z.pos mx) ex.
Proof.
  destruct (shl_align_spec mx ex ex') as [E1 E2]. cbv zeta in *.
  rewrite E2. rewrite F2R_shift by lia. f_equal. lia.
Qed.

Lemma Zdigits2_shift m k :
  (0 < m)%Z -> (0 <= k)%Z -> Zdigits2 (m * 2 ^ k) = (Zdigits2 m + k)%Z.
Proof.
  intros Hm Hk. pose proof (Zdigits2_bounds m Hm) as [B1 B2].
  assert (P : (0 < 2 ^ k)%Z) by (apply Z.pow_pos_nonneg; lia).
  assert (0 < Zdigits2 m)%Z by (destruct m; simpl; lia).
  apply Zdigits2_unique; [|nia].
  replace (Zdigits2 m + k - 1)%Z with ((Zdigits2 m - 1) + k)%Z by lia.
  rewrite !Z.pow_add_r by lia. nia.
Qed.

Lemma binary_round_rounds s m e :
  rounds (F2R (cond_Zopp s (Z.pos m)) e) (binary_round prec emax s m e).
Proof.
  unfold binary_round.
  change (Z.pos (digits2_pos m)) with (Zdigits2 (Z.pos m)).
  pose proof (shl_align_spec m e (fexp prec emax (Zdigits2 (Z.pos m) + e))) as [E1 E2].
  pose proof (shl_align_F2R m e (fexp prec emax (Zdigits2 (Z.pos m) + e))) as EV.
  cbv zeta in *.
  destruct (shl_align m e (fexp prec emax (Zdigits2 (Z.pos m) + e))) as [mz ez].
  cbn [fst snd] in *.
  assert (R : rounds (if s then (- F2R (Z.pos m) e)%R else F2R (Z.pos m) e)
                     (binary_round_aux prec emax s (Z.pos mz) ez loc_Exact)).
  { apply binary_round_aux_rounds; [lia| |simpl; congruence].
    rewrite E2. rewrite Zdigits2_shift by lia.
    replace (Zdigits2 (Z.pos m) + (e - ez) + ez)%Z with (Zdigits2 (Z.pos m) + e)%Z by lia.
    lia. }
  destruct s; cbn [cond_Zopp]; rewrite ?F2R_neg, ?F2R_opp; exact R.
Qed.

Lemma binary_normalize_rounds m e sz :
  rounds (F2R m e) (binary_normalize prec emax m e sz).
Proof.
  destruct m as [|p|p]; simpl binary_normalize.
  - rewrite F2R_0. apply rounds_zero.
  - apply (binary_round_rounds false).
  - apply (binary_round_rounds true).
Qed.

Lemma valid_canon s m e :
  valid_binary (S754_finite s m e) = true ->
  Z.max (Zdigits2 (Z.pos m) + e - 53) (-1074) = e /\ (e <= 971)%Z.
Proof.
  simpl. unfold SpecFloat.bounded, canonical_mantissa.
  rewrite andb_true_iff, Z.eqb_eq, Z.leb_le. auto.
Qed.

Lemma Zdigits2_mul_ge a b :
  (0 < a)%Z -> (0 < b)%Z -> (Zdigits2 a + Zdigits2 b - 1 <= Zdigits2 (a * b))%Z.
Proof.
  intros Ha Hb.
  pose proof (Zdigits2_bounds a Ha) as [A1 A2].
  pose proof (Zdigits2_bounds b Hb) as [B1 B2].
  pose proof (Zdigits2_bounds (a * b) ltac:(nia)) as [C1 C2].
  assert (0 < Zdigits2 a)%Z by (destruct a; simpl; lia).
  assert (0 < Zdigits2 b)%Z by (destruct b; simpl; lia).
  assert (L : (2 ^ (Zdigits2 a - 1 + (Zdigits2 b - 1)) < 2 ^ Zdigits2 (a * b))%Z).
  { rewrite Z.pow_add_r by lia.
    assert (0 < 2 ^ (Zdigits2 a - 1))%Z by (apply Z.pow_pos_nonneg; lia).
    assert (0 < 2 ^ (Zdigits2 b - 1))%Z by (apply Z.pow_pos_nonneg; lia).
    nia. }
  apply Z.pow_lt_mono_r_iff in L; [lia|lia|apply Zdigits2_nonneg].
Qed.

Lemma SFfinite_cases x :
  SFfinite x = true -> (exists s, x = S754_zero s) \/ (exists s m e, x = S754_finite s m e).
Proof. destruct x; try discriminate; eauto. Qed.

Theorem SFmul_rounds x y :
  SFfinite x = true -> SFfinite y = true ->
  valid_binary x = true -> valid_binary y = true ->
  rounds (SF2R x * SF2R y) (SFmul prec emax x y).
Proof.
  intros Fx Fy Vx Vy.
  destruct x as [sx|sx| |sx mx ex]; try discriminate;
  destruct y as [sy|sy| |sy my ey]; try discriminate; cbn [SFmul SF2R];
    rewrite ?Rmult_0_l, ?Rmult_0_r; try apply rounds_zero.
  destruct (valid_canon _ _ _ Vx) as [Cx _]. destruct (valid_canon _ _ _ Vy) as [Cy _].
  pose proof (Zdigits2_mul_ge (Z.pos mx) (Z.pos my) ltac:(lia) ltac:(lia)) as D.
  assert (0 < Zdigits2 (Z.pos mx))%Z by (simpl; lia).
  assert (0 < Zdigits2 (Z.pos my))%Z by (simpl; lia).
  assert (R : rounds (if xorb sx sy then (- (F2R (Z.pos mx) ex * F2R (Z.pos my) ey))%R
                      else (F2R (Z.pos mx) ex * F2R (Z.pos my) ey)%R)
                     (binary_round_aux prec emax (xorb sx sy) (Z.pos (mx * my)) (ex + ey) loc_Exact)).
  { apply binary_round_aux_rounds; [lia| |].
    - rewrite fexp_eq. rewrite Pos2Z.inj_mul. lia.
    - simpl. unfold F2R. rewrite Pos2Z.inj_mul, mult_IZR, bpow_plus. ring. }
  destruct sx, sy; cbn [xorb cond_Zopp] in *; rewrite ?F2R_neg, ?F2R_opp;
    match goal with |- rounds ?a _ => match type of R with rounds ?b _ => replace a with b by ring end end;
    exact R.
Qed.

Lemma shl_align_min_F2R s m e e' :
  (e' <= e)%Z ->
  F2R (cond_Zopp s (Z.pos (fst (shl_align m e e')))) e' = SF2R (S754_finite s m e).
Proof.
  intros L. pose proof (shl_align_spec m e e') as [E1 E2].
  pose proof (shl_align_F2R m e e') as EV. cbv zeta in *.
  replace (snd (shl_align m e e')) with e' in * by lia.
  cbn [SF2R]. destruct s; cbn [cond_Zopp]; rewrite ?F2R_neg, ?F2R_opp, EV; reflexivity.
Qed.

Lemma F2R_plus a b e : F2R (a + b) e = (F2R a e + F2R b e)%R.
Proof. unfold F2R. rewrite plus_IZR. ring. Qed.

Lemma F2R_minus a b e : F2R (a - b) e = (F2R a e - F2R b e)%R.
Proof. unfold F2R. rewrite minus_IZR. ring. Qed.

Theorem SFadd_rounds x y :
  SFfinite x = true -> SFfinite y = true ->
  valid_binary x = true -> valid_binary y = true ->
  rounds (SF2R x + SF2R y) (SFadd prec emax x y).
Proof.
  intros Fx Fy Vx Vy.
  destruct x as [sx|sx| |sx mx ex]; try discriminate;
  destruct y as [sy|sy| |sy my ey]; try discriminate.
  - replace (SF2R (S754_zero sx) + SF2R (S754_zero sy))%R with 0%R by (simpl; lra).
    destruct sx, sy; simpl; apply rounds_zero.
  - replace (SF2R (S754_zero sx) + SF2R (S754_finite sy my ey))%R
      with (SF2R (S754_finite sy my ey)) by (simpl; lra).
    simpl SFadd. apply rounds_self; assumption.
  - replace (SF2R (S754_finite sx mx ex) + SF2R (S754_zero sy))%R
      with (SF2R (S754_finite sx mx ex)) by (simpl; lra).
    simpl SFadd. apply rounds_self; assumption.
  - cbn [SFadd].
    rewrite <- (shl_align_min_F2R sx mx ex (Z.min ex ey)) by lia.
    rewrite <- (shl_align_min_F2R sy my ey (Z.min ex ey)) by lia.
    rewrite <- F2R_plus. apply binary_normalize_rounds.
Qed.

Theorem SFsub_rounds x y :
  SFfinite x = true -> SFfinite y = true ->
  valid_binary x = true -> valid_binary y = true ->
  rounds (SF2R x - SF2R y) (SFsub prec emax x y).
Proof.
  intros Fx Fy Vx Vy.
  destruct x as [sx|sx| |sx mx ex]; try discriminate;
  destruct y as [sy|sy| |sy my ey]; try discriminate.
  - replace (SF2R (S754_zero sx) - SF2R (S754_zero sy))%R with 0%R by (simpl; lra).
    destruct sx, sy; simpl; apply rounds_zero.
  - replace (SF2R (S754_zero sx) - SF2R (S754_finite sy my ey))%R
      with (- SF2R (S754_finite sy my ey))%R by (simpl; lra).
    change (SFsub prec emax (S754_zero sx) (S754_finite sy my ey))
      with (SFopp (S754_finite sy my ey)).
    apply rounds_opp, rounds_self; assumption.
  - replace (SF2R (S754_finite sx mx ex) - SF2R (S754_zero sy))%R
      with (SF2R (S754_finite sx mx ex)) by (simpl; lra).
    simpl SFsub. apply rounds_self; assumption.
  - cbn [SFsub].
    rewrite <- (shl_align_min_F2R sx mx ex (Z.min ex ey)) by lia.
    rewrite <- (shl_align_min_F2R sy my ey (Z.min ex ey)) by lia.
    rewrite <- F2R_minus. apply binary_normalize_rounds.
Qed.

Lemma loc_inexact_new_location n k :
  loc_inexact (new_location n k) = negb (k =? 0)%Z.
Proof.
  unfold new_location, new_location_even, new_location_odd.
  destruct (Z.even n), (k =? 0)%Z; reflexivity.
Qed.

Lemma fexp_mono a b : (a <= b)%Z -> (fexp prec emax a <= fexp prec emax b)%Z.
Proof. rewrite !fexp_eq. lia. Qed.

Lemma Zdigits2_ge_pow q k : (0 <= k)%Z -> (2 ^ k <= q)%Z -> (k + 1 <= Zdigits2 q)%Z.
Proof.
  intros Hk H. assert (0 < 2 ^ k)%Z by (apply Z.pow_pos_nonneg; lia).
  pose proof (Zdigits2_bounds q ltac:(lia)) as [_ B].
  assert (L : (2 ^ k < 2 ^ Zdigits2 q)%Z) by lia.
  apply Z.pow_lt_mono_r_iff in L; [lia|lia|apply Zdigits2_nonneg].
Qed.

Theorem SFdiv_core_rounds (s : bool) m1 e1 m2 e2 :
  let '(q, e', l) := SFdiv_core_binary prec emax (Z.pos m1) e1 (Z.pos m2) e2 in
  rounds (if s then (- (F2R (Z.pos m1) e1 / F2R (Z.pos m2) e2))%R
          else (F2R (Z.pos m1) e1 / F2R (Z.pos m2) e2)%R)
         (binary_round_aux prec emax s q e' l).
Proof.
  unfold SFdiv_core_binary.
  set (d1 := Zdigits2 (Z.pos m1)). set (d2 := Zdigits2 (Z.pos m2)).
  set (e' := Z.min (fexp prec emax (d1 + e1 - (d2 + e2))) (e1 - e2)).
  set (sh := (e1 - e2 - e')%Z).
  assert (Hsh : (0 <= sh)%Z) by (unfold sh, e'; lia).
  set (m' := match sh with Z.pos _ => Z.shiftl (Z.pos m1) sh | Z0 => Z.pos m1 | Z.neg _ => 0%Z end).
  assert (Em : m' = (Z.pos m1 * 2 ^ sh)%Z).
  { unfold m'. destruct sh as [|p|p]; [simpl; lia| |lia]. apply Z.shiftl_mul_pow2. lia. }
  clearbody m'.
  pose proof (Z_div_mod m' (Z.pos m2) ltac:(lia)) as DM.
  destruct (Z.div_eucl m' (Z.pos m2)) as [q r]. destruct DM as [Eq Hr].
  assert (P : (0 < 2 ^ sh)%Z) by (apply Z.pow_pos_nonneg; lia).
  assert (Hq : (0 <= q)%Z) by nia.
  apply binary_round_aux_rounds; [exact Hq| |].
  - (* enough digits *)
    apply Z.le_trans with (fexp prec emax (d1 + e1 - (d2 + e2))); [unfold e'; lia|].
    apply fexp_mono.
    destruct (Z_le_gt_dec (d1 - d2 + sh) 0) as [L|L].
    + pose proof (Zdigits2_nonneg q). unfold sh in L. lia.
    + assert (K : (d1 - d2 + sh - 1 + 1 <= Zdigits2 q)%Z).
      { apply Zdigits2_ge_pow; [lia|].
        pose proof (Zdigits2_bounds (Z.pos m1) ltac:(lia)) as [A1 A2].
        pose proof (Zdigits2_bounds (Z.pos m2) ltac:(lia)) as [B1 B2].
        fold d1 in A1, A2. fold d2 in B1, B2.
        assert (0 < d1)%Z by (unfold d1; simpl; lia).
        assert (0 < d2)%Z by (unfold d2; simpl; lia).
        set (k := (d1 - d2 + sh - 1)%Z) in *.
        assert (Pk : (0 < 2 ^ k)%Z) by (apply Z.pow_pos_nonneg; lia).
        assert (E1 : (2 ^ d2 * 2 ^ k = 2 ^ (d1 - 1) * 2 ^ sh)%Z).
        { rewrite <- !Z.pow_add_r by lia. f_equal. unfold k. lia. }
        destruct (Z_lt_le_dec q (2 ^ k)) as [C|C]; [|exact C].
        exfalso. nia. }
      unfold sh in K. lia.
  - (* position of the exact quotient *)
    rewrite loc_inexact_new_location.
    pose proof (bpow_gt_0 e') as Be. pose proof (bpow_gt_0 e2) as B2.
    assert (M2 : (0 < IZR (Z.pos m2))%R) by (apply IZR_lt; lia).
    assert (EX : (F2R (Z.pos m1) e1 / F2R (Z.pos m2) e2 =
                  IZR q * bpow e' + IZR r / IZR (Z.pos m2) * bpow e')%R).
    { unfold F2R. replace e1 with (e2 + (sh + e'))%Z by (unfold sh; lia).
      rewrite !bpow_plus, (bpow_IZR sh) by lia.
      assert (EI : (IZR (Z.pos m1) * IZR (2 ^ sh) = IZR (Z.pos m2) * IZR q + IZR r)%R).
      { rewrite <- !mult_IZR, <- plus_IZR. f_equal. lia. }
      replace (IZR (Z.pos m1) * (bpow e2 * (IZR (2 ^ sh) * bpow e')))%R
        with ((IZR (Z.pos m2) * IZR q + IZR r) * bpow e2 * bpow e')%R
        by (rewrite <- EI; ring).
      field. lra. }
    rewrite EX. unfold inb, F2R. rewrite plus_IZR.
    set (t := (IZR r / IZR (Z.pos m2))%R).
    assert (Et : (t * IZR (Z.pos m2) = IZR r)%R) by (unfold t; field; lra).
    assert (R0 : (0 <= IZR r)%R) by (apply IZR_le; lia).
    assert (R1 : (IZR r < IZR (Z.pos m2))%R) by (apply IZR_lt; lia).
    assert (T1 : (t < 1)%R) by nra.
    destruct (Z.eqb_spec r 0) as [->|Nr]; cbn [negb].
    + assert (t = 0)%R by (unfold t; field; lra). nra.
    + assert (0 < IZR r)%R by (apply IZR_lt; lia).
      assert (T0 : (0 < t)%R) by nra. nra.
Qed.

Theorem SFdiv_rounds x y :
  SFfinite x = true -> SFfinite y = true ->
  valid_binary x = true -> valid_binary y = true ->
  SF2R y <> 0%R ->
  rounds (SF2R x / SF2R y) (SFdiv prec emax x y).
Proof.
  intros Fx Fy Vx Vy Ny.
  destruct x as [sx|sx| |sx mx ex]; try discriminate;
  destruct y as [sy|sy| |sy my ey]; try discriminate; try (simpl in Ny; lra).
  - replace (SF2R (S754_zero sx) / SF2R (S754_finite sy my ey))%R with 0%R
      by (simpl SF2R at 1; unfold Rdiv; ring).
    simpl. apply rounds_zero.
  - cbn [SFdiv]. pose proof (SFdiv_core_rounds (xorb sx sy) mx ex my ey) as R.
    destruct (SFdiv_core_binary prec emax (Z.pos mx) ex (Z.pos my) ey) as [[q e'] l].
    pose proof (F2R_pos_gt_0 my ey).
    cbn [SF2R].
    destruct sx, sy; cbn [xorb cond_Zopp] in *; rewrite ?F2R_neg, ?F2R_opp;
    match goal with |- rounds ?a _ => match type of R with rounds ?b _ => replace a with b by (field; lra) end end;
    exact R.
Qed.

(** ** Infinities in the order *)

Lemma valid_finite_bound s m e :
  valid_binary (S754_finite s m e) = true -> (F2R (Z.pos m) e < bpow 1100)%R.
Proof.
  intros V. destruct (valid_grid _ _ _ V) as [G L]. rewrite grid_unfold in G.
  apply Rlt_le_trans with (F2R (2 ^ 53) e).
  - apply F2R_lt. lia.
  - rewrite F2R_pow2 by lia. apply bpow_le. lia.
Qed.

Lemma SFkey_bound x :
  valid_binary x = true -> SFfinite x = true -> (- bpow 1100 < SFkey x < bpow 1100)%R.
Proof.
  intros V F. pose proof (bpow_gt_0 1100).
  destruct x as [s|s| |s m e]; try discriminate; simpl; try lra.
  pose proof (valid_finite_bound _ _ _ V). pose proof (F2R_pos_gt_0 m e).
  destruct s; cbn [cond_Zopp]; rewrite ?F2R_neg, ?F2R_opp; lra.
Qed.

Lemma SFcompare_key a b :
  valid_binary a = true -> valid_binary b = true ->
  a <> S754_nan -> b <> S754_nan ->
  exists c, SFcompare a b = Some c /\ Rcmp c (SFkey a) (SFkey b).
Proof.
  intros Va Vb Na Nb.
  destruct (SFfinite a) eqn:Fa, (SFfinite b) eqn:Fb.
  - destruct (SFcompare_R a b Fa Fb Va Vb) as (c & E & H). exists c. split; [exact E|].
    destruct a, b; try discriminate; exact H.
  - pose proof (SFkey_bound a Va Fa).
    destruct b as [sb|[|]| |sb mb eb]; try discriminate; try congruence;
      destruct a as [sa|sa| |sa ma ea]; try discriminate;
      eexists; (split; [reflexivity|]); simpl in *; lra.
  - pose proof (SFkey_bound b Vb Fb).
    destruct a as [sa|[|]| |sa ma ea]; try discriminate; try congruence;
      destruct b as [sb|sb| |sb mb eb]; try discriminate;
      eexists; (split; [reflexivity|]); simpl in *; lra.
  - pose proof (bpow_gt_0 1100).
    destruct a as [sa|[|]| |sa ma ea]; try discriminate; try congruence;
    destruct b as [sb|[|]| |sb mb eb]; try discriminate; try congruence;
      eexists; (split; [reflexivity|]); simpl; lra.
Qed.

Lemma SFleb_key a b :
  valid_binary a = true -> valid_binary b = true ->
  (SFleb a b = true <-> a <> S754_nan /\ b <> S754_nan /\ (SFkey a <= SFkey b)%R).
Proof.
  intros Va Vb. split.
  - intros H. assert (Na : a <> S754_nan) by (intros ->; discriminate).
    assert (Nb : b <> S754_nan) by (intros ->; destruct a; discriminate).
    destruct (SFcompare_key a b Va Vb Na Nb) as (c & E & K).
    unfold SFleb in H. rewrite E in H.
    destruct c; simpl in K; try discriminate; repeat split; auto; lra.
  - intros (Na & Nb & K).
    destruct (SFcompare_key a b Va Vb Na Nb) as (c & E & K').
    unfold SFleb. rewrite E. destruct c; simpl in K'; try reflexivity. lra.
Qed.

Lemma SFltb_key a b :
  valid_binary a = true -> valid_binary b = true ->
  (SFltb a b = true <-> a <> S754_nan /\ b <> S754_nan /\ (SFkey a < SFkey b)%R).
Proof.
  intros Va Vb. split.
  - intros H. assert (Na : a <> S754_nan) by (intros ->; discriminate).
    assert (Nb : b <> S754_nan) by (intros ->; destruct a; discriminate).
    destruct (SFcompare_key a b Va Vb Na Nb) as (c & E & K).
    unfold SFltb in H. rewrite E in H.
    destruct c; simpl in K; try discriminate; repeat split; auto; lra.
  - intros (Na & Nb & K).
    destruct (SFcompare_key a b Va Vb Na Nb) as (c & E & K').
    unfold SFltb. rewrite E. destruct c; simpl in K'; try reflexivity; lra.
Qed.

Lemma leb_key a b : (a <=? b)%float = true <-> ~ fnan a /\ ~ fnan b /\ (fkey a <= fkey b)%R.
Proof. rewrite leb_spec. apply SFleb_key; apply Prim2SF_valid. Qed.

Lemma ltb_key a b : (a <? b)%float = true <-> ~ fnan a /\ ~ fnan b /\ (fkey a < fkey b)%R.
Proof. rewrite ltb_spec. apply SFltb_key; apply Prim2SF_valid. Qed.

Lemma ltb_false_key a b :
  ~ fnan a -> ~ fnan b -> ((a <? b)%float = false <-> (fkey b <= fkey a)%R).
Proof.
  intros Na Nb. pose proof (ltb_key a b) as K.
  destruct (a <? b)%float; split; intros H; try reflexivity; try discriminate.
  - destruct (proj1 K eq_refl) as (_ & _ & L). lra.
  - destruct (Rlt_le_dec (fkey a) (fkey b)) as [L|L]; [|exact L].
    assert (false = true) by (apply K; auto). discriminate.
Qed.

Lemma fkey_zero : fkey 0 = 0%R.
Proof. reflexivity. Qed.

Lemma fkey_one : fkey 1 = 1%R.
Proof.
  unfold fkey. change (Prim2SF 1) with (S754_finite false 4503599627370496 (-52)).
  cbn [SFkey SF2R cond_Zopp].
  change (Z.pos 4503599627370496) with (2 ^ 52)%Z. rewrite F2R_pow2 by lia.
  reflexivity.
Qed.

Lemma fkey_infinity : fkey infinity = bpow 1100.
Proof. reflexivity. Qed.

Lemma ffinite_key f : ffinite f -> fkey f = SF2R (Prim2SF f).
Proof. unfold ffinite, fkey. destruct (Prim2SF f); try discriminate; reflexivity. Qed.

Lemma ffinite_iff f : ffinite f <-> ~ fnan f /\ (- bpow 1100 < fkey f < bpow 1100)%R.
Proof.
  unfold ffinite, fnan, fkey. pose proof (Prim2SF_valid f) as V.
  pose proof (bpow_gt_0 1100). split.
  - intros F. split; [destruct (Prim2SF f); discriminate|].
    apply SFkey_bound; assumption.
  - intros [N B]. destruct (Prim2SF f) as [s|[|]| |s m e]; try reflexivity; try congruence;
      simpl in B; lra.
Qed.

(** What a faithful rounding says about the rank of the result. *)
Lemma rounds_key x r :
  rounds x r ->
  r <> S754_nan /\
  forall c, SFfinite c = true -> valid_binary c = true ->
    ((x <= SF2R c)%R -> (SFkey r <= SF2R c)%R) /\
    ((SF2R c <= x)%R -> (SF2R c <= SFkey r)%R).
Proof.
  intros (V & N & H). split; [exact N|].
  intros c Fc Vc. destruct (H c Fc Vc) as [H1 H2].
  assert (Kc : SFkey c = SF2R c) by (destruct c; try discriminate; reflexivity).
  split; intros Hx.
  - apply H1 in Hx. apply SFleb_key in Hx; auto. rewrite <- Kc. tauto.
  - apply H2 in Hx. apply SFleb_key in Hx; auto. rewrite <- Kc. tauto.
Qed.

(** ** Primitive floats *)

Lemma bpow_0 : bpow 0 = 1%R.
Proof. reflexivity. Qed.

Lemma bpow_1100_gt_1 : (1 < bpow 1100)%R.
Proof. rewrite <- bpow_0. apply bpow_lt. lia. Qed.

Lemma SFkey_finite c : SFfinite c = true -> SFkey c = SF2R c.
Proof. destruct c; try discriminate; reflexivity. Qed.

(** A faithful rounding between two representable bounds is finite and
    between them. *)
Lemma rounds_between x r lo hi :
  rounds x r ->
  SFfinite lo = true -> valid_binary lo = true ->
  SFfinite hi = true -> valid_binary hi = true ->
  (SF2R lo <= x <= SF2R hi)%R ->
  SFfinite r = true /\ (SF2R lo <= SF2R r <= SF2R hi)%R.
Proof.
  intros Hr Fl Vl Fh Vh [B1 B2].
  pose proof (rounds_finite_le x r hi Hr Fh Vh B2) as L1.
  pose proof (rounds_finite_ge x r lo Hr Fl Vl B1) as L2.
  destruct Hr as (Vr & Nr & _).
  assert (Fr : SFfinite r = true).
  { destruct r as [s|[|]| |s m e]; try reflexivity; try congruence.
    - destruct lo as [sc|sc| |[|] ? ?]; discriminate.
    - destruct hi as [sc|sc| |[|] ? ?]; discriminate. }
  split; [exact Fr|].
  apply SFleb_R in L1, L2; try assumption. lra.
Qed.

Lemma fmul_rounds a b :
  ffinite a -> ffinite b -> rounds (fkey a * fkey b) (Prim2SF (a * b)).
Proof.
  intros Fa Fb. rewrite mul_spec, (ffinite_key a Fa), (ffinite_key b Fb).
  apply SFmul_rounds; auto using Prim2SF_valid.
Qed.

Lemma fadd_rounds a b :
  ffinite a -> ffinite b -> rounds (fkey a + fkey b) (Prim2SF (a + b)).
Proof.
  intros Fa Fb. rewrite add_spec, (ffinite_key a Fa), (ffinite_key b Fb).
  apply SFadd_rounds; auto using Prim2SF_valid.
Qed.

Lemma fsub_rounds a b :
  ffinite a -> ffinite b -> rounds (fkey a - fkey b) (Prim2SF (a - b)).
Proof.
  intros Fa Fb. rewrite sub_spec, (ffinite_key a Fa), (ffinite_key b Fb).
  apply SFsub_rounds; auto using Prim2SF_valid.
Qed.

Lemma fdiv_rounds a b :
  ffinite a -> ffinite b -> fkey b <> 0%R -> rounds (fkey a / fkey b) (Prim2SF (a / b)).
Proof.
  intros Fa Fb Nb. rewrite div_spec. rewrite (ffinite_key a Fa), (ffinite_key b Fb) in *.
  apply SFdiv_rounds; auto using Prim2SF_valid.
Qed.

Lemma frounds_between x p lo hi :
  rounds x (Prim2SF p) -> ffinite lo -> ffinite hi ->
  (fkey lo <= x <= fkey hi)%R ->
  ffinite p /\ (fkey lo <= fkey p <= fkey hi)%R.
Proof.
  intros Hr Fl Fh B. rewrite (ffinite_key lo Fl), (ffinite_key hi Fh) in *.
  destruct (rounds_between x (Prim2SF p) (Prim2SF lo) (Prim2SF hi) Hr Fl (Prim2SF_valid _) Fh (Prim2SF_valid _) B)
    as [F K].
  split; [exact F|]. rewrite (ffinite_key p F). exact K.
Qed.

Lemma ffinite_zero : ffinite 0.
Proof. reflexivity. Qed.

Lemma ffinite_one : ffinite 1.
Proof. reflexivity. Qed.

(** Integers up to 2^53 are binary64 numbers. *)
Lemma int_representable k :
  (0 <= k <= 2 ^ 53)%Z ->
  exists c, SFfinite c = true /\ valid_binary c = true /\ SF2R c = IZR k.
Proof.
  intros Hk. destruct (Z.eq_dec k 0) as [->|N0].
  { exists (S754_zero false). repeat split. }
  destruct (Z.eq_dec k (2 ^ 53)) as [->|N1].
  { exists (S754_finite false 4503599627370496 1). repeat split.
    cbn [SF2R cond_Zopp]. unfold F2R. change 1%Z with (0 + 1)%Z.
    rewrite bpow_succ, bpow_0.
    change (2 ^ 53)%Z with (4503599627370496 * 2)%Z. rewrite mult_IZR. ring. }
  pose proof (Zdigits2_bounds k ltac:(lia)) as [B1 B2].
  pose proof (Zdigits2_le_53 k ltac:(lia)) as D.
  assert (0 < Zdigits2 k)%Z by (destruct k; simpl; lia).
  set (d := Zdigits2 k) in *.
  assert (P : (0 < 2 ^ (53 - d))%Z) by (apply Z.pow_pos_nonneg; lia).
  assert (E1 : (2 ^ d * 2 ^ (53 - d) = 2 ^ 53)%Z).
  { rewrite <- Z.pow_add_r by lia. f_equal. lia. }
  assert (E2 : (2 ^ (d - 1) * 2 ^ (53 - d) = 2 ^ 52)%Z).
  { rewrite <- Z.pow_add_r by lia. f_equal. lia. }
  exists (S754_finite false (Z.to_pos (k * 2 ^ (53 - d))) (d - 53)).
  assert (Ep : Z.pos (Z.to_pos (k * 2 ^ (53 - d))) = (k * 2 ^ (53 - d))%Z)
    by (apply Z2Pos.id; nia).
  split; [reflexivity|]. split.
  - apply (proj2 (bounded_grid _ _)). rewrite Ep, grid_unfold. split; [|lia].
    split; [lia|]. split; [nia|]. intros _. nia.
  - cbn [SF2R cond_Zopp]. rewrite Ep, F2R_shift by lia.
    replace (d - 53 + (53 - d))%Z with 0%Z by lia. unfold F2R. rewrite bpow_0. ring.
Qed.

Lemma Z2SF_rounds n : rounds (IZR n) (binary_normalize prec emax n 0 false).
Proof.
  replace (IZR n) with (F2R n 0) by (unfold F2R; rewrite bpow_0; ring).
  apply binary_normalize_rounds.
Qed.

Lemma fclassify f :
  ~ fnan f ->
  ffinite f \/ Prim2SF f = S754_infinity false \/ Prim2SF f = S754_infinity true.
Proof.
  unfold fnan, ffinite. destruct (Prim2SF f) as [s|[|]| |s m e]; intros N; auto; congruence.
Qed.

Lemma nonneg_finite f :
  (0 <=? f)%float = true -> (f <? infinity)%float = true -> ffinite f /\ (0 <= fkey f)%R.
Proof.
  intros H0 H1. apply leb_key in H0. apply ltb_key in H1.
  rewrite fkey_zero in H0. rewrite fkey_infinity in H1.
  pose proof (bpow_gt_0 1100).
  split; [|tauto]. apply ffinite_iff. split; [tauto|]. lra.
Qed.

Lemma unit_finite f :
  (0 <=? f)%float = true -> (f <=? 1)%float = true -> ffinite f /\ (0 <= fkey f <= 1)%R.
Proof.
  intros H0 H1. apply leb_key in H0, H1.
  rewrite fkey_zero in H0. rewrite fkey_one in H1.
  pose proof bpow_1100_gt_1.
  split; [|lra]. apply ffinite_iff. split; [tauto|]. lra.
Qed.

Lemma Prim2SF_one : Prim2SF 1 = S754_finite false 4503599627370496 (-52).
Proof. reflexivity. Qed.

Lemma Prim2SF_infinity : Prim2SF infinity = S754_infinity false.
Proof. reflexivity. Qed.

(** [1 - t] is at most [1] when [t] is not negative. *)
Lemma sub_le_one t : (0 <=? t)%float = true -> (1 - t <=? 1)%float = true.
Proof.
  intros H0. apply leb_key in H0. destruct H0 as (_ & Nt & K). rewrite fkey_zero in K.
  apply leb_key. destruct (fclassify t Nt) as [F | [I | I]].
  - pose proof (fsub_rounds 1 t ffinite_one F) as R. rewrite fkey_one in R.
    apply rounds_key in R. destruct R as [N R].
    destruct (R (Prim2SF 1) ffinite_one (Prim2SF_valid 1)) as [R1 _].
    rewrite <- (ffinite_key 1 ffinite_one), fkey_one in R1.
    split; [exact N|]. split; [discriminate|]. rewrite fkey_one. apply R1. lra.
  - assert (E : Prim2SF (1 - t) = S754_infinity true).
    { rewrite sub_spec, I, Prim2SF_one. reflexivity. }
    split; [unfold fnan; rewrite E; discriminate|]. split; [discriminate|].
    rewrite fkey_one. unfold fkey. rewrite E. cbn [SFkey].
    pose proof (bpow_gt_0 1100). lra.
  - exfalso. unfold fkey in K. rewrite I in K. cbn [SFkey] in K.
    pose proof (bpow_gt_0 1100). lra.
Qed.

Lemma below_one m e :
  grid m e -> (F2R m e < 1)%R -> (F2R m e <= 1 - bpow (-53))%R.
Proof.
  intros G L.
  assert (G1 : grid (2 ^ 53 - 1) (-53)) by (rewrite grid_unfold; lia).
  destruct (grid_step m e (2 ^ 53 - 1) (-53) G G1) as [S _].
  assert (E1 : F2R (2 ^ 53 - 1 + 1) (-53) = 1%R).
  { replace (2 ^ 53 - 1 + 1)%Z with (2 ^ 53)%Z by lia. rewrite F2R_pow2 by lia. apply bpow_0. }
  assert (E2 : F2R (2 ^ 53 - 1) (-53) = (1 - bpow (-53))%R).
  { rewrite F2R_minus, F2R_pow2 by lia. change (-53 + 53)%Z with 0%Z. rewrite bpow_0.
    unfold F2R. ring. }
  rewrite E1, E2 in S. apply S. exact L.
Qed.

(** [1 - t] is positive when [t] is below [1]. *)
Lemma sub_pos t :
  (0 <=? t)%float = true -> (t <? 1)%float = true -> (0 <? 1 - t)%float = true.
Proof.
  intros H0 H1. apply leb_key in H0. apply ltb_key in H1.
  destruct H0 as (_ & Nt & K0). destruct H1 as (_ & _ & K1).
  rewrite fkey_zero in K0. rewrite fkey_one in K1.
  assert (F : ffinite t).
  { apply ffinite_iff. split; [exact Nt|]. pose proof bpow_1100_gt_1. lra. }
  assert (B : (fkey t <= 1 - bpow (-53))%R).
  { rewrite (ffinite_key t F) in *. pose proof (Prim2SF_valid t) as V.
    pose proof (bpow_gt_0 (-53)).
    assert (bpow (-53) < bpow 0)%R by (apply bpow_lt; lia). rewrite bpow_0 in *.
    destruct (Prim2SF t) as [s| | |s m e]; try discriminate; cbn [SF2R] in *; try lra.
    destruct (valid_grid _ _ _ V) as [G _]. pose proof (F2R_pos_gt_0 m e).
    destruct s; cbn [cond_Zopp] in *; rewrite ?F2R_neg, ?F2R_opp in *; try lra.
    apply below_one; assumption. }
  pose proof (fsub_rounds 1 t ffinite_one F) as R. rewrite fkey_one in R.
  apply rounds_key in R. destruct R as [N R].
  set (c := S754_finite false 4503599627370496 (-105)).
  destruct (R c eq_refl eq_refl) as [_ R2].
  assert (Ec : SF2R c = bpow (-53)).
  { unfold c. cbn [SF2R cond_Zopp]. change (Z.pos 4503599627370496) with (2 ^ 52)%Z.
    rewrite F2R_pow2 by lia. reflexivity. }
  rewrite Ec in R2. specialize (R2 ltac:(lra)).
  apply ltb_key. split; [discriminate|]. split; [exact N|].
  rewrite fkey_zero. fold (fkey (1 - t)) in R2. pose proof (bpow_gt_0 (-53)). lra.
Qed.

(** Scaling a non-negative number by a factor of at most one does not
    increase it. *)
Lemma mul_le f b :
  (f <=? 1)%float = true -> (0 <=? b)%float = true ->
  fnan (f * b) \/ (fkey (f * b) <= fkey b)%R.
Proof.
  intros Hf Hb. apply leb_key in Hf, Hb.
  destruct Hf as (Nf & _ & Kf). destruct Hb as (_ & Nb & Kb).
  rewrite fkey_one in Kf. rewrite fkey_zero in Kb.
  pose proof (bpow_gt_0 1100) as P. pose proof bpow_1100_gt_1 as P1.
  destruct (fclassify f Nf) as [Ff | [If | If]];
  destruct (fclassify b Nb) as [Fb | [Ib | Ib]].
  - right. pose proof (fmul_rounds f b Ff Fb) as R. apply rounds_key in R.
    destruct R as [_ R]. destruct (R (Prim2SF b) Fb (Prim2SF_valid b)) as [R1 _].
    rewrite <- (ffinite_key b Fb) in R1. apply R1. nra.
  - unfold fnan, fkey. rewrite mul_spec, Ib. unfold ffinite in Ff.
    destruct (Prim2SF f) as [s| | |s m e]; try discriminate; [left; reflexivity|right].
    cbn [SF64mul SFmul SFkey]. destruct (xorb s false); lra.
  - exfalso. unfold fkey in Kb. rewrite Ib in Kb. cbn [SFkey] in Kb. lra.
  - exfalso. unfold fkey in Kf. rewrite If in Kf. cbn [SFkey] in Kf. lra.
  - exfalso. unfold fkey in Kf. rewrite If in Kf. cbn [SFkey] in Kf. lra.
  - exfalso. unfold fkey in Kf. rewrite If in Kf. cbn [SFkey] in Kf. lra.
  - unfold fnan. unfold fkey at 1. rewrite mul_spec, If. unfold ffinite in Fb.
    destruct (Prim2SF b) as [s| | |s m e] eqn:E; try discriminate; [left; reflexivity|right].
    cbn [SF64mul SFmul SFkey].
    assert (s = false).
    { destruct s; [|reflexivity]. unfold fkey in Kb. rewrite E in Kb.
      cbn [SFkey SF2R cond_Zopp] in Kb. rewrite ?F2R_neg, ?F2R_opp in Kb.
      pose proof (F2R_pos_gt_0 m e). lra. }
    subst s. cbn [xorb]. lra.
  - right. unfold fkey. rewrite mul_spec, If, Ib. cbn [SF64mul SFmul SFkey xorb]. lra.
  - exfalso. unfold fkey in Kb. rewrite Ib in Kb. cbn [SFkey] in Kb. lra.
Qed.

Lemma mul_pos_inf f : (0 <? f)%float = true -> (f * infinity)%float = infinity.
Proof.
  intros H. apply ltb_key in H. destruct H as (_ & Nf & K). rewrite fkey_zero in K.
  apply Prim2SF_inj. rewrite mul_spec, Prim2SF_infinity.
  unfold fnan, fkey in *. pose proof (bpow_gt_0 1100).
  destruct (Prim2SF f) as [s|s| |s m e]; try congruence; cbn [SFkey SF2R] in K.
  - lra.
  - destruct s; [lra|reflexivity].
  - destruct s; [|reflexivity]. cbn [cond_Zopp] in K. rewrite ?F2R_neg, ?F2R_opp in K.
    pose proof (F2R_pos_gt_0 m e). lra.
Qed.

(** Multiplying by one changes nothing that a comparison can see. *)
Lemma mul_one_key b : ~ fnan b -> ~ fnan (1 * b) /\ fkey (1 * b) = fkey b.
Proof.
  intros Nb. destruct (fclassify b Nb) as [Fb | [Ib | Ib]].
  - pose proof (fmul_rounds 1 b ffinite_one Fb) as R. rewrite fkey_one, Rmult_1_l in R.
    destruct (rounds_exact _ _ (Prim2SF b) R Fb (Prim2SF_valid b)) as [F E].
    { symmetry. apply ffinite_key. exact Fb. }
    split.
    + unfold fnan. intros E'. rewrite E' in F. discriminate.
    + rewrite (ffinite_key _ F). exact E.
  - unfold fnan, fkey. rewrite mul_spec, Prim2SF_one, Ib. split; [discriminate|reflexivity].
  - unfold fnan, fkey. rewrite mul_spec, Prim2SF_one, Ib. split; [discriminate|reflexivity].
Qed.

Lemma Z2SF_small k :
  (0 <= k <= 2 ^ 53)%Z ->
  let r := binary_normalize prec emax k 0 false in
  valid_binary r = true /\ SFfinite r = true /\ SF2R r = IZR k.
Proof.
  intros Hk r. pose proof (Z2SF_rounds k) as R. fold r in R.
  destruct (int_representable k Hk) as (c & Fc & Vc & Ec).
  destruct (rounds_exact _ _ c R Fc Vc Ec) as [F E].
  destruct R as (V & _). auto.
Qed.

Lemma Z2SF_pos k :
  (1 <= k <= (2 ^ 53 - 1) * 2 ^ 971)%Z ->
  let r := binary_normalize prec emax k 0 false in
  valid_binary r = true /\ SFfinite r = true /\ (1 <= SF2R r)%R.
Proof.
  intros Hk r. pose proof (Z2SF_rounds k) as R. fold r in R.
  set (hi := S754_finite false 9007199254740991 971).
  assert (Eh : SF2R hi = IZR ((2 ^ 53 - 1) * 2 ^ 971)).
  { unfold hi. cbn [SF2R cond_Zopp]. change (Z.pos 9007199254740991) with (2 ^ 53 - 1)%Z.
    rewrite <- (F2R_shift _ 0 971) by lia. unfold F2R. rewrite bpow_0. ring. }
  destruct (rounds_between _ _ (Prim2SF 1) hi R ffinite_one (Prim2SF_valid 1) eq_refl eq_refl)
    as [F B].
  { fold (fkey 1). rewrite <- (ffinite_key 1 ffinite_one), fkey_one, Eh.
    split; apply IZR_le; lia. }
  rewrite <- (ffinite_key 1 ffinite_one), fkey_one in B.
  destruct R as (V & _). split; [exact V|]. split; [exact F|]. lra.
Qed.

(** ** The network's spike bookkeeping *)

Section NetFacts.

Context {cap : Capability}.

Lemma PyLong_AsDouble_0 : PyLong_AsDouble 0 = Ok 0%float.
Proof. reflexivity. Qed.

Lemma set_spikes_same (n : Net) :
  set_spikes n (total_spike_count n) (forward_count n) = n.
Proof. destruct n; reflexivity. Qed.

Lemma spikes_ok_add (n : Net) sums c :
  spikes_ok n -> spikes_ok (set_spikes n (add_spikes (total_spike_count n) sums) c).
Proof.
  unfold spikes_ok. cbn [set_spikes total_spike_count].
  generalize (total_spike_count n) as t. induction sums as [|s rest IH]; intros t H.
  - exact H.
  - cbn [add_spikes fold_left]. apply IH. destruct t; exact I.
Qed.

Lemma count_spikes_ok sums : forall n : Net,
  spikes_ok n ->
  count_spikes sums n =
    (Ok tt, set_spikes n (add_spikes (total_spike_count n) sums) (forward_count n)).
Proof.
  induction sums as [|s rest IH]; intros n H.
  - cbn. rewrite set_spikes_same. reflexivity.
  - cbn [count_spikes]. unfold bind, get, lift, modify.
    assert (E : py_add (total_spike_count n) (PyFloat s) =
                Ok (match total_spike_count n with
                    | PyInt _ => PyFloat (0 + s)%float
                    | PyFloat x => PyFloat (x + s)%float
                    | NpFloat64 x => NpFloat64 (x + s)%float
                    end)).
    { unfold spikes_ok in H. destruct (total_spike_count n) as [z|x|x]; [subst z| |];
        reflexivity. }
    rewrite E. rewrite IH.
    + cbn [set_spikes total_spike_count forward_count add_spikes fold_left
           num_steps num_hidden_neurons num_hidden_layers layers params training].
      reflexivity.
    + unfold spikes_ok. cbn [set_spikes total_spike_count].
      destruct (total_spike_count n); exact I.
Qed.

(** One forward pass of a network with at least one time step adds its
    spike sums and counts itself. *)
Lemma forward_ok (b : Batch) (n : Net) :
  spikes_ok n -> (0 < num_steps n)%Z ->
  forward b n =
    (Ok tt, set_spikes n (add_spikes (total_spike_count n) (spike_sums (params n) b))
                       (forward_count n + 1)).
Proof.
  intros H Hs. unfold forward, bind, get, modify, ret.
  apply Z.ltb_lt in Hs. rewrite Hs. rewrite count_spikes_ok by exact H.
  reflexivity.
Qed.

(** Without a time step the pass is counted and then fails. *)
Lemma forward_stuck (b : Batch) (n : Net) :
  (num_steps n <= 0)%Z ->
  forward b n =
    (Raise RuntimeError, set_spikes n (total_spike_count n) (forward_count n + 1)).
Proof.
  intros Hs. unfold forward, bind, get, modify, ret, throw.
  apply Z.ltb_ge in Hs. rewrite Hs. reflexivity.
Qed.

Lemma reset_spikes_ok (n : Net) : spikes_ok (snd (reset_spikes n)).
Proof. reflexivity. Qed.

Lemma Net_init_inv p0 steps neurons hidden beta (n : Net) :
  Net_init p0 steps neurons hidden beta = Ok n ->
  (0 <= hidden)%Z /\ num_hidden_layers n = hidden /\ params n = p0 /\
  total_spike_count n = PyInt 0 /\ forward_count n = 0%Z /\ training n = true /\
  layers n = map (fun k => layer_kind hidden (Z.of_nat k)) (seq 0 (Z.to_nat (hidden + 1))) /\
  num_steps n = steps.
Proof.
  unfold Net_init.
  destruct (negb ((0 <=? beta)%float && (beta <=? 1)%float)); [discriminate|].
  destruct (Z.leb_spec 0 hidden) as [L|L]; cbn [negb]; [|discriminate].
  intros E. injection E as <-. cbn. repeat split; try reflexivity. exact L.
Qed.

Lemma net_call_quiet (c : NetCall) (n : Net) :
  is_forward c = false ->
  fst (net_call c n) = Ok tt /\
  (forward_count (snd (net_call c n)) = forward_count n \/
   forward_count (snd (net_call c n)) = 0%Z) /\
  (forward_count n = 0%Z -> total_spike_count n = PyInt 0 ->
   forward_count (snd (net_call c n)) = 0%Z /\
   total_spike_count (snd (net_call c n)) = PyInt 0).
Proof.
  destruct c; cbn; intros H; try discriminate; auto.
Qed.

Lemma net_calls_quiet (cs : list NetCall) : forall n : Net,
  forallb (fun c => negb (is_forward c)) cs = true ->
  forward_count n = 0%Z -> total_spike_count n = PyInt 0 ->
  fst (net_calls cs n) = Ok tt /\
  forward_count (snd (net_calls cs n)) = 0%Z /\
  total_spike_count (snd (net_calls cs n)) = PyInt 0.
Proof.
  induction cs as [|c rest IH]; intros n Hq Hc Ht.
  - cbn. auto.
  - cbn [forallb] in Hq. apply andb_true_iff in Hq. destruct Hq as [Hc1 Hq].
    apply negb_true_iff in Hc1.
    destruct (net_call_quiet c n Hc1) as (E & _ & K). destruct (K Hc Ht) as [K1 K2].
    cbn [net_calls]. unfold bind.
    destruct (net_call c n) as [r n1]. cbn [fst snd] in *. subst r.
    apply IH; assumption.
Qed.

Lemma get_spikes_per_digit_zero (n : Net) :
  forward_count n = 0%Z -> total_spike_count n = PyInt 0 ->
  get_spikes_per_digit n = (Raise ZeroDivisionError, n).
Proof.
  intros Hc Ht. unfold get_spikes_per_digit, bind, get, lift. rewrite Hc, Ht. reflexivity.
Qed.

End NetFacts.

(** ** The training loop *)

Section TrainFacts.

Context {cap : Capability}.

Lemma spikes_ok_set_training (n : Net) b : spikes_ok (set_training n b) <-> spikes_ok n.
Proof. destruct n; reflexivity. Qed.

Lemma spikes_ok_set_params (n : Net) p : spikes_ok (set_params n p) <-> spikes_ok n.
Proof. destruct n; reflexivity. Qed.

(** With at least one time step the body of the loop does not raise, and
    what it leaves depends on the batch alone, not on the decision it
    takes. *)
Lemma train_batch_ok epoch i (b : Batch) s (t : SNNTrainer) :
  spikes_ok (net t) -> (0 < num_steps (net t))%Z ->
  train_batch epoch i b s t =
    (Ok (let s' := record_loss (sig_improvement t) (loss_fn (params (net t)) b) s in
         if should_stop epoch (loss_counter s') (patience t) then Return else Next s'),
     after_batch i b t).
Proof.
  intros H Hs. unfold after_batch, train_batch, bind, on_net, modify, get, ret.
  cbn [net set_net fst snd].
  rewrite forward_ok by (try apply spikes_ok_set_training; assumption).
  cbn [fst snd set_net net params set_training set_spikes set_params set_loss_hist
       set_acc_hist set_batches patience sig_improvement loss_hist acc_hist batches].
  destruct ((i mod 100 =? 0)%Z && negb (i =? 0)%Z)%bool; cbn [fst snd];
    cbv zeta;
    destruct (should_stop epoch _ (patience t));
    destruct (should_stop 0 _ (patience t)); reflexivity.
Qed.

Lemma after_batch_fields i (b : Batch) (t : SNNTrainer) :
  spikes_ok (net t) -> (0 < num_steps (net t))%Z ->
  let t' := after_batch i b t in
  loss_hist t' = loss_hist t ++ [loss_fn (params (net t)) b] /\
  batches t' = (batches t + 1)%Z /\
  epochs t' = epochs t /\
  acc_hist t' = (if ((i mod 100 =? 0)%Z && negb (i =? 0)%Z)%bool
                 then acc_hist t ++ [accuracy_rate (params (net t)) b]
                 else acc_hist t) /\
  patience t' = patience t /\ sig_improvement t' = sig_improvement t /\
  num_epochs t' = num_epochs t /\
  params (net t') = optimizer_step (params (net t)) b /\
  forward_count (net t') = (forward_count (net t) + 1)%Z /\
  training (net t') = true /\
  spikes_ok (net t') /\
  num_steps (net t') = num_steps (net t).
Proof.
  intros H Hs. unfold after_batch, train_batch, bind, on_net, modify, get, ret.
  cbn [net set_net fst snd].
  rewrite forward_ok by (try apply spikes_ok_set_training; assumption).
  cbn [fst snd set_net net params set_training set_spikes set_params set_loss_hist
       set_acc_hist set_batches patience sig_improvement loss_hist acc_hist batches].
  destruct ((i mod 100 =? 0)%Z && negb (i =? 0)%Z)%bool; cbn [fst snd]; cbv zeta;
    destruct (should_stop 0 _ (patience t)); cbn;
    repeat split; try reflexivity;
    apply (spikes_ok_add (set_training (net t) true)); apply spikes_ok_set_training; exact H.
Qed.

Lemma after_batch_spikes_ok i (b : Batch) (t : SNNTrainer) :
  spikes_ok (net t) -> (0 < num_steps (net t))%Z -> spikes_ok (net (after_batch i b t)).
Proof. intros H Hs. apply (after_batch_fields i b t H Hs). Qed.

(** Without a time step the body of the loop fails in the forward pass:
    the pass is counted, nothing is recorded. *)
Lemma train_batch_stuck epoch i (b : Batch) s (t : SNNTrainer) :
  (num_steps (net t) <= 0)%Z ->
  let t' := snd (train_batch epoch i b s t) in
  fst (train_batch epoch i b s t) = Raise RuntimeError /\
  loss_hist t' = loss_hist t /\ batches t' = batches t /\ epochs t' = epochs t /\
  forward_count (net t') = (forward_count (net t) + 1)%Z /\
  total_spike_count (net t') = total_spike_count (net t).
Proof.
  intros Hs. cbv zeta. unfold train_batch, bind, on_net, modify, get, ret.
  cbn [net set_net fst snd].
  rewrite forward_stuck by exact Hs. cbn. repeat split; reflexivity.
Qed.

End TrainFacts.

Section LoopFacts.

Context {cap : Capability}.

Lemma run_extends_refl (t : SNNTrainer) : spikes_ok (net t) -> run_extends t t [].
Proof.
  intros H. unfold run_extends. rewrite app_nil_r. cbn [length].
  repeat split; try lia; try assumption. exists []. rewrite app_nil_r. split; [reflexivity|cbn; lia].
Qed.

Lemma run_extends_trans (t t1 t2 : SNNTrainer) l1 l2 :
  run_extends t t1 l1 -> run_extends t1 t2 l2 -> run_extends t t2 (l1 ++ l2).
Proof.
  intros (A1 & A2 & (x1 & A3 & A3') & A4 & A5 & A6 & A7 & A8 & A9)
         (B1 & B2 & (x2 & B3 & B3') & B4 & B5 & B6 & B7 & B8 & B9).
  unfold run_extends. rewrite length_app, Nat2Z.inj_add.
  repeat split; try congruence; try lia.
  - rewrite B1, A1, app_assoc. reflexivity.
  - exists (x1 ++ x2). rewrite B3, A3, app_assoc, length_app. split; [reflexivity|lia].
Qed.

Lemma run_extends_batch i (b : Batch) (t : SNNTrainer) :
  spikes_ok (net t) -> (0 < num_steps (net t))%Z ->
  run_extends t (after_batch i b t) [loss_fn (params (net t)) b].
Proof.
  intros H Hs. destruct (after_batch_fields i b t H Hs)
    as (A1 & A2 & A3 & A4 & A5 & A6 & A7 & A8 & A9 & A10 & A11 & A12).
  unfold run_extends. cbn [length]. repeat split; try assumption.
  destruct ((i mod 100 =? 0)%Z && negb (i =? 0)%Z)%bool.
  - eexists. split; [exact A4|cbn; lia].
  - exists []. rewrite app_nil_r. split; [exact A4|cbn; lia].
Qed.

Lemma feed_app sig l1 l2 s : feed sig (l1 ++ l2) s = feed sig l2 (feed sig l1 s).
Proof. apply fold_left_app. Qed.

(** One pass over a loader, for a network with at least one time step: it
    does not raise; the tracker is the fold of [record_loss] over the losses
    it appended; it returns early only on a batch after which the policy
    says stop. *)
Lemma train_epoch_run epoch (bs : list Batch) : forall i s (t : SNNTrainer),
  spikes_ok (net t) -> (0 < num_steps (net t))%Z ->
  exists ls,
    run_extends t (snd (train_epoch epoch i bs s t)) ls /\
    epochs (snd (train_epoch epoch i bs s t)) = epochs t /\
    ((fst (train_epoch epoch i bs s t) = Ok (Next (feed (sig_improvement t) ls s)) /\
      length ls = length bs) \/
     (fst (train_epoch epoch i bs s t) = Ok Return /\
      (0 < length ls <= length bs)%nat /\
      should_stop epoch (loss_counter (feed (sig_improvement t) ls s)) (patience t) = true)).
Proof.
  induction bs as [|b rest IH]; intros i s t H Hs.
  - exists []. cbn. split; [apply run_extends_refl; exact H|]. auto.
  - cbn [train_epoch]. unfold bind. rewrite train_batch_ok by assumption. cbv zeta.
    pose proof (run_extends_batch i b t H Hs) as E1.
    destruct (after_batch_fields i b t H Hs)
      as (A1 & A2 & A3 & A4 & A5 & A6 & A7 & A8 & A9 & A10 & A11 & A12).
    set (l := loss_fn (params (net t)) b) in *.
    destruct (should_stop epoch (loss_counter (record_loss (sig_improvement t) l s))
                          (patience t)) eqn:St.
    + exists [l]. cbn [fst snd ret]. split; [exact E1|]. split; [exact A3|].
      right. cbn [length feed fold_left]. repeat split; try lia. exact St.
    + destruct (IH (i + 1)%Z (record_loss (sig_improvement t) l s) (after_batch i b t) A11
                   ltac:(rewrite A12; exact Hs))
        as (ls & E2 & Ep & Hr).
      exists (l :: ls). split; [apply (run_extends_trans _ _ _ [l] ls E1 E2)|].
      split; [congruence|].
      rewrite A6, A5 in Hr. cbn [feed fold_left length] in *. fold (feed (sig_improvement t)) in *.
      destruct Hr as [[R L]|(R & L & S)]; [left|right]; repeat split; auto; lia.
Qed.

(** Without a time step a pass over a loader that yields a batch fails on
    the first one. *)
Lemma train_epoch_stuck epoch i (bs : list Batch) s (t : SNNTrainer) :
  (num_steps (net t) <= 0)%Z -> bs <> [] ->
  fst (train_epoch epoch i bs s t) = Raise RuntimeError /\
  loss_hist (snd (train_epoch epoch i bs s t)) = loss_hist t /\
  batches (snd (train_epoch epoch i bs s t)) = batches t /\
  epochs (snd (train_epoch epoch i bs s t)) = epochs t /\
  forward_count (net (snd (train_epoch epoch i bs s t))) = (forward_count (net t) + 1)%Z.
Proof.
  intros Hs Hb. destruct bs as [|b rest]; [congruence|].
  cbn [train_epoch]. unfold bind.
  destruct (train_batch_stuck epoch i b s t Hs) as (E & L & B & Ep & C & _).
  cbv zeta in *.
  destruct (train_batch epoch i b s t) as [r t1]. cbn [fst snd] in *. subst r.
  cbn [fst snd]. auto.
Qed.

Lemma train_epoch_app epoch (pre rest : list Batch) : forall i s (t : SNNTrainer),
  train_epoch epoch i (pre ++ rest) s t =
    match train_epoch epoch i pre s t with
    | (Ok (Next s1), t1) => train_epoch epoch (i + Z.of_nat (length pre)) rest s1 t1
    | r => r
    end.
Proof.
  induction pre as [|b pre IH]; intros i s t.
  - cbn. rewrite Z.add_0_r. reflexivity.
  - cbn [app train_epoch length]. unfold bind.
    destruct (train_batch epoch i b s t) as [[[s1|]|e] t1]; try reflexivity.
    rewrite IH. replace (i + 1 + Z.of_nat (length pre))%Z with (i + Z.of_nat (S (length pre)))%Z by lia.
    reflexivity.
Qed.

Lemma train_epochs_ext (f g : Z -> list Batch) n : forall a s (t : SNNTrainer),
  (forall k, (a <= k < a + Z.of_nat n)%Z -> g k = f k) ->
  train_epochs g a n s t = train_epochs f a n s t.
Proof.
  induction n as [|n IH]; intros a s t H; [reflexivity|].
  cbn [train_epochs]. rewrite H by lia. unfold bind.
  destruct (train_epoch a 0 (f a) s t) as [[[s1|]|e] t1]; try reflexivity.
  destruct (modify _ t1) as [[[]|e] t2]; try reflexivity.
  apply IH. intros k Hk. apply H. lia.
Qed.

Lemma train_epochs_plus (f : Z -> list Batch) n m : forall a s (t : SNNTrainer),
  train_epochs f a (n + m) s t =
    match train_epochs f a n s t with
    | (Ok (Next s0), t0) => train_epochs f (a + Z.of_nat n) m s0 t0
    | r => r
    end.
Proof.
  induction n as [|n IH]; intros a s t.
  - cbn. rewrite Z.add_0_r. reflexivity.
  - cbn [Nat.add train_epochs]. unfold bind.
    destruct (train_epoch a 0 (f a) s t) as [[[s1|]|e] t1]; try reflexivity.
    destruct (modify _ t1) as [[[]|e] t2]; try reflexivity.
    rewrite IH. replace (a + 1 + Z.of_nat n)%Z with (a + Z.of_nat (S n))%Z by lia.
    reflexivity.
Qed.

End LoopFacts.

Section RunFacts.

Context {cap : Capability}.

Lemma should_stop_true epoch c p :
  should_stop epoch c p = true <-> (0 < epoch)%Z /\ (p < c)%Z.
Proof. unfold should_stop. rewrite andb_true_iff, !Z.ltb_lt. reflexivity. Qed.

Lemma train_epochs_run (f : Z -> list Batch) n : forall a s (t : SNNTrainer),
  spikes_ok (net t) -> (0 < num_steps (net t))%Z ->
  exists ls,
    run_extends t (snd (train_epochs f a n s t)) ls /\
    ((fst (train_epochs f a n s t) = Ok (Next (feed (sig_improvement t) ls s)) /\
      epochs (snd (train_epochs f a n s t)) = (epochs t + Z.of_nat n)%Z /\
      length ls = length (loader_batches f a n)) \/
     (fst (train_epochs f a n s t) = Ok Return /\
      (0 < length ls <= length (loader_batches f a n))%nat /\
      exists e, (a <= e < a + Z.of_nat n)%Z /\
        epochs (snd (train_epochs f a n s t)) = (epochs t + (e - a))%Z /\
        should_stop e (loss_counter (feed (sig_improvement t) ls s)) (patience t) = true)).
Proof.
  induction n as [|n IH]; intros a s t H Hs.
  - exists []. cbn. split; [apply run_extends_refl; exact H|]. left. repeat split. lia.
  - cbn [train_epochs loader_batches]. unfold bind.
    destruct (train_epoch_run a (f a) 0 s t H Hs) as (l1 & E1 & Ep1 & R1).
    destruct (train_epoch a 0 (f a) s t) as [r1 t1]. cbn [fst snd] in *.
    destruct R1 as [[-> L1]|(-> & L1 & S1)].
    + unfold modify. cbv beta iota.
      assert (H1 : spikes_ok (net (set_epochs t1 (epochs t1 + 1)))) by (apply E1).
      assert (Hs1 : (0 < num_steps (net (set_epochs t1 (epochs t1 + 1))))%Z).
      { destruct E1 as (_ & _ & _ & _ & _ & _ & _ & _ & A9). cbn [net set_epochs].
        rewrite A9. exact Hs. }
      assert (E1' : run_extends t (set_epochs t1 (epochs t1 + 1)) l1).
      { destruct E1 as (A1 & A2 & A3 & A4 & A5 & A6 & A7 & A8 & A9).
        unfold run_extends. cbn. repeat split; assumption. }
      destruct (IH (a + 1)%Z (feed (sig_improvement t) l1 s) _ H1 Hs1) as (l2 & E2 & R2).
      exists (l1 ++ l2). split; [apply (run_extends_trans _ _ _ _ _ E1' E2)|].
      assert (Sg : sig_improvement (set_epochs t1 (epochs t1 + 1)) = sig_improvement t) by apply E1.
      assert (Pt : patience (set_epochs t1 (epochs t1 + 1)) = patience t) by apply E1.
      rewrite Sg, Pt in R2. rewrite feed_app, !length_app.
      cbn [epochs set_epochs] in R2.
      destruct R2 as [(R & Ep & L)|(R & L & e & He & Ep & S)]; [left|right].
      * repeat split; [exact R|lia|lia].
      * repeat split; [exact R|lia|lia|]. exists e. repeat split; try lia. exact S.
    + exists l1. cbn [fst snd]. split; [exact E1|]. right.
      rewrite length_app. repeat split; try lia.
      exists a. split; [lia|]. split; [cbn; lia|exact S1].
Qed.

(** A call of [train] on a network with at least one time step: it ends
    [Completed] after every batch of every epoch, or [StoppedEarly] on a
    batch after which the policy says stop. *)
Lemma train_run (f : Z -> list Batch) (t : SNNTrainer) :
  spikes_ok (net t) -> (0 < num_steps (net t))%Z ->
  exists ls,
    run_extends t (snd (train f t)) ls /\
    ((fst (train f t) = Ok Completed /\
      epochs (snd (train f t)) = (epochs t + Z.max 0 (num_epochs t))%Z /\
      length ls = length (loader_batches f 0 (Z.to_nat (num_epochs t)))) \/
     (fst (train f t) = Ok StoppedEarly /\
      (0 < length ls <= length (loader_batches f 0 (Z.to_nat (num_epochs t))))%nat /\
      exists e, (0 < e < num_epochs t)%Z /\
        epochs (snd (train f t)) = (epochs t + e)%Z /\
        should_stop e (loss_counter (feed (sig_improvement t) ls initial_early_stop))
                    (patience t) = true)).
Proof.
  intros H Hs. unfold train, bind, get.
  destruct (train_epochs_run f (Z.to_nat (num_epochs t)) 0 initial_early_stop t H Hs)
    as (ls & E & R).
  destruct (train_epochs f 0 (Z.to_nat (num_epochs t)) initial_early_stop t) as [r t1].
  cbn [fst snd] in *. exists ls.
  destruct R as [(-> & Ep & L)|(-> & L & e & He & Ep & S)]; cbn [fst snd ret].
  - split; [exact E|]. left. repeat split; [lia|exact L].
  - split; [exact E|]. right. repeat split; try lia.
    exists e. pose proof (proj1 (should_stop_true _ _ _) S).
    repeat split; try lia. exact S.
Qed.

(** Without a time step the epochs pass only as long as the loader yields
    nothing: the first batch fails. *)
Lemma train_epochs_stuck (f : Z -> list Batch) n : forall a s (t : SNNTrainer),
  (num_steps (net t) <= 0)%Z ->
  fst (train_epochs f a n s t) = Raise RuntimeError \/
  (loader_batches f a n = [] /\
   train_epochs f a n s t = (Ok (Next s), set_epochs t (epochs t + Z.of_nat n))).
Proof.
  induction n as [|n IH]; intros a s t Hs.
  - right. split; [reflexivity|]. cbn. destruct t; cbn. rewrite Z.add_0_r. reflexivity.
  - cbn [train_epochs loader_batches]. unfold bind.
    destruct (f a) as [|b rest] eqn:Ef.
    + cbn [train_epoch ret app]. unfold modify. cbv beta iota.
      destruct (IH (a + 1)%Z s (set_epochs t (epochs t + 1)) Hs) as [R|[L R]].
      * left. exact R.
      * right. split; [exact L|]. rewrite R. unfold set_epochs. cbn [epochs net num_epochs
          trainer_num_steps learning_rate trial patience sig_improvement loss_hist
          acc_hist batches].
        replace (epochs t + 1 + Z.of_nat n)%Z with (epochs t + Z.of_nat (S n))%Z by lia.
        reflexivity.
    + left. destruct (train_epoch_stuck a 0 (b :: rest) s t Hs ltac:(discriminate)) as [E _].
      destruct (train_epoch a 0 (b :: rest) s t) as [r t1]. cbn [fst] in E. subst r.
      reflexivity.
Qed.

(** A call of [train] that returns, whatever the network: what [train_run]
    says of it. *)
Lemma train_returns (f : Z -> list Batch) (t : SNNTrainer) r :
  spikes_ok (net t) ->
  fst (train f t) = Ok r ->
  exists ls,
    run_extends t (snd (train f t)) ls /\
    ((r = Completed /\
      epochs (snd (train f t)) = (epochs t + Z.max 0 (num_epochs t))%Z /\
      length ls = length (loader_batches f 0 (Z.to_nat (num_epochs t)))) \/
     (r = StoppedEarly /\
      (0 < length ls <= length (loader_batches f 0 (Z.to_nat (num_epochs t))))%nat /\
      exists e, (0 < e < num_epochs t)%Z /\
        epochs (snd (train f t)) = (epochs t + e)%Z /\
        should_stop e (loss_counter (feed (sig_improvement t) ls initial_early_stop))
                    (patience t) = true)).
Proof.
  intros H Hr. destruct (Z.ltb_spec 0 (num_steps (net t))) as [Hs|Hs].
  - destruct (train_run f t H Hs) as (ls & E & R). exists ls. split; [exact E|].
    destruct R as [(R & Ep & L)|(R & L & X)]; rewrite R in Hr; injection Hr as <-.
    + left. auto.
    + right. auto.
  - revert Hr. unfold train, bind, get.
    destruct (train_epochs_stuck f (Z.to_nat (num_epochs t)) 0 initial_early_stop t Hs)
      as [R|[L R]].
    + destruct (train_epochs f 0 _ initial_early_stop t) as [r0 t0]. cbn [fst] in R.
      subst r0. discriminate.
    + rewrite R. cbn [fst snd ret]. intros Hr. injection Hr as <-.
      exists []. split.
      * unfold run_extends. cbn. rewrite !app_nil_r. repeat split; try lia; try exact H.
        exists []. rewrite app_nil_r. split; [reflexivity|cbn; lia].
      * left. rewrite L. cbn. repeat split. lia.
Qed.

End RunFacts.

(** ** The early-stopping policy and the metric tracker *)

(** C1. The decision to stop is taken exactly when the epoch index is above
    zero and the stall counter is strictly above the patience: a counter
    equal to the patience continues, one more stops, and epoch 0 is never
    stopped.  The loop body of [train], once the forward pass of the batch
    has returned (the network has at least one time step), returns on
    exactly that condition, evaluated on the counter the tracker has just
    updated. *)
Theorem should_stop_iff :
  forall (cap : Capability) (epoch counter pat : Z),
    (should_stop epoch counter pat = true <-> (epoch > 0)%Z /\ (counter > pat)%Z) /\
    ((epoch > 0)%Z ->
       should_stop epoch pat pat = false /\
       should_stop epoch (pat + 1) pat = true) /\
    should_stop 0 counter pat = false /\
    (forall i (b : Batch) s (t : SNNTrainer),
       spikes_ok (net t) -> (0 < num_steps (net t))%Z ->
       (fst (train_batch epoch i b s t) = Ok Return <->
        (epoch > 0)%Z /\
        (loss_counter (record_loss (sig_improvement t) (loss_fn (params (net t)) b) s)
           > patience t)%Z)).
Proof.
  intros cap epoch counter pat. split; [|split; [|split]].
  - rewrite should_stop_true. lia.
  - intros H. split.
    + unfold should_stop. rewrite Z.ltb_irrefl. apply andb_false_r.
    + apply should_stop_true. lia.
  - reflexivity.
  - intros i b s t H Hs. rewrite train_batch_ok by assumption. cbn [fst]. cbv zeta.
    destruct (should_stop epoch _ (patience t)) eqn:E.
    + apply should_stop_true in E. split; [lia|reflexivity].
    + split; [discriminate|]. intros G.
      assert (should_stop epoch
                (loss_counter (record_loss (sig_improvement t) (loss_fn (params (net t)) b) s))
                (patience t) = true) by (apply should_stop_true; lia).
      congruence.
Qed.

(** C2. For every recorded loss the tracker compares it with
    [(1 - threshold) * best_loss]: a strictly smaller loss becomes the best
    loss and resets the stall counter to 0; any other loss leaves the best
    loss alone and adds exactly 1 to the counter.  The loop body of [train],
    once the forward pass of the batch has returned (the network has at
    least one time step), appends the batch's loss to the history and hands
    on the tracker's state so updated. *)
Theorem record_loss_step :
  forall (cap : Capability) (threshold loss : float) (s : EarlyStopState),
    ((loss <? (1 - threshold) * best_loss s)%float = true ->
       record_loss threshold loss s = mkEarlyStop loss 0) /\
    ((loss <? (1 - threshold) * best_loss s)%float = false ->
       record_loss threshold loss s = mkEarlyStop (best_loss s) (loss_counter s + 1)) /\
    (forall epoch i (b : Batch) (t : SNNTrainer),
       spikes_ok (net t) -> (0 < num_steps (net t))%Z ->
       let loss := loss_fn (params (net t)) b in
       loss_hist (snd (train_batch epoch i b s t)) = loss_hist t ++ [loss] /\
       (fst (train_batch epoch i b s t) = Ok Return \/
        fst (train_batch epoch i b s t) = Ok (Next (record_loss (sig_improvement t) loss s)))).
Proof.
  intros cap threshold loss s. split; [|split].
  - intros H. unfold record_loss. rewrite H. reflexivity.
  - intros H. unfold record_loss. rewrite H. reflexivity.
  - intros epoch i b t H Hs. cbv zeta. rewrite train_batch_ok by assumption. cbn [fst snd].
    split; [apply (after_batch_fields i b t H Hs)|].
    destruct (should_stop epoch _ (patience t)); auto.
Qed.

(** ** Construction *)

Lemma PyLong_AsDouble_pos k :
  (1 <= k <= (2 ^ 53 - 1) * 2 ^ 971)%Z ->
  exists d, PyLong_AsDouble k = Ok d /\ ffinite d /\ (1 <= fkey d)%R.
Proof.
  intros Hk. destruct (Z2SF_pos k Hk) as (V & F & B). cbv zeta in *.
  fold (Z2SF k) in *. exists (SF2Prim (Z2SF k)).
  assert (E : Prim2SF (SF2Prim (Z2SF k)) = Z2SF k) by (apply Prim2SF_SF2Prim; exact V).
  split.
  - unfold PyLong_AsDouble. destruct (Z2SF k); try discriminate; reflexivity.
  - unfold ffinite, fkey. rewrite E. split; [exact F|]. rewrite SFkey_finite by exact F. exact B.
Qed.

Lemma PyLong_AsDouble_exact k :
  (0 <= k <= 2 ^ 53)%Z ->
  exists d, PyLong_AsDouble k = Ok d /\ ffinite d /\ fkey d = IZR k.
Proof.
  intros Hk. destruct (Z2SF_small k Hk) as (V & F & B). cbv zeta in *.
  fold (Z2SF k) in *. exists (SF2Prim (Z2SF k)).
  assert (E : Prim2SF (SF2Prim (Z2SF k)) = Z2SF k) by (apply Prim2SF_SF2Prim; exact V).
  split.
  - unfold PyLong_AsDouble. destruct (Z2SF k); try discriminate; reflexivity.
  - unfold ffinite, fkey. rewrite E. split; [exact F|]. rewrite SFkey_finite by exact F. exact B.
Qed.

Lemma eqb_zero_false d : ffinite d -> fkey d <> 0%R -> (d =? 0)%float = false.
Proof.
  intros F N. rewrite eqb_spec. rewrite (ffinite_key d F) in N.
  destruct (SFcompare_R (Prim2SF d) (Prim2SF 0) F eq_refl (Prim2SF_valid _) (Prim2SF_valid _))
    as (c & E & H).
  unfold SFeqb. rewrite E. destruct c; try reflexivity.
  simpl in H. change (SF2R (Prim2SF 0)) with 0%R in H. contradiction.
Qed.

(** Dividing by a positive finite number does not raise. *)
Lemma float_truediv_pos x d :
  ffinite d -> (0 < fkey d)%R -> float_truediv x d = Ok (x / d)%float.
Proof.
  intros F P. unfold float_truediv. rewrite eqb_zero_false; [reflexivity|exact F|lra].
Qed.

Section Construction.

Context {cap : Capability}.

Lemma SNNTrainer_init_ok (n : Net) trial ne ns lr pat sig :
  (1 <= num_hidden_layers n)%Z ->
  (num_hidden_layers n ^ 3 <= (2 ^ 53 - 1) * 2 ^ 971)%Z ->
  exists d,
    PyLong_AsDouble (num_hidden_layers n ^ 3) = Ok d /\ ffinite d /\ (1 <= fkey d)%R /\
    SNNTrainer_init n trial ne ns lr pat sig =
      bind_result (Adam_init lr) (fun _ =>
        Ok (mkTrainer n ne ns lr trial pat (sig / d)%float [] [] 0 0)).
Proof.
  intros H1 H2.
  assert (1 <= num_hidden_layers n ^ 3)%Z.
  { change 1%Z with (1 ^ 3)%Z. apply Z.pow_le_mono_l. lia. }
  destruct (PyLong_AsDouble_pos (num_hidden_layers n ^ 3) ltac:(lia)) as (d & E & F & B).
  exists d. repeat split; try assumption.
  unfold SNNTrainer_init, py_truediv, py_float, bind_result. rewrite E.
  cbn [is_numpy orb].
  rewrite float_truediv_pos by (try assumption; lra). reflexivity.
Qed.

End Construction.

(** C3, as the code has it.  There is no [ConfigurationError]: a trainer for
    a network without hidden layers fails with [ZeroDivisionError] in the
    division by [num_hidden_layers ** 3], whatever the other arguments are; a
    negative number of hidden layers is refused earlier, by the assertion of
    [Net.__init__].  With at least one hidden layer the outcome depends on
    the learning rate alone, which the optimiser checks: a learning rate
    that is negative or not a number fails with [ValueError]; otherwise the
    construction succeeds whatever [patience] and [sig_improvement] are,
    negative ones included, and leaves empty histories and zeroed counters:
    no batch has run. *)
Theorem construction_errors :
  forall (cap : Capability) (p0 : Params) (steps neurons hidden : Z) (beta : float)
         (trial ne ns : Z) (lr : float) (pat : Z) (sig : float),
    ((hidden < 0)%Z -> Net_init p0 steps neurons hidden beta = Raise AssertionError) /\
    (forall n : Net,
       num_hidden_layers n = 0%Z ->
       SNNTrainer_init n trial ne ns lr pat sig = Raise ZeroDivisionError) /\
    (forall n : Net,
       (1 <= num_hidden_layers n)%Z ->
       (num_hidden_layers n ^ 3 <= (2 ^ 53 - 1) * 2 ^ 971)%Z ->
       ((0 <=? lr)%float = false ->
        SNNTrainer_init n trial ne ns lr pat sig = Raise ValueError) /\
       ((0 <=? lr)%float = true ->
        exists threshold,
          SNNTrainer_init n trial ne ns lr pat sig =
            Ok (mkTrainer n ne ns lr trial pat threshold [] [] 0 0))).
Proof.
  intros cap p0 steps neurons hidden beta trial ne ns lr pat sig. split; [|split].
  - intros H. unfold Net_init.
    destruct (negb ((0 <=? beta)%float && (beta <=? 1)%float)); [reflexivity|].
    destruct (Z.leb_spec 0 hidden); [lia|reflexivity].
  - intros n H. unfold SNNTrainer_init. rewrite H. reflexivity.
  - intros n H1 H2.
    destruct (SNNTrainer_init_ok n trial ne ns lr pat sig H1 H2) as (d & _ & _ & _ & E).
    rewrite E. unfold Adam_init. split; intros L; rewrite L; cbn [bind_result].
    + reflexivity.
    + eexists. reflexivity.
Qed.

(** The claim as the specification words it fails: a negative patience is
    accepted. *)
Lemma negative_patience_accepted :
  ~ (forall (n : @Net replay) (trial ne ns : Z) (lr : float) (pat : Z) (sig : float),
       (num_hidden_layers n < 1)%Z \/ (pat < 0)%Z \/ (sig <=? 0)%float = true ->
       raises (SNNTrainer_init n trial ne ns lr pat sig)).
Proof.
  intros H.
  destruct (H (demo_net 1) 0%Z 30%Z 25%Z 0.002%float (-1)%Z 0.05%float) as [e E].
  - right. left. lia.
  - vm_compute in E. discriminate.
Qed.

(** ** The metric tracker on sequences of losses *)

Lemma valid_loss_key l :
  valid_loss l -> ~ fnan l /\ (0 <= fkey l < bpow 1100)%R.
Proof.
  intros [H0 H1]. apply leb_key in H0. apply ltb_key in H1.
  rewrite fkey_zero in H0. rewrite fkey_infinity in H1. split; [tauto|lra].
Qed.

Lemma infinity_not_nan : ~ fnan infinity.
Proof. discriminate. Qed.

(** A loss below the scaled best loss is below the best loss. *)
Lemma improvement_below_best sig l b :
  (0 <=? sig)%float = true -> (0 <=? b)%float = true ->
  (l <? (1 - sig) * b)%float = true -> (l <? b)%float = true.
Proof.
  intros Hs Hb Hl. pose proof (sub_le_one sig Hs) as Hf.
  destruct (mul_le (1 - sig) b Hf Hb) as [N|K].
  - apply ltb_key in Hl. tauto.
  - apply ltb_key in Hl. apply leb_key in Hb. apply ltb_key.
    split; [tauto|]. split; [tauto|]. lra.
Qed.

(** A non-negative loss never undercuts its own scaled value. *)
Lemma no_improvement_on_itself sig c :
  (0 <=? sig)%float = true -> (0 <=? c)%float = true ->
  (c <? (1 - sig) * c)%float = false.
Proof.
  intros Hs Hc. destruct (c <? (1 - sig) * c)%float eqn:E; [|reflexivity].
  pose proof (improvement_below_best sig c c Hs Hc E) as L.
  apply ltb_key in L. lra.
Qed.

(** The first loss always improves on the initial best loss. *)
Lemma first_loss_improves sig c :
  (0 <=? sig)%float = true -> (sig <? 1)%float = true -> valid_loss c ->
  (c <? (1 - sig) * infinity)%float = true.
Proof.
  intros H0 H1 [_ Hc]. rewrite mul_pos_inf by (apply sub_pos; assumption). exact Hc.
Qed.

Lemma feed_constant sig c n : forall k,
  (0 <=? sig)%float = true -> (0 <=? c)%float = true ->
  feed sig (repeat c n) (mkEarlyStop c k) = mkEarlyStop c (k + Z.of_nat n).
Proof.
  induction n as [|n IH]; intros k Hs Hc.
  - cbn. f_equal. lia.
  - cbn [repeat feed fold_left]. unfold record_loss at 2. cbn [best_loss loss_counter].
    rewrite no_improvement_on_itself by assumption.
    fold (feed sig (repeat c n) (mkEarlyStop c (k + 1))). rewrite IH by assumption.
    f_equal. lia.
Qed.

(** C4, as the code has it.  For a constant sequence of a non-negative
    finite loss, a threshold in [0, 1) and the initial state, the first call
    counts as an improvement over the infinite best loss and leaves the
    stall counter at 0; every later call adds exactly 1.  After [n + 1]
    calls the counter is [n]: it reaches [patience + 1] after
    [patience + 2] calls. *)
Theorem constant_loss_counter :
  forall (sig c : float) (n : nat),
    (0 <=? sig)%float = true -> (sig <? 1)%float = true -> valid_loss c ->
    feed sig (repeat c (S n)) initial_early_stop = mkEarlyStop c (Z.of_nat n).
Proof.
  intros sig c n H0 H1 Hc. cbn [repeat feed fold_left].
  unfold record_loss at 2. cbn [best_loss initial_early_stop].
  rewrite first_loss_improves by assumption.
  fold (feed sig (repeat c n) (mkEarlyStop c 0)).
  rewrite feed_constant by (try assumption; apply Hc). reflexivity.
Qed.

(** C4 at work: threshold 0.05, loss 1.0, patience 1; the counter is 2 after
    three calls. *)
Lemma constant_loss_counter_witness :
  feed 0.05 (repeat 1.0%float 3) initial_early_stop = mkEarlyStop 1.0 2.
Proof.
  apply (constant_loss_counter 0.05 1.0 2); [reflexivity|reflexivity|split; reflexivity].
Defined.

(** The claim as the specification words it fails: with patience 1 the
    counter is 1, not 2, after two calls. *)
Lemma constant_loss_counter_lags :
  ~ (forall (sig c : float) (pat : Z),
       (0 <= pat)%Z -> valid_loss c ->
       loss_counter (feed sig (repeat c (Z.to_nat (pat + 1))) initial_early_stop)
       = (pat + 1)%Z).
Proof.
  intros H. specialize (H 0.05%float 1.0%float 1%Z ltac:(lia) (conj eq_refl eq_refl)).
  vm_compute in H. discriminate.
Qed.

(** The best loss is the initial infinity or one of the losses fed. *)
Lemma feed_best_cases sig ls :
  best_loss (feed sig ls initial_early_stop) = infinity \/
  In (best_loss (feed sig ls initial_early_stop)) ls.
Proof.
  induction ls as [|l ls IH] using rev_ind.
  - left. reflexivity.
  - rewrite feed_app. cbn [feed fold_left]. unfold record_loss.
    destruct (l <? _)%float; cbn [best_loss].
    + right. apply in_or_app. right. left. reflexivity.
    + destruct IH as [E|I]; [left; exact E|right; apply in_or_app; left; exact I].
Qed.

Lemma feed_best_nonneg sig ls :
  Forall valid_loss ls ->
  (0 <=? best_loss (feed sig ls initial_early_stop))%float = true.
Proof.
  intros H. destruct (feed_best_cases sig ls) as [E|I].
  - rewrite E. reflexivity.
  - rewrite Forall_forall in H. apply (H _ I).
Qed.

Lemma sub_zero sig : (sig =? 0)%float = true -> (1 - sig)%float = 1%float.
Proof.
  intros H. rewrite eqb_spec in H. apply Prim2SF_inj. rewrite sub_spec, Prim2SF_one.
  destruct (Prim2SF sig) as [s|s| |s m e]; try discriminate.
  - reflexivity.
  - destruct s; discriminate.
  - destruct s; discriminate.
Qed.

Lemma ltb_mul_one l b : (l <? 1 * b)%float = (l <? b)%float.
Proof.
  apply eq_true_iff_eq. rewrite !ltb_key. split.
  - intros (Nl & Nb & K).
    assert (Nb' : ~ fnan b).
    { intros N. apply Nb. unfold fnan in *. rewrite mul_spec, N. reflexivity. }
    destruct (mul_one_key b Nb') as [_ E]. rewrite E in K. auto.
  - intros (Nl & Nb & K). destruct (mul_one_key b Nb) as [N E]. rewrite E. auto.
Qed.

Lemma leb_refl_key b : ~ fnan b -> (b <=? b)%float = true.
Proof. intros N. apply leb_key. split; [exact N|]. split; [exact N|]. lra. Qed.

(** C5, as the code has it.  For a threshold that is not negative and
    non-negative finite losses, every call leaves a best loss that is not
    above the one before; with threshold 0 the best loss after every call is
    the minimum of the losses seen so far. *)
Theorem best_loss_monotone_min :
  forall (sig : float) (ls : list float) (l : float),
    (0 <=? sig)%float = true -> Forall valid_loss ls -> valid_loss l ->
    let before := best_loss (feed sig ls initial_early_stop) in
    let after := best_loss (feed sig (ls ++ [l]) initial_early_stop) in
    (after <=? before)%float = true /\
    ((sig =? 0)%float = true ->
       In after (ls ++ [l]) /\
       Forall (fun x => (after <=? x)%float = true) (ls ++ [l])).
Proof.
  intros sig ls l Hs Hls Hl. cbv zeta. split.
  - rewrite feed_app. cbn [feed fold_left]. fold (feed sig ls initial_early_stop).
    pose proof (feed_best_nonneg sig ls Hls) as Hb.
    unfold record_loss. destruct (l <? _)%float eqn:E; cbn [best_loss].
    + pose proof (improvement_below_best sig l _ Hs Hb E) as L.
      apply ltb_key in L. apply leb_key. split; [tauto|]. split; [tauto|]. lra.
    + apply leb_refl_key. apply leb_key in Hb. tauto.
  - intros Hz. clear Hs. revert l Hl.
    induction ls as [|x ls IH] using rev_ind; intros l Hl.
    + cbn [app feed fold_left]. unfold record_loss. cbn [best_loss initial_early_stop].
      rewrite (sub_zero sig Hz), ltb_mul_one. destruct Hl as [Hl0 Hl1]. rewrite Hl1.
      cbn [best_loss]. split; [left; reflexivity|].
      constructor; [|constructor]. apply leb_refl_key.
      apply leb_key in Hl0. tauto.
    + apply Forall_app in Hls. destruct Hls as [Hls Hx].
      inversion Hx as [|? ? Hx' _]; subst.
      destruct (IH Hls x Hx') as [I F].
      rewrite feed_app. cbn [feed fold_left]. fold (feed sig (ls ++ [x]) initial_early_stop).
      set (b := best_loss (feed sig (ls ++ [x]) initial_early_stop)) in *.
      assert (Vb : valid_loss b).
      { rewrite Forall_forall in Hls. apply in_app_or in I. destruct I as [I|[<-|[]]];
          [apply Hls; exact I|exact Hx']. }
      destruct (valid_loss_key b Vb) as [Nb Kb]. destruct (valid_loss_key l Hl) as [Nl Kl].
      unfold record_loss. fold b. rewrite (sub_zero sig Hz), ltb_mul_one.
      destruct (l <? b)%float eqn:E; cbn [best_loss].
      * split; [apply in_or_app; right; left; reflexivity|].
        apply Forall_app. split.
        -- apply ltb_key in E. eapply Forall_impl; [|exact F].
           intros y Hy. cbv beta in Hy. apply leb_key in Hy. apply leb_key.
           split; [tauto|]. split; [tauto|]. lra.
        -- constructor; [|constructor]. apply leb_refl_key. exact Nl.
      * split; [apply in_or_app; left; exact I|].
        apply Forall_app. split; [exact F|].
        constructor; [|constructor]. apply ltb_false_key in E; try assumption.
        apply leb_key. split; [exact Nb|]. split; [exact Nl|]. exact E.
Qed.

(** C5 at work: threshold 0, losses 3, 1, 2. *)
Lemma best_loss_monotone_min_witness :
  (best_loss (feed 0 [3; 1; 2]%float initial_early_stop)
     <=? best_loss (feed 0 [3; 1]%float initial_early_stop))%float = true /\
  In (best_loss (feed 0 [3; 1; 2]%float initial_early_stop)) [3; 1; 2]%float.
Proof.
  pose proof (best_loss_monotone_min 0 [3; 1]%float 2%float eq_refl) as H.
  assert (V : Forall valid_loss [3; 1]%float).
  { repeat constructor. }
  destruct (H V (conj eq_refl eq_refl)) as [H1 H2].
  split; [exact H1|]. exact (proj1 (H2 eq_refl)).
Defined.

(** The claim as the specification words it fails: under a negative
    threshold the best loss can go up, here from 1.0 to 1.5. *)
Lemma best_loss_can_increase :
  ~ (forall (sig : float) (ls : list float) (l : float),
       Forall valid_loss ls -> valid_loss l ->
       (best_loss (feed sig (ls ++ [l]) initial_early_stop)
          <=? best_loss (feed sig ls initial_early_stop))%float = true).
Proof.
  intros H.
  assert (V : Forall valid_loss [1.0]%float) by (repeat constructor).
  specialize (H (-1)%float [1.0]%float 1.5%float V (conj eq_refl eq_refl)).
  vm_compute in H. discriminate.
Qed.

(** ** The evaluation routine *)

Lemma ffinite_leb a b : ffinite a -> ffinite b -> (fkey a <= fkey b)%R -> (a <=? b)%float = true.
Proof.
  intros Fa Fb K. apply leb_key. apply ffinite_iff in Fa, Fb. tauto.
Qed.

Lemma fmul_bounds a d n :
  ffinite a -> (0 <= fkey a <= 1)%R -> ffinite d -> fkey d = IZR n -> (0 <= n)%Z ->
  ffinite (a * d) /\ (0 <= fkey (a * d) <= IZR n)%R.
Proof.
  intros Fa Ka Fd Kd Hn. assert (0 <= IZR n)%R by (apply IZR_le; exact Hn).
  destruct (frounds_between _ (a * d) 0 d (fmul_rounds a d Fa Fd) ffinite_zero Fd) as [F K].
  - rewrite fkey_zero, Kd. nra.
  - rewrite fkey_zero, Kd in K. auto.
Qed.

Lemma fadd_bounds x p A B :
  ffinite x -> ffinite p -> (0 <= fkey x <= IZR A)%R -> (0 <= fkey p <= IZR B)%R ->
  (0 <= A + B <= 2 ^ 53)%Z ->
  ffinite (x + p) /\ (0 <= fkey (x + p) <= IZR (A + B))%R.
Proof.
  intros Fx Fp Kx Kp HAB.
  destruct (int_representable (A + B) HAB) as (c & Fc & Vc & Ec).
  destruct (rounds_between _ _ (S754_zero false) c (fadd_rounds x p Fx Fp)
              eq_refl eq_refl Fc Vc) as [F K].
  - rewrite Ec, plus_IZR. cbn [SF2R]. lra.
  - split; [exact F|]. rewrite (ffinite_key _ F). rewrite Ec in K. cbn [SF2R] in K. exact K.
Qed.

Lemma fdiv_bounds x d :
  ffinite x -> ffinite d -> (0 <= fkey x <= fkey d)%R -> (0 < fkey d)%R ->
  ffinite (x / d) /\ (0 <= fkey (x / d) <= 1)%R.
Proof.
  intros Fx Fd Kx Kd.
  destruct (frounds_between _ (x / d) 0 1 (fdiv_rounds x d Fx Fd ltac:(lra))
              ffinite_zero ffinite_one) as [F K].
  - rewrite fkey_zero, fkey_one. split.
    + apply Rmult_le_pos; [lra|]. apply Rlt_le, Rinv_0_lt_compat. exact Kd.
    + apply Rmult_le_reg_r with (fkey d); [exact Kd|].
      unfold Rdiv. rewrite Rmult_assoc, Rinv_l by lra. lra.
  - rewrite fkey_zero, fkey_one in K. auto.
Qed.

Lemma py_add_acc t p :
  acc_ok t -> py_add t (NpFloat64 p) = Ok (NpFloat64 (acc_float t + p)).
Proof. destruct t as [z|x|x]; cbn; [intros ->|intros _|intros _]; reflexivity. Qed.

Section Evaluation.

Context {cap : Capability}.

Lemma py_sum_sizes (l : list (float * Z)) : forall tot,
  py_sum (map (fun b => PyInt (snd b)) l) (PyInt tot) =
    Ok (PyInt (tot + fold_right (fun b n => (snd b + n)%Z) 0%Z l)).
Proof.
  induction l as [|[a n] l IH]; intros tot.
  - cbn. rewrite Z.add_0_r. reflexivity.
  - cbn [map py_sum snd fold_right py_add bind_result]. rewrite IH. do 2 f_equal. lia.
Qed.

Lemma sizes_nonneg (l : list (float * Z)) :
  Forall (fun b => (0 < snd b)%Z /\
                   (0 <=? fst b)%float = true /\ (fst b <=? 1)%float = true) l ->
  (0 <= fold_right (fun b n => (snd b + n)%Z) 0%Z l)%Z.
Proof. induction 1 as [|b l' [Hb _] _ IH]; cbn [fold_right]; lia. Qed.

Lemma weighted_sum_range (l : list (float * Z)) : forall t A,
  Forall (fun b => (0 < snd b)%Z /\
                   (0 <=? fst b)%float = true /\ (fst b <=? 1)%float = true) l ->
  acc_ok t -> ffinite (acc_float t) -> (0 <= fkey (acc_float t) <= IZR A)%R ->
  (0 <= A)%Z -> (A + fold_right (fun b n => (snd b + n)%Z) 0%Z l <= 2 ^ 53)%Z ->
  exists xs x,
    py_products l = Ok xs /\ py_sum xs t = Ok x /\
    ffinite (acc_float x) /\
    (0 <= fkey (acc_float x) <= IZR (A + fold_right (fun b n => (snd b + n)%Z) 0%Z l))%R /\
    (0 <= fold_right (fun b n => (snd b + n)%Z) 0%Z l)%Z /\
    ((exists y0, t = NpFloat64 y0) \/ l <> [] -> exists y, x = NpFloat64 y).
Proof.
  induction l as [|[a n] l IH]; intros t A Hl Ht Ft Kt HA HT.
  - exists [], t. cbn. rewrite Z.add_0_r. repeat split; auto; try lra; try lia.
    intros [H|H]; [exact H|congruence].
  - inversion Hl as [|? ? Hb Hrest]; subst. cbn [fst snd] in Hb.
    destruct Hb as (Hn & Ha0 & Ha1).
    cbn [fold_right snd] in *.
    set (T := fold_right (fun b n => (snd b + n)%Z) 0%Z l) in *.
    assert (Tl : (0 <= T)%Z).
    { apply sizes_nonneg. exact Hrest. }
    destruct (PyLong_AsDouble_exact n ltac:(lia)) as (d & Ed & Fd & Kd).
    destruct (unit_finite a Ha0 Ha1) as [Fa Ka].
    destruct (fmul_bounds a d n Fa Ka Fd Kd ltac:(lia)) as [Fp Kp].
    destruct (fadd_bounds (acc_float t) (a * d) A n Ft Fp Kt Kp ltac:(lia)) as [Fs Ks].
    destruct (IH (NpFloat64 (acc_float t + a * d)) (A + n)%Z Hrest I Fs Ks ltac:(lia) ltac:(lia))
      as (xs & x & E1 & E2 & Fx & Kx & _ & Hx).
    exists (NpFloat64 (a * d) :: xs), x.
    cbn [py_products py_mul py_float bind_result]. rewrite Ed.
    cbn [bind_result float_result is_numpy orb].
    rewrite E1. cbn [bind_result py_sum]. rewrite py_add_acc by exact Ht.
    cbn [bind_result]. split; [reflexivity|]. split; [exact E2|].
    replace (A + (n + T))%Z with (A + n + T)%Z by lia.
    repeat split; auto; try apply Kx; try lia.
    intros _. apply Hx. left. eauto.
Qed.

(** The weighted average of valid batches is defined and is a fraction. *)
Lemma weighted_average_range (l : list (float * Z)) :
  l <> [] ->
  Forall (fun b => (0 < snd b)%Z /\
                   (0 <=? fst b)%float = true /\ (fst b <=? 1)%float = true) l ->
  (fold_right (fun b n => (snd b + n)%Z) 0%Z l <= 2 ^ 53)%Z ->
  exists v, weighted_average l = Ok v /\ (0 <=? v)%float = true /\ (v <=? 1)%float = true.
Proof.
  intros Hne Hl Hs.
  destruct (weighted_sum_range l (PyInt 0) 0%Z Hl eq_refl ffinite_zero) as
    (xs & x & E1 & E2 & Fx & Kx & Tl & Hx).
  { cbn [acc_float]. rewrite fkey_zero. lra. }
  { lia. }
  { lia. }
  destruct (Hx (or_intror Hne)) as [y ->]. cbn [acc_float] in *.
  set (T := fold_right (fun b n => (snd b + n)%Z) 0%Z l) in *.
  assert (Tp : (0 < T)%Z).
  { destruct l as [|[a n] l']; [congruence|]. inversion Hl as [|? ? Hb Hrest]; subst.
    cbn [snd] in Hb. unfold T. cbn [fold_right snd].
    assert (0 <= fold_right (fun b n => (snd b + n)%Z) 0%Z l')%Z.
    { apply sizes_nonneg. exact Hrest. }
    lia. }
  destruct (PyLong_AsDouble_exact T ltac:(lia)) as (d & Ed & Fd & Kd).
  assert (Kd' : (0 < fkey d)%R) by (rewrite Kd; apply IZR_lt; exact Tp).
  destruct (fdiv_bounds y d Fx Fd) as [Fv Kv]; [rewrite Kd; cbn [Z.add] in Kx; exact Kx|exact Kd'|].
  exists (y / d)%float. split.
  - unfold weighted_average. rewrite E1. cbn [bind_result]. rewrite E2. cbn [bind_result].
    rewrite py_sum_sizes. cbn [bind_result Z.add]. fold T.
    cbn [py_truediv py_float bind_result]. rewrite Ed. reflexivity.
  - split; apply ffinite_leb; auto using ffinite_zero, ffinite_one;
      rewrite ?fkey_zero, ?fkey_one; lra.
Qed.

End Evaluation.

Section EvaluationLoop.

Context {cap : Capability}.

(** What counting spikes cannot touch. *)
Lemma count_spikes_frame sums : forall n : Net,
  let n' := snd (count_spikes sums n) in
  params n' = params n /\ training n' = training n /\
  forward_count n' = forward_count n /\ layers n' = layers n /\
  num_hidden_layers n' = num_hidden_layers n.
Proof.
  induction sums as [|s rest IH]; intros n; cbv zeta.
  - cbn. auto.
  - cbn [count_spikes]. unfold bind, get, lift, modify.
    destruct (py_add (total_spike_count n) (PyFloat s)) as [t|e]; cbn [snd]; auto.
    destruct (IH (set_spikes n t (forward_count n))) as (A & B & C & D & E).
    cbn [set_spikes params training forward_count layers num_hidden_layers] in *. auto.
Qed.

Lemma forward_frame (b : Batch) (n : Net) :
  let n' := snd (forward b n) in
  params n' = params n /\ training n' = training n /\
  layers n' = layers n /\ num_hidden_layers n' = num_hidden_layers n.
Proof.
  cbv zeta. unfold forward, bind, get, modify, ret, throw.
  destruct (0 <? num_steps n)%Z; [|cbn; auto].
  destruct (count_spikes_frame (spike_sums (params n) b) n) as (A & B & C & D & E).
  destruct (count_spikes (spike_sums (params n) b) n) as [[[]|e] n1]; cbn [snd] in *; auto.
Qed.

Lemma same_run_refl t : same_run t t.
Proof. unfold same_run. auto 10. Qed.

Lemma same_run_trans t1 t2 t3 : same_run t1 t2 -> same_run t2 t3 -> same_run t1 t3.
Proof. unfold same_run. intuition congruence. Qed.

Lemma on_net_forward_frame (b : Batch) (t : SNNTrainer) :
  same_run t (snd (on_net (forward b) t)) /\
  training (net (snd (on_net (forward b) t))) = training (net t).
Proof.
  unfold on_net. destruct (forward_frame b (net t)) as (A & B & _).
  destruct (forward b (net t)) as [r n1]. cbn [snd] in *.
  unfold same_run. destruct t; cbn in *. auto 10.
Qed.

Lemma accuracy_loop_frame (bs : list Batch) : forall tacc tot (t : SNNTrainer),
  same_run t (snd (accuracy_loop bs tacc tot t)) /\
  training (net (snd (accuracy_loop bs tacc tot t))) = training (net t).
Proof.
  induction bs as [|b rest IH]; intros tacc tot t.
  - cbn. split; [apply same_run_refl|reflexivity].
  - cbn [accuracy_loop]. unfold bind, get, lift.
    destruct (on_net_forward_frame b t) as [S1 T1].
    destruct (on_net (forward b) t) as [[[]|e] t1]; cbn [snd] in *; [|auto].
    destruct (py_mul _ _) as [x|e]; [|auto].
    destruct (py_add tacc x) as [tacc'|e]; [|auto].
    destruct (py_add tot _) as [tot'|e]; [|auto].
    destruct (IH tacc' tot' t1) as [S2 T2]. split.
    + eapply same_run_trans; eassumption.
    + congruence.
Qed.

Lemma total_size_map (p : Params) (bs : list Batch) :
  fold_right (fun b n => (snd b + n)%Z) 0%Z
    (map (fun b => (accuracy_rate p b, size0 b)) bs) = total_size bs.
Proof.
  unfold total_size. induction bs as [|b bs IH]; [reflexivity|].
  cbn [map fold_right snd]. rewrite IH. reflexivity.
Qed.

(** Without a time step the loop fails on the first batch. *)
Lemma accuracy_loop_stuck (bs : list Batch) tacc tot (t : SNNTrainer) :
  (num_steps (net t) <= 0)%Z -> bs <> [] ->
  fst (accuracy_loop bs tacc tot t) = Raise RuntimeError.
Proof.
  intros Hs Hb. destruct bs as [|b rest]; [congruence|].
  cbn [accuracy_loop]. unfold bind, get, on_net.
  rewrite forward_stuck by exact Hs. reflexivity.
Qed.

(** With at least one time step the loop computes the sums of the
    specification's formula. *)
Lemma accuracy_loop_sums (bs : list Batch) : forall tacc tot (t : SNNTrainer),
  spikes_ok (net t) -> (0 < num_steps (net t))%Z -> acc_ok tacc ->
  fst (accuracy_loop bs tacc (PyInt tot) t) =
    bind_result (py_products (map (fun b => (accuracy_rate (params (net t)) b, size0 b)) bs))
      (fun xs =>
    bind_result (py_sum xs tacc) (fun num =>
    bind_result (py_sum (map (fun b => PyInt (size0 b)) bs) (PyInt tot)) (fun den =>
    Ok (num, den)))) /\
  (forall r, fst (accuracy_loop bs tacc (PyInt tot) t) = Ok r ->
     forward_count (net (snd (accuracy_loop bs tacc (PyInt tot) t)))
       = (forward_count (net t) + Z.of_nat (length bs))%Z).
Proof.
  induction bs as [|b rest IH]; intros tacc tot t H Hs Ht.
  - cbn. split; [reflexivity|]. intros _ _. lia.
  - cbn [accuracy_loop map py_products length]. unfold bind, get, lift, on_net.
    rewrite forward_ok by assumption. cbn [fst snd].
    set (n1 := set_spikes (net t) _ _).
    assert (H1 : spikes_ok (net (set_net t n1))) by (apply spikes_ok_add; exact H).
    assert (P1 : params (net (set_net t n1)) = params (net t)) by reflexivity.
    assert (C1 : forward_count (net (set_net t n1)) = (forward_count (net t) + 1)%Z)
      by reflexivity.
    cbn [py_mul py_float bind_result].
    destruct (PyLong_AsDouble (size0 b)) as [d|e]; cbn [bind_result fst snd];
      [|split; [reflexivity|discriminate]].
    cbn [float_result is_numpy orb].
    rewrite py_add_acc by exact Ht. cbn [py_add bind_result].
    destruct (IH (NpFloat64 (acc_float tacc + accuracy_rate (params (net t)) b * d))
                 (tot + size0 b)%Z (set_net t n1) H1 Hs I) as [E C].
    rewrite P1 in E. rewrite E. split.
    + destruct (py_products _) as [xs|e]; [|reflexivity].
      cbn [bind_result py_sum py_add]. rewrite py_add_acc by exact Ht. reflexivity.
    + intros r Hr. rewrite (C r) by (rewrite E; exact Hr). rewrite C1. lia.
Qed.

(** A loop that returns has counted one forward pass per batch, whatever
    the network. *)
Lemma accuracy_loop_count (bs : list Batch) tacc tot (t : SNNTrainer) :
  spikes_ok (net t) -> acc_ok tacc ->
  forall r, fst (accuracy_loop bs tacc (PyInt tot) t) = Ok r ->
    forward_count (net (snd (accuracy_loop bs tacc (PyInt tot) t)))
      = (forward_count (net t) + Z.of_nat (length bs))%Z.
Proof.
  intros H Ht r Hr. destruct (Z.ltb_spec 0 (num_steps (net t))) as [Hs|Hs].
  - apply (proj2 (accuracy_loop_sums bs tacc tot t H Hs Ht) r Hr).
  - destruct bs as [|b rest]; [cbn; lia|].
    rewrite (accuracy_loop_stuck (b :: rest) tacc (PyInt tot) t Hs) in Hr by discriminate.
    discriminate.
Qed.

End EvaluationLoop.

(** C6, as the code has it.  For a network with at least one time step and
    batches that are not empty, with a fraction as accuracy, at least one of
    them and at most 2^53 samples in all, the evaluation returns the
    size-weighted average
    [sum(accuracy * size) / sum(size)], a value in [0, 1].  Sizes 3 and 1
    with accuracies 1.0 and 0.0 give 0.75, not the mean of means 0.5. *)
Theorem get_accuracy_weighted_average :
  (forall (cap : Capability) (t : SNNTrainer) (bs : list Batch),
     spikes_ok (net t) -> (0 < num_steps (net t))%Z -> bs <> [] ->
     Forall (valid_batch (params (net t))) bs ->
     (total_size bs <= 2 ^ 53)%Z ->
     exists v,
       fst (get_accuracy bs t) = Ok v /\
       weighted_average (map (fun b => (accuracy_rate (params (net t)) b, size0 b)) bs)
         = Ok v /\
       (0 <=? v)%float = true /\ (v <=? 1)%float = true) /\
  fst (@get_accuracy replay [observed 3 0.1 1.0; observed 1 0.1 0.0]%float
         (demo_trainer 2 1 0.05)) = Ok 0.75%float.
Proof.
  split; [|vm_compute; reflexivity].
  intros cap t bs H Hst Hne Hv Hs.
  set (l := map (fun b => (accuracy_rate (params (net t)) b, size0 b)) bs).
  assert (El : fold_right (fun b n => (snd b + n)%Z) 0%Z l = total_size bs)
    by apply total_size_map.
  destruct (weighted_average_range l) as (v & E & B0 & B1).
  - unfold l. destruct bs; [congruence|discriminate].
  - unfold l. rewrite Forall_map. eapply Forall_impl; [|exact Hv].
    intros b Hb. exact Hb.
  - rewrite El. exact Hs.
  - exists v. split; [|auto].
    unfold get_accuracy, bind, on_net, modify, lift. cbn [fst snd net set_net].
    destruct (accuracy_loop_sums bs (PyInt 0) 0 (set_net t (set_training (net t) false)))
      as [Es _]; [apply spikes_ok_set_training; exact H|exact Hst|reflexivity|].
    destruct (accuracy_loop bs (PyInt 0) (PyInt 0) _) as [r t']. cbn [fst] in Es.
    subst r. cbn [net set_net params set_training] in *. fold l.
    unfold weighted_average in E. revert E. fold l.
    replace (map (fun b => PyInt (size0 b)) bs) with (map (fun b => PyInt (snd b)) l)
      by (unfold l; rewrite map_map; reflexivity).
    destruct (py_products l) as [xs|e]; cbn [bind_result]; [|discriminate].
    destruct (py_sum xs (PyInt 0)) as [num|e]; cbn [bind_result]; [|discriminate].
    destruct (py_sum _ (PyInt 0)) as [den|e]; cbn [bind_result fst snd]; [|discriminate].
    intros E. exact E.
Qed.

(** C6 at work: batches of 3 and 1 samples with accuracies 1.0 and 0.0. *)
Lemma get_accuracy_weighted_average_witness :
  exists v,
    fst (@get_accuracy replay [observed 3 0.1 1.0; observed 1 0.1 0.0]%float
           (demo_trainer 2 1 0.05)) = Ok v /\
    (0 <=? v)%float = true /\ (v <=? 1)%float = true.
Proof.
  destruct (proj1 get_accuracy_weighted_average replay (demo_trainer 2 1 0.05)
              [observed 3 0.1 1.0; observed 1 0.1 0.0]%float) as (v & E & _ & B).
  - exact (eq_refl : 0%Z = 0%Z).
  - reflexivity.
  - discriminate.
  - repeat constructor.
  - vm_compute. discriminate.
  - exists v. split; [exact E|exact B].
Defined.

(** The claim as the specification words it fails: over an empty loader
    the evaluation raises instead of returning a value. *)
Lemma get_accuracy_empty_raises :
  ~ (forall (t : @SNNTrainer replay) (bs : list Observed),
       exists v, fst (@get_accuracy replay bs t) = Ok v /\
                 (0 <=? v)%float = true /\ (v <=? 1)%float = true).
Proof.
  intros H. destruct (H (demo_trainer 2 1 0.05) []) as (v & E & _).
  vm_compute in E. discriminate.
Qed.

(** C8, as the code has it.  The evaluation leaves the loss and accuracy
    histories, the epoch and batch counters and the configuration of the
    trainer as they were, and it does not update the parameters of the
    model.  It is not free of side effects on the model: it puts the network
    in evaluation mode and every batch runs a forward pass, which the spike
    bookkeeping of the network counts.  The best loss and the stall counter
    are local to [train] and out of its reach. *)
Theorem get_accuracy_frame :
  forall (cap : Capability) (t : SNNTrainer) (bs : list Batch),
    let t' := snd (get_accuracy bs t) in
    loss_hist t' = loss_hist t /\ acc_hist t' = acc_hist t /\
    epochs t' = epochs t /\ batches t' = batches t /\
    patience t' = patience t /\ sig_improvement t' = sig_improvement t /\
    num_epochs t' = num_epochs t /\
    params (net t') = params (net t) /\
    training (net t') = false /\
    (spikes_ok (net t) ->
     forall v, fst (get_accuracy bs t) = Ok v ->
       forward_count (net t') = (forward_count (net t) + Z.of_nat (length bs))%Z).
Proof.
  intros cap t bs. cbv zeta.
  unfold get_accuracy, bind, on_net, modify, lift. cbn [fst snd net set_net].
  set (t0 := set_net t (set_training (net t) false)).
  destruct (accuracy_loop_frame bs (PyInt 0) (PyInt 0) t0) as [S T].
  pose proof (accuracy_loop_count bs (PyInt 0) 0 t0) as L.
  destruct (accuracy_loop bs (PyInt 0) (PyInt 0) t0) as [[r|e] t1]; cbn [fst snd] in *.
  - destruct S as (A1 & A2 & A3 & A4 & A5 & A6 & A7 & A8).
    repeat split; try assumption.
    intros H v Hv. apply (L ltac:(apply spikes_ok_set_training; exact H) eq_refl r eq_refl).
  - destruct S as (A1 & A2 & A3 & A4 & A5 & A6 & A7 & A8).
    repeat split; try assumption. intros _ v Hv. discriminate.
Qed.

(** The claim as the specification words it fails: the evaluation is not
    free of side effects, a forward pass is counted. *)
Lemma get_accuracy_counts_forward_passes :
  ~ (forall (t : @SNNTrainer replay) (bs : list Observed),
       snd (@get_accuracy replay bs t) = t).
Proof.
  intros H.
  specialize (H (demo_trainer 2 1 0.05) [observed 3 0.1 1.0]%float).
  apply (f_equal (fun t => forward_count (net t))) in H.
  vm_compute in H. discriminate.
Qed.

(** ** The end-to-end scenario *)

(** C7. With one hidden layer and a base significance of 0.05 the derived
    threshold is 0.05.  The losses 1.0, 0.96, 0.95 fed from the initial state
    give best loss 1.0 and stall 0, then stall 1, then stall 2, the best loss
    staying 1.0.  With patience 1 the policy in epoch 1 continues at stall 1
    and stops at stall 2, and a run whose epoch 1 starts with these losses
    halts right after the third: the fourth batch is never processed. *)
Theorem scenario_threshold_005 :
  @SNNTrainer_init replay (demo_net 1) 0 2 25 0.002 1 0.05 = Ok (demo_trainer 2 1 0.05) /\
  feed 0.05 [1.0]%float initial_early_stop = mkEarlyStop 1.0 0 /\
  feed 0.05 [1.0; 0.96]%float initial_early_stop = mkEarlyStop 1.0 1 /\
  feed 0.05 [1.0; 0.96; 0.95]%float initial_early_stop = mkEarlyStop 1.0 2 /\
  should_stop 1 1 1 = false /\
  should_stop 1 2 1 = true /\
  fst (@train replay scenario_loader (demo_trainer 2 1 0.05)) = Ok StoppedEarly /\
  loss_hist (snd (@train replay scenario_loader (demo_trainer 2 1 0.05))) = [1.0; 0.96; 0.95]%float /\
  batches (snd (@train replay scenario_loader (demo_trainer 2 1 0.05))) = 3%Z /\
  epochs (snd (@train replay scenario_loader (demo_trainer 2 1 0.05))) = 1%Z.
Proof. repeat split; vm_compute; reflexivity. Qed.

(** ** Halting *)

(** C9. For a network with at least one time step, let the policy say stop
    after batch [b] of epoch [e], the epochs before [e] and the batches
    [pre] before [b] having passed without a stop.  Then [train] ends [StoppedEarly] in the state that batch left:
    neither the remaining batches [post] of the epoch nor any later epoch is
    processed, so a loader that differs only there gives the same run.
    A call of [train] ends in [StoppedEarly] or [Completed], never in
    [Running], and processes nothing after that. *)
Theorem train_halts_at_first_stop :
  forall (cap : Capability) (f g : Z -> list Batch) (t t0 t1 : SNNTrainer)
         (e : Z) (pre post post' : list Batch) (b : Batch) (s0 s1 : EarlyStopState),
    spikes_ok (net t) -> (0 < num_steps (net t))%Z ->
    (0 <= e < num_epochs t)%Z ->
    f e = pre ++ b :: post ->
    g e = pre ++ b :: post' ->
    (forall k, (0 <= k < e)%Z -> g k = f k) ->
    train_epochs f 0 (Z.to_nat e) initial_early_stop t = (Ok (Next s0), t0) ->
    train_epoch e 0 pre s0 t0 = (Ok (Next s1), t1) ->
    should_stop e
      (loss_counter (record_loss (sig_improvement t1) (loss_fn (params (net t1)) b) s1))
      (patience t1) = true ->
    train f t = (Ok StoppedEarly, after_batch (Z.of_nat (length pre)) b t1) /\
    train g t = (Ok StoppedEarly, after_batch (Z.of_nat (length pre)) b t1) /\
    batches (after_batch (Z.of_nat (length pre)) b t1) = (batches t1 + 1)%Z /\
    (forall h r t', train h t = (Ok r, t') -> r = StoppedEarly \/ r = Completed).
Proof.
  intros cap f g t t0 t1 e pre post post' b s0 s1 H Hs He Ef Eg Hk R0 R1 St.
  assert (H0 : spikes_ok (net t0) /\ (0 < num_steps (net t0))%Z).
  { destruct (train_epochs_run f (Z.to_nat e) 0 initial_early_stop t H Hs) as (ls & E & _).
    rewrite R0 in E. cbn [snd] in E.
    destruct E as (_ & _ & _ & _ & _ & _ & _ & E8 & E9). rewrite E9. auto. }
  destruct H0 as [H0 Hs0].
  assert (H1 : spikes_ok (net t1) /\ (0 < num_steps (net t1))%Z).
  { destruct (train_epoch_run e pre 0 s0 t0 H0 Hs0) as (ls & E & _).
    rewrite R1 in E. cbn [snd] in E.
    destruct E as (_ & _ & _ & _ & _ & _ & _ & E8 & E9). rewrite E9. auto. }
  destruct H1 as [H1 Hs1].
  assert (Key : forall h post0,
             h e = pre ++ b :: post0 -> (forall k, (0 <= k < e)%Z -> h k = f k) ->
             train h t = (Ok StoppedEarly, after_batch (Z.of_nat (length pre)) b t1)).
  { intros h post0 Eh Hh. unfold train, bind, get.
    replace (Z.to_nat (num_epochs t)) with (Z.to_nat e + S (Z.to_nat (num_epochs t - e - 1)))%nat
      by lia.
    rewrite train_epochs_plus.
    rewrite (train_epochs_ext f h) by (intros k Hk'; apply Hh; lia).
    rewrite R0. rewrite Z.add_0_l, Z2Nat.id by lia.
    cbn [train_epochs]. unfold bind. rewrite Eh, train_epoch_app, R1.
    cbn [train_epoch]. unfold bind. rewrite train_batch_ok by assumption.
    cbv zeta. rewrite Z.add_0_l, St. reflexivity. }
  split; [apply (Key f post Ef); auto|].
  split; [apply (Key g post' Eg); exact Hk|].
  split; [apply (after_batch_fields _ b t1 H1 Hs1)|].
  intros h r t' E. destruct (train_run h t H Hs) as (ls & _ & [(R & _)|(R & _)]);
    rewrite E in R; cbn [fst] in R; injection R as ->; auto.
Qed.

(** C9 at work: patience 1, threshold 0.05, the losses of the scenario in
    epoch 1. *)
Lemma train_halts_at_first_stop_witness :
  @train replay scenario_loader (demo_trainer 2 1 0.05) =
    (Ok StoppedEarly,
     @after_batch replay 2 (observed 128 0.95 0.5)
       (snd (@train_epoch replay 1 0 [observed 128 1.0 0.5; observed 128 0.96 0.5]%float
               initial_early_stop
               (snd (@train_epochs replay scenario_loader 0 1 initial_early_stop
                       (demo_trainer 2 1 0.05)))))).
Proof.
  refine (proj1 (train_halts_at_first_stop replay scenario_loader scenario_loader
            (demo_trainer 2 1 0.05)
            (snd (@train_epochs replay scenario_loader 0 1 initial_early_stop
                    (demo_trainer 2 1 0.05)))
            (snd (@train_epoch replay 1 0
                    [observed 128 1.0 0.5; observed 128 0.96 0.5]%float
                    initial_early_stop
                    (snd (@train_epochs replay scenario_loader 0 1 initial_early_stop
                            (demo_trainer 2 1 0.05)))))
            1%Z [observed 128 1.0 0.5; observed 128 0.96 0.5]%float
            [observed 128 0.1 0.5]%float
            [observed 128 0.1 0.5]%float (observed 128 0.95 0.5)
            initial_early_stop (mkEarlyStop 1.0 1) _ _ _ _ _ _ _ _ _)).
  - exact (eq_refl : 0%Z = 0%Z).
  - reflexivity.
  - unfold demo_trainer. cbn [num_epochs]. lia.
  - reflexivity.
  - reflexivity.
  - intros k Hk. reflexivity.
  - vm_compute. reflexivity.
  - vm_compute. reflexivity.
  - vm_compute. reflexivity.
Defined.

(** ** Spikes per digit *)

(** C10. [get_spikes_per_digit] divides the spike count by the number of
    forward passes.  After [reset_spikes], or after construction, and any
    calls that are not forward passes, that number is 0 and the call raises
    [ZeroDivisionError] instead of returning a value. *)
Theorem get_spikes_per_digit_without_forward :
  forall (cap : Capability) (n0 : Net) (cs : list NetCall)
         (p0 : Params) (steps neurons hidden : Z) (beta : float),
    forallb (fun c => negb (is_forward c)) cs = true ->
    (let n := snd (net_calls cs (snd (reset_spikes n0))) in
     forward_count n = 0%Z /\
     get_spikes_per_digit n = (Raise ZeroDivisionError, n)) /\
    (forall n1, Net_init p0 steps neurons hidden beta = Ok n1 ->
       let n := snd (net_calls cs n1) in
       forward_count n = 0%Z /\
       get_spikes_per_digit n = (Raise ZeroDivisionError, n)).
Proof.
  intros cap n0 cs p0 steps neurons hidden beta Hq. split.
  - destruct (net_calls_quiet cs (snd (reset_spikes n0)) Hq eq_refl eq_refl) as (_ & C & T).
    cbv zeta. split; [exact C|]. apply get_spikes_per_digit_zero; assumption.
  - intros n1 E. destruct (Net_init_inv _ _ _ _ _ _ E) as (_ & _ & _ & T0 & C0 & _).
    destruct (net_calls_quiet cs n1 Hq C0 T0) as (_ & C & T).
    cbv zeta. split; [exact C|]. apply get_spikes_per_digit_zero; assumption.
Qed.

(** C10 at work: a network that ran one forward pass, was reset and put in
    evaluation mode. *)
Lemma get_spikes_per_digit_without_forward_witness :
  fst (@get_spikes_per_digit replay
         (snd (@net_calls replay [CallEval; CallTrain]
                 (snd (@reset_spikes replay
                         (snd (@forward replay (observed 128 1 0.5) (demo_net 1))))))))
  = Raise ZeroDivisionError.
Proof.
  pose proof (get_spikes_per_digit_without_forward replay
                (snd (@forward replay (observed 128 1 0.5) (demo_net 1)))
                [CallEval; CallTrain] O 25%Z 299%Z 1%Z 0.9%float eq_refl) as [[_ E] _].
  rewrite E. reflexivity.
Defined.

(** * Further properties of the notebook's code *)

(** ** [SNNTrainer.train] *)

Lemma record_loss_counter_nonneg sig l s :
  (0 <= loss_counter s)%Z -> (0 <= loss_counter (record_loss sig l s))%Z.
Proof. unfold record_loss. destruct (l <? _)%float; cbn; lia. Qed.

Lemma feed_counter_nonneg sig ls : forall s,
  (0 <= loss_counter s)%Z -> (0 <= loss_counter (feed sig ls s))%Z.
Proof.
  induction ls as [|l ls IH]; intros s H; [exact H|].
  cbn [feed fold_left]. apply IH. apply record_loss_counter_nonneg. exact H.
Qed.

(** X1. A call of [train] that returns has ended [Completed] or
    [StoppedEarly] and has only extended the record of the run: the losses
    of the processed batches are appended to [loss_hist], one per batch,
    [batches] and the network's forward-pass count advance by their number,
    [acc_hist] gains at most as many samples, [epochs] does not decrease and
    advances by at most the epoch limit, and patience, threshold, epoch
    limit and the network's time steps are untouched.  No more batches are
    processed than the loader yields within the epoch limit. *)
Theorem train_appends_one_loss_per_batch :
  forall (cap : Capability) (f : Z -> list Batch) (t : SNNTrainer) (r : RunState),
    spikes_ok (net t) ->
    fst (train f t) = Ok r ->
    exists ls,
      run_extends t (snd (train f t)) ls /\
      (r = Completed \/ r = StoppedEarly) /\
      (epochs t <= epochs (snd (train f t)) <= epochs t + Z.max 0 (num_epochs t))%Z /\
      (length ls <= length (loader_batches f 0 (Z.to_nat (num_epochs t))))%nat.
Proof.
  intros cap f t r H Hr.
  destruct (train_returns f t r H Hr) as (ls & E & [(R & Ep & L)|(R & L & e & He & Ep & _)]);
    exists ls; (split; [exact E|]); (split; [auto|]); split; lia.
Qed.

(** X1 at work: the run of the scenario. *)
Lemma train_appends_one_loss_per_batch_witness :
  exists ls,
    run_extends (demo_trainer 2 1 0.05)
      (snd (@train replay scenario_loader (demo_trainer 2 1 0.05))) ls /\
    (0 <= epochs (snd (@train replay scenario_loader (demo_trainer 2 1 0.05))) <= 2)%Z /\
    (length ls <= 4)%nat.
Proof.
  destruct (train_appends_one_loss_per_batch replay scenario_loader (demo_trainer 2 1 0.05)
              StoppedEarly (eq_refl : 0%Z = 0%Z) eq_refl)
    as (ls & E & _ & Ep & L).
  exists ls. split; [exact E|]. split; [exact Ep|exact L].
Defined.

(** X2. How a run ends.  [Completed]: every batch of every epoch was
    processed and [epochs] advanced by the epoch limit.  [StoppedEarly]: the
    run stopped in an epoch [e > 0] on a batch after which the stall counter
    of the tracker, fed the recorded losses from its initial state, exceeds
    the patience; [epochs] counts the [e] epochs completed before. *)
Theorem train_outcome :
  forall (cap : Capability) (f : Z -> list Batch) (t : SNNTrainer) (r : RunState),
    spikes_ok (net t) ->
    fst (train f t) = Ok r ->
    exists ls,
      loss_hist (snd (train f t)) = loss_hist t ++ ls /\
      match r with
      | Completed =>
          epochs (snd (train f t)) = (epochs t + Z.max 0 (num_epochs t))%Z /\
          length ls = length (loader_batches f 0 (Z.to_nat (num_epochs t)))
      | StoppedEarly =>
          exists e, (0 < e < num_epochs t)%Z /\
            epochs (snd (train f t)) = (epochs t + e)%Z /\
            (patience t < loss_counter (feed (sig_improvement t) ls initial_early_stop))%Z
      | Running => False
      end.
Proof.
  intros cap f t r H Hr. destruct (train_returns f t r H Hr) as (ls & E & R).
  exists ls. split; [apply E|].
  destruct R as [(-> & Ep & L)|(-> & L & e & He & Ep & S)].
  - auto.
  - exists e. apply should_stop_true in S. repeat split; try lia.
Qed.

(** X2 at work: the run of the scenario stops in epoch 1. *)
Lemma train_outcome_witness :
  exists ls,
    loss_hist (snd (@train replay scenario_loader (demo_trainer 2 1 0.05))) = [] ++ ls /\
    exists e, (0 < e < 2)%Z /\
      epochs (snd (@train replay scenario_loader (demo_trainer 2 1 0.05))) = (0 + e)%Z /\
      (1 < loss_counter (feed 0.05 ls initial_early_stop))%Z.
Proof.
  exact (train_outcome replay scenario_loader (demo_trainer 2 1 0.05) StoppedEarly
           (eq_refl : 0%Z = 0%Z) eq_refl).
Defined.

(** X3. The first epoch is never interrupted: for a network with at least
    one time step and an epoch limit of at most 1 a run is [Completed]
    whatever the losses and the patience are, and it processed every batch
    the loader yielded. *)
Theorem first_epoch_never_interrupted :
  forall (cap : Capability) (f : Z -> list Batch) (t : SNNTrainer),
    spikes_ok (net t) -> (0 < num_steps (net t))%Z ->
    (num_epochs t <= 1)%Z ->
    fst (train f t) = Ok Completed /\
    batches (snd (train f t))
      = (batches t + Z.of_nat (length (loader_batches f 0 (Z.to_nat (num_epochs t)))))%Z.
Proof.
  intros cap f t H Hs Hn. destruct (train_run f t H Hs) as (ls & E & R).
  destruct R as [(R & Ep & L)|(R & L & e & He & _)]; [|lia].
  split; [exact R|]. rewrite <- L. apply E.
Qed.

(** X3 at work: one epoch of four batches, patience -1. *)
Lemma first_epoch_never_interrupted_witness :
  fst (@train replay (fun _ => scenario_loader 1) (demo_trainer 1 (-1) 0.05)) = Ok Completed /\
  batches (snd (@train replay (fun _ => scenario_loader 1) (demo_trainer 1 (-1) 0.05))) = 4%Z.
Proof.
  exact (first_epoch_never_interrupted replay (fun _ => scenario_loader 1)
           (demo_trainer 1 (-1) 0.05) (eq_refl : 0%Z = 0%Z) eq_refl
           ltac:(unfold demo_trainer; cbn; lia)).
Defined.

(** X4. For a network with at least one time step a negative patience
    stops a run of at least two epochs on the first batch of the second
    epoch: the stall counter is never negative. *)
Theorem negative_patience_stops_second_epoch :
  forall (cap : Capability) (f : Z -> list Batch) (t : SNNTrainer),
    spikes_ok (net t) -> (0 < num_steps (net t))%Z ->
    (patience t < 0)%Z -> (2 <= num_epochs t)%Z -> f 1%Z <> [] ->
    fst (train f t) = Ok StoppedEarly /\
    batches (snd (train f t)) = (batches t + Z.of_nat (length (f 0%Z)) + 1)%Z /\
    epochs (snd (train f t)) = (epochs t + 1)%Z.
Proof.
  intros cap f t H Hs Hp Hn Hf.
  unfold train, bind, get.
  replace (Z.to_nat (num_epochs t)) with (S (S (Z.to_nat (num_epochs t - 2)))) by lia.
  cbn [train_epochs]. unfold bind.
  destruct (train_epoch_run 0 (f 0%Z) 0 initial_early_stop t H Hs) as (l0 & E0 & Ep0 & R0).
  destruct (train_epoch 0 0 (f 0%Z) initial_early_stop t) as [r0 t0]. cbn [fst snd] in *.
  destruct R0 as [[-> L0]|(_ & _ & S0)]; [|discriminate].
  unfold modify. cbv beta iota. change (0 + 1)%Z with 1%Z.
  destruct (f 1%Z) as [|b rest]; [congruence|].
  cbn [train_epoch]. unfold bind.
  set (t0' := set_epochs t0 (epochs t0 + 1)).
  assert (H0 : spikes_ok (net t0')) by apply E0.
  assert (Hs0 : (0 < num_steps (net t0'))%Z).
  { destruct E0 as (_ & _ & _ & _ & _ & _ & _ & _ & E9). cbn [t0' net set_epochs].
    rewrite E9. exact Hs. }
  rewrite train_batch_ok by assumption. cbv zeta.
  assert (St : should_stop 1
                 (loss_counter (record_loss (sig_improvement t0')
                    (loss_fn (params (net t0')) b) (feed (sig_improvement t) l0 initial_early_stop)))
                 (patience t0') = true).
  { apply should_stop_true. split; [lia|].
    assert (patience t0' = patience t) by apply E0.
    pose proof (record_loss_counter_nonneg (sig_improvement t0') (loss_fn (params (net t0')) b)
                  (feed (sig_improvement t) l0 initial_early_stop)
                  (feed_counter_nonneg _ l0 initial_early_stop ltac:(cbn; lia))).
    lia. }
  rewrite St. cbn [fst snd ret].
  destruct (after_batch_fields 0 b t0' H0 Hs0) as (_ & B & Ep & _).
  cbv zeta in B, Ep. split; [reflexivity|]. split.
  - rewrite B. cbn [t0' batches set_epochs]. destruct E0 as (_ & B0 & _). rewrite B0, L0. lia.
  - rewrite Ep. cbn [t0' epochs set_epochs]. lia.
Qed.

(** X4 at work: patience -1, two epochs, nothing in epoch 0. *)
Lemma negative_patience_stops_second_epoch_witness :
  fst (@train replay scenario_loader (demo_trainer 2 (-1) 0.05)) = Ok StoppedEarly /\
  batches (snd (@train replay scenario_loader (demo_trainer 2 (-1) 0.05))) = (0 + 0 + 1)%Z /\
  epochs (snd (@train replay scenario_loader (demo_trainer 2 (-1) 0.05))) = (0 + 1)%Z.
Proof.
  exact (negative_patience_stops_second_epoch replay scenario_loader (demo_trainer 2 (-1) 0.05)
           (eq_refl : 0%Z = 0%Z) eq_refl
           ltac:(unfold demo_trainer; cbn; lia) ltac:(unfold demo_trainer; cbn; lia)
           ltac:(discriminate)).
Defined.

(** X5. For a network with at least one time step, one pass over a loader
    that is not stopped leaves the tracker in the state the losses it
    appended to [loss_hist] fold to; a pass that is stopped ended on a batch
    after which the policy says stop. *)
Theorem train_epoch_tracks_recorded_losses :
  forall (cap : Capability) (epoch i : Z) (bs : list Batch) (s : EarlyStopState)
         (t : SNNTrainer),
    spikes_ok (net t) -> (0 < num_steps (net t))%Z ->
    exists ls,
      loss_hist (snd (train_epoch epoch i bs s t)) = loss_hist t ++ ls /\
      ((fst (train_epoch epoch i bs s t) = Ok (Next (feed (sig_improvement t) ls s)) /\
        length ls = length bs) \/
       (fst (train_epoch epoch i bs s t) = Ok Return /\
        (0 < length ls <= length bs)%nat /\
        (0 < epoch)%Z /\
        (patience t < loss_counter (feed (sig_improvement t) ls s))%Z)).
Proof.
  intros cap epoch i bs s t H Hs.
  destruct (train_epoch_run epoch bs i s t H Hs) as (ls & E & _ & R).
  exists ls. split; [apply E|].
  destruct R as [R|(R & L & S)]; [left; exact R|right].
  apply should_stop_true in S. repeat split; try lia. exact R.
Qed.

(** X5 at work: epoch 1 of the scenario, stopped on the third batch. *)
Lemma train_epoch_tracks_recorded_losses_witness :
  exists ls,
    loss_hist (snd (@train_epoch replay 1 0 (scenario_loader 1) initial_early_stop
                      (demo_trainer 2 1 0.05))) = [] ++ ls.
Proof.
  destruct (train_epoch_tracks_recorded_losses replay 1 0 (scenario_loader 1)
              initial_early_stop (demo_trainer 2 1 0.05) (eq_refl : 0%Z = 0%Z) eq_refl)
    as (ls & E & _).
  exists ls. exact E.
Defined.

(** ** What the arithmetic can raise *)

Lemma PyLong_AsDouble_raises z e : PyLong_AsDouble z = Raise e -> e = OverflowError.
Proof.
  unfold PyLong_AsDouble. destruct (Z2SF z); intros H; try discriminate.
  injection H as <-. reflexivity.
Qed.

Lemma py_float_raises a e : py_float a = Raise e -> e = OverflowError.
Proof. destruct a; cbn; [apply PyLong_AsDouble_raises|discriminate|discriminate]. Qed.

Lemma float_truediv_raises a b e : float_truediv a b = Raise e -> e = ZeroDivisionError.
Proof.
  unfold float_truediv. destruct (b =? 0)%float; intros H; [|discriminate].
  injection H as <-. reflexivity.
Qed.

Lemma py_truediv_raises a b e :
  py_truediv a b = Raise e -> e = ZeroDivisionError \/ e = OverflowError.
Proof.
  assert (G : forall x y, bind_result (py_float x) (fun x' =>
                bind_result (py_float y) (fun y' =>
                  if is_numpy x || is_numpy y then Ok (x' / y')%float
                  else float_truediv x' y')) = Raise e ->
              e = ZeroDivisionError \/ e = OverflowError).
  { intros x y. destruct (py_float x) as [x'|e1] eqn:E1; cbn [bind_result].
    - destruct (py_float y) as [y'|e2] eqn:E2; cbn [bind_result].
      + destruct (is_numpy x || is_numpy y); [discriminate|].
        intros H. left. eapply float_truediv_raises. exact H.
      + intros H. injection H as <-. right. eapply py_float_raises. exact E2.
    - intros H. injection H as <-. right. eapply py_float_raises. exact E1. }
  destruct a as [x|x|x], b as [y|y|y]; cbn [py_truediv]; try apply G.
  unfold long_true_divide. destruct (y =? 0)%Z.
  - intros H. injection H as <-. auto.
  - destruct (SFdiv _ _ _ _); intros H; try discriminate. injection H as <-. auto.
Qed.

(** A quotient with a [numpy.float64] operand never raises
    [ZeroDivisionError]. *)
Lemma np_truediv_raises a b e :
  is_numpy a || is_numpy b = true -> py_truediv a b = Raise e -> e = OverflowError.
Proof.
  intros N. destruct a as [x|x|x], b as [y|y|y]; try discriminate N;
    cbn [py_truediv py_float bind_result is_numpy orb];
    try discriminate;
    match goal with
    | |- context [PyLong_AsDouble ?z] =>
        destruct (PyLong_AsDouble z) eqn:E; cbn [bind_result]; [discriminate|];
        intros H; injection H as <-; eapply PyLong_AsDouble_raises; exact E
    end.
Qed.

Lemma py_mul_raises a b e : py_mul a b = Raise e -> e = OverflowError.
Proof.
  assert (G : forall x y, bind_result (py_float x) (fun x' =>
                bind_result (py_float y) (fun y' =>
                  Ok (float_result x y (x' * y')))) = Raise e ->
              e = OverflowError).
  { intros x y. destruct (py_float x) as [x'|e1] eqn:E1; cbn [bind_result].
    - destruct (py_float y) as [y'|e2] eqn:E2; cbn [bind_result]; [discriminate|].
      intros H. injection H as <-. eapply py_float_raises. exact E2.
    - intros H. injection H as <-. eapply py_float_raises. exact E1. }
  destruct a as [x|x|x], b as [y|y|y]; cbn [py_mul]; try apply G. discriminate.
Qed.

(** ** [Net] *)

Section NetMore.

Context {cap : Capability}.

Lemma add_spikes_app t l1 l2 : add_spikes t (l1 ++ l2) = add_spikes (add_spikes t l1) l2.
Proof. apply fold_left_app. Qed.

Lemma add_spikes_ok t sums : acc_ok t -> acc_ok (add_spikes t sums).
Proof.
  revert t. induction sums as [|s rest IH]; intros t H; [exact H|].
  cbn [add_spikes fold_left]. apply IH. destruct t; exact I.
Qed.

(** A row of forward passes with nothing in between. *)
Lemma net_calls_forwards (bs : list Batch) : forall n : Net,
  spikes_ok n -> (0 < num_steps n)%Z ->
  net_calls (map CallForward bs) n =
    (Ok tt,
     set_spikes n
       (add_spikes (total_spike_count n) (concat (map (spike_sums (params n)) bs)))
       (forward_count n + Z.of_nat (length bs))).
Proof.
  induction bs as [|b rest IH]; intros n H Hs.
  - cbn. rewrite Z.add_0_r, set_spikes_same. reflexivity.
  - cbn [map net_calls net_call concat length]. unfold bind.
    rewrite forward_ok by assumption.
    rewrite IH by (try apply spikes_ok_add; assumption).
    cbn [set_spikes total_spike_count forward_count params num_steps num_hidden_neurons
         num_hidden_layers layers training].
    rewrite add_spikes_app. f_equal. unfold set_spikes.
    cbn [num_steps num_hidden_neurons num_hidden_layers layers params training].
    f_equal. lia.
Qed.

(** Dividing the spike counter by a positive number of passes does not
    raise. *)
Lemma spikes_per_digit_defined t k :
  acc_ok t -> (1 <= k <= 2 ^ 53)%Z -> exists v, py_truediv t (PyInt k) = Ok v.
Proof.
  intros Ht Hk. destruct t as [z|x|x].
  - cbn in Ht. subst z. cbn [py_truediv]. unfold long_true_divide.
    destruct (Z.eqb_spec k 0) as [->|_]; [lia|].
    destruct k as [|p|p]; try lia. cbn. eauto.
  - cbn [py_truediv py_float bind_result].
    destruct (PyLong_AsDouble_exact k ltac:(lia)) as (d & Ed & Fd & Kd).
    rewrite Ed. cbn [bind_result is_numpy orb]. exists (x / d)%float.
    apply float_truediv_pos; [exact Fd|]. rewrite Kd. apply IZR_lt. lia.
  - cbn [py_truediv py_float bind_result].
    destruct (PyLong_AsDouble_exact k ltac:(lia)) as (d & Ed & Fd & Kd).
    rewrite Ed. cbn [bind_result is_numpy orb]. eauto.
Qed.

End NetMore.

(** X6. [Net.__init__] builds [num_hidden_layers + 1] layers: the first
    takes the image, those up to [num_hidden_layers] are inner layers and the
    last one is the output layer.  Without hidden layers the only layer is a
    first layer: no output layer is built. *)
Theorem Net_init_layers :
  forall (cap : Capability) (p0 : Params) (steps neurons hidden : Z) (beta : float)
         (n : Net),
    Net_init p0 steps neurons hidden beta = Ok n ->
    length (layers n) = Z.to_nat (hidden + 1) /\
    nth 0 (layers n) OutputLayer = FirstLayer /\
    (forall k, (0 < k < hidden)%Z -> nth (Z.to_nat k) (layers n) FirstLayer = InnerLayer) /\
    ((0 < hidden)%Z -> nth (Z.to_nat hidden) (layers n) FirstLayer = OutputLayer) /\
    (hidden = 0%Z -> layers n = [FirstLayer]).
Proof.
  intros cap p0 steps neurons hidden beta n E.
  destruct (Net_init_inv _ _ _ _ _ _ E) as (Hh & _ & _ & _ & _ & _ & L & _).
  rewrite L. clear L E.
  assert (N : forall k d, (0 <= k <= hidden)%Z ->
            nth (Z.to_nat k)
              (map (fun j => layer_kind hidden (Z.of_nat j)) (seq 0 (Z.to_nat (hidden + 1)))) d
            = layer_kind hidden k).
  { intros k d Hk.
    rewrite (nth_indep _ d (layer_kind hidden (Z.of_nat 0)))
      by (rewrite length_map, length_seq; lia).
    rewrite (map_nth (fun j => layer_kind hidden (Z.of_nat j))).
    rewrite seq_nth by lia. rewrite Nat.add_0_l, Z2Nat.id by lia. reflexivity. }
  split; [rewrite length_map, length_seq; reflexivity|].
  split; [apply (N 0%Z); lia|].
  split; [|split].
  - intros k Hk. rewrite N by lia. unfold layer_kind.
    destruct (Z.eqb_spec k 0); [lia|]. destruct (Z.ltb_spec k hidden); [reflexivity|lia].
  - intros Hk. rewrite N by lia. unfold layer_kind.
    destruct (Z.eqb_spec hidden 0); [lia|]. destruct (Z.ltb_spec hidden hidden); [lia|reflexivity].
  - intros ->. reflexivity.
Qed.

(** X6 at work: three hidden layers. *)
Lemma Net_init_layers_witness :
  length (layers (demo_net 3)) = Z.to_nat (3 + 1) /\
  nth 0 (layers (demo_net 3)) OutputLayer = FirstLayer /\
  (forall k, (0 < k < 3)%Z -> nth (Z.to_nat k) (layers (demo_net 3)) FirstLayer = InnerLayer) /\
  ((0 < 3)%Z -> nth (Z.to_nat 3) (layers (demo_net 3)) FirstLayer = OutputLayer) /\
  (3%Z = 0%Z -> layers (demo_net 3) = [FirstLayer]).
Proof.
  exact (Net_init_layers replay O 25 299 3 0.9 (demo_net 3) eq_refl).
Defined.

(** X7. After [reset_spikes] and [k >= 1] forward passes of a network
    with at least one time step, the network has counted [k] passes and
    [get_spikes_per_digit] returns a value, the spike counter divided by
    [k], instead of raising. *)
Theorem get_spikes_per_digit_after_forward :
  forall (cap : Capability) (n0 : Net) (bs : list Batch),
    (0 < num_steps n0)%Z ->
    bs <> [] -> (Z.of_nat (length bs) <= 2 ^ 53)%Z ->
    let n := snd (net_calls (map CallForward bs) (snd (reset_spikes n0))) in
    fst (net_calls (map CallForward bs) (snd (reset_spikes n0))) = Ok tt /\
    forward_count n = Z.of_nat (length bs) /\
    total_spike_count n = add_spikes (PyInt 0) (concat (map (spike_sums (params n0)) bs)) /\
    exists v,
      get_spikes_per_digit n = (Ok v, n) /\
      py_truediv (total_spike_count n) (PyInt (Z.of_nat (length bs))) = Ok v.
Proof.
  intros cap n0 bs Hs Hne Hl. cbv zeta.
  rewrite net_calls_forwards by (try apply reset_spikes_ok; exact Hs).
  cbn [fst snd reset_spikes modify set_spikes total_spike_count forward_count params].
  split; [reflexivity|]. split; [lia|]. split; [reflexivity|].
  destruct (spikes_per_digit_defined
              (add_spikes (PyInt 0) (concat (map (spike_sums (params n0)) bs)))
              (Z.of_nat (length bs))) as [v Ev].
  - apply add_spikes_ok. reflexivity.
  - destruct bs; [congruence|]. cbn [length] in *. lia.
  - exists v. split; [|exact Ev].
    unfold get_spikes_per_digit, bind, get, lift.
    cbn [total_spike_count forward_count set_spikes]. rewrite Z.add_0_l, Ev. reflexivity.
Qed.

(** X7 at work: two forward passes of three spikes each. *)
Lemma get_spikes_per_digit_after_forward_witness :
  exists v,
    @get_spikes_per_digit replay
      (snd (@net_calls replay
              (map (@CallForward replay) [observed 128 1 0.5; observed 128 1 0.5]%float)
              (snd (@reset_spikes replay (demo_net 1)))))
    = (Ok v,
       snd (@net_calls replay
              (map (@CallForward replay) [observed 128 1 0.5; observed 128 1 0.5]%float)
              (snd (@reset_spikes replay (demo_net 1))))) /\
    v = 3%float.
Proof.
  destruct (get_spikes_per_digit_after_forward replay (demo_net 1)
              [observed 128 1 0.5; observed 128 1 0.5]%float eq_refl ltac:(discriminate)
              ltac:(vm_compute; discriminate)) as (_ & _ & _ & v & E & D).
  exists v. split; [exact E|].
  vm_compute in D. injection D as <-. reflexivity.
Defined.

(** ** [SNNTrainer.__init__] *)

Lemma threshold_bounds_aux {cap : Capability} (n : Net) (trial ne ns : Z) (lr : float)
    (pat : Z) (sig : float) :
  (1 <= num_hidden_layers n)%Z ->
  (num_hidden_layers n ^ 3 <= (2 ^ 53 - 1) * 2 ^ 971)%Z ->
  (0 <=? lr)%float = true ->
  valid_loss sig ->
  exists threshold,
    SNNTrainer_init n trial ne ns lr pat sig
      = Ok (mkTrainer n ne ns lr trial pat threshold [] [] 0 0) /\
    (0 <=? threshold)%float = true /\
    (threshold <=? sig)%float = true.
Proof.
  intros H1 H2 Hlr [S0 S1].
  destruct (SNNTrainer_init_ok n trial ne ns lr pat sig H1 H2) as (d & _ & Fd & Kd & E).
  unfold Adam_init in E. rewrite Hlr in E. cbn [bind_result] in E.
  destruct (nonneg_finite sig S0 S1) as [Fs Ks].
  eexists. split; [exact E|].
  destruct (frounds_between _ (sig / d) 0 sig (fdiv_rounds sig d Fs Fd ltac:(lra))
              ffinite_zero Fs) as [F K].
  - rewrite fkey_zero. split.
    + apply Rmult_le_pos; [lra|]. apply Rlt_le, Rinv_0_lt_compat. lra.
    + apply Rmult_le_reg_r with (fkey d); [lra|].
      unfold Rdiv. rewrite Rmult_assoc, Rinv_l by lra. nra.
  - split; apply ffinite_leb; auto using ffinite_zero; lra.
Qed.

(** X8. For a network with at least one hidden layer, a learning rate the
    optimiser accepts and a base significance that is not negative, the
    trainer is built and its threshold
    [sig_improvement / num_hidden_layers ** 3] lies between 0 and the base
    significance: depth only lowers it. *)
Theorem threshold_at_most_base :
  forall (cap : Capability) (n : Net) (trial ne ns : Z) (lr : float) (pat : Z) (sig : float),
    (1 <= num_hidden_layers n)%Z ->
    (num_hidden_layers n ^ 3 <= (2 ^ 53 - 1) * 2 ^ 971)%Z ->
    (0 <=? lr)%float = true ->
    valid_loss sig ->
    exists t,
      SNNTrainer_init n trial ne ns lr pat sig = Ok t /\
      (0 <=? sig_improvement t)%float = true /\
      (sig_improvement t <=? sig)%float = true.
Proof.
  intros cap n trial ne ns lr pat sig H1 H2 Hlr Hs.
  destruct (threshold_bounds_aux n trial ne ns lr pat sig H1 H2 Hlr Hs) as (thr & E & B).
  eexists. split; [exact E|exact B].
Qed.

(** X8 at work: two hidden layers, base significance 0.05. *)
Lemma threshold_at_most_base_witness :
  exists t,
    @SNNTrainer_init replay (demo_net 2) 0 30 25 0.002 300 0.05 = Ok t /\
    (0 <=? sig_improvement t)%float = true /\
    (sig_improvement t <=? 0.05)%float = true.
Proof.
  apply (threshold_at_most_base replay (demo_net 2) 0 30 25 0.002 300 0.05).
  - unfold demo_net. cbn [num_hidden_layers]. lia.
  - vm_compute. discriminate.
  - reflexivity.
  - split; reflexivity.
Defined.

(** ** [SNNTrainer.get_accuracy] *)

Lemma accuracy_refines_aux {cap : Capability} (bs : list Batch) (t : SNNTrainer) :
  spikes_ok (net t) -> (0 < num_steps (net t))%Z ->
  fst (get_accuracy bs t) =
    weighted_average (map (fun b => (accuracy_rate (params (net t)) b, size0 b)) bs).
Proof.
  intros H Hs.
  unfold get_accuracy, bind, on_net, modify, lift. cbn [fst snd net set_net].
  destruct (accuracy_loop_sums bs (PyInt 0) 0 (set_net t (set_training (net t) false)))
    as [Es _]; [apply spikes_ok_set_training; exact H|exact Hs|reflexivity|].
  destruct (accuracy_loop bs (PyInt 0) (PyInt 0) _) as [r t']. cbn [fst] in Es.
  subst r. cbn [net set_net params set_training].
  unfold weighted_average. rewrite map_map. cbn [snd].
  destruct (py_products _) as [xs|e]; cbn [bind_result]; [|reflexivity].
  destruct (py_sum xs (PyInt 0)) as [num|e]; cbn [bind_result]; [|reflexivity].
  destruct (py_sum _ (PyInt 0)) as [den|e]; cbn [bind_result fst snd]; reflexivity.
Qed.

(** The products are [numpy.float64] values, one per batch. *)
Lemma py_products_np (l : list (float * Z)) :
  (forall e, py_products l = Raise e -> e = OverflowError) /\
  (forall xs, py_products l = Ok xs ->
     Forall (fun x => is_numpy x = true) xs /\ length xs = length l).
Proof.
  induction l as [|[a n] l [IE IO]].
  - cbn. split; [discriminate|]. intros xs E. injection E as <-. auto.
  - cbn [py_products py_mul py_float bind_result].
    destruct (PyLong_AsDouble n) as [d|e0] eqn:Ed; cbn [bind_result].
    + destruct (py_products l) as [ys|e1]; cbn [bind_result].
      * split; [discriminate|]. intros xs E. injection E as <-.
        destruct (IO ys eq_refl) as [F L]. split; [constructor; [reflexivity|exact F]|].
        cbn [length]. congruence.
      * split; [|discriminate]. intros e E. injection E as <-. apply IE. reflexivity.
    + split; [|discriminate]. intros e E. injection E as <-.
      eapply PyLong_AsDouble_raises. exact Ed.
Qed.

(** Summing [numpy.float64] values does not raise, and the sum of at least
    one is a [numpy.float64]. *)
Lemma py_sum_np (xs : list PyNum) : forall t,
  acc_ok t -> Forall (fun x => is_numpy x = true) xs ->
  exists x, py_sum xs t = Ok x /\ acc_ok x /\ (xs <> [] -> is_numpy x = true).
Proof.
  induction xs as [|x xs IH]; intros t Ht F.
  - exists t. cbn. repeat split; [exact Ht|congruence].
  - inversion F as [|? ? Hx Hxs]; subst. destruct x as [z|p|p]; try discriminate Hx.
    cbn [py_sum]. rewrite py_add_acc by exact Ht. cbn [bind_result].
    destruct (IH (NpFloat64 (acc_float t + p)) I Hxs) as (y & E & A & N).
    exists y. split; [exact E|]. split; [exact A|]. intros _.
    destruct xs as [|x' xs'].
    + cbn in E. injection E as <-. reflexivity.
    + apply N. discriminate.
Qed.

(** Over at least one batch the formula never raises
    [ZeroDivisionError]: its numerator is a [numpy.float64]. *)
Lemma weighted_average_np (l : list (float * Z)) :
  l <> [] -> weighted_average l <> Raise ZeroDivisionError.
Proof.
  intros Hl. unfold weighted_average.
  destruct (py_products_np l) as [PE PO].
  destruct (py_products l) as [xs|e] eqn:Ep; cbn [bind_result].
  - destruct (PO xs eq_refl) as [F L].
    destruct (py_sum_np xs (PyInt 0) eq_refl F) as (num & En & _ & Nn).
    rewrite En. cbn [bind_result]. rewrite py_sum_sizes. cbn [bind_result].
    intros E. apply np_truediv_raises in E; [discriminate|].
    rewrite Nn; [reflexivity|]. destruct xs; [|discriminate].
    destruct l; [congruence|discriminate].
  - intros E. injection E as ->. specialize (PE _ eq_refl). discriminate.
Qed.

(** X9. For a network with at least one time step, [get_accuracy] returns
    or raises exactly what the formula [sum(accuracy * size) / sum(size)]
    of the specification returns or raises on the accuracies and sizes of
    the batches.  Over an empty loader that is [ZeroDivisionError], the
    quotient being [0 / 0] on [int]s.  Over at least one batch it is never
    [ZeroDivisionError], even when every batch is empty: the numerator is
    then a [numpy.float64], and numpy divides by zero without raising. *)
Theorem get_accuracy_refines_weighted_average :
  forall (cap : Capability) (t : SNNTrainer) (bs : list Batch),
    spikes_ok (net t) -> (0 < num_steps (net t))%Z ->
    fst (get_accuracy bs t) =
      weighted_average (map (fun b => (accuracy_rate (params (net t)) b, size0 b)) bs) /\
    fst (get_accuracy [] t) = Raise ZeroDivisionError /\
    (bs <> [] -> fst (get_accuracy bs t) <> Raise ZeroDivisionError).
Proof.
  intros cap t bs H Hs. split; [apply accuracy_refines_aux; assumption|].
  split; [reflexivity|].
  intros Hne. rewrite accuracy_refines_aux by assumption.
  apply weighted_average_np. destruct bs; [congruence|discriminate].
Qed.

(** X9 at work: sizes 3 and 1, accuracies 1.0 and 0.0. *)
Lemma get_accuracy_refines_weighted_average_witness :
  fst (@get_accuracy replay [observed 3 0.1 1.0; observed 1 0.1 0.0]%float
         (demo_trainer 2 1 0.05))
  = weighted_average [(1.0, 3%Z); (0.0, 1%Z)]%float.
Proof.
  exact (proj1 (get_accuracy_refines_weighted_average replay (demo_trainer 2 1 0.05)
                  [observed 3 0.1 1.0; observed 1 0.1 0.0]%float (eq_refl : 0%Z = 0%Z)
                  eq_refl)).
Defined.

(** ** [optuna_objective] *)

Section Objective.

Context {cap : Capability}.

(** The evaluation loop: what it raises and what it leaves in the spike
    counter. *)
Lemma accuracy_loop_outcome (bs : list Batch) : forall tacc tot (t : SNNTrainer),
  spikes_ok (net t) -> (0 < num_steps (net t))%Z -> acc_ok tacc ->
  (forall e, fst (accuracy_loop bs tacc (PyInt tot) t) = Raise e -> e = OverflowError) /\
  (forall r, fst (accuracy_loop bs tacc (PyInt tot) t) = Ok r ->
     acc_ok (fst r) /\
     snd r = PyInt (tot + total_size bs) /\
     total_spike_count (net (snd (accuracy_loop bs tacc (PyInt tot) t)))
       = add_spikes (total_spike_count (net t))
           (concat (map (spike_sums (params (net t))) bs))).
Proof.
  induction bs as [|b rest IH]; intros tacc tot t H Hs Ht.
  - cbn. split; [discriminate|]. intros r E. injection E as <-. cbn.
    rewrite Z.add_0_r. auto.
  - cbn [accuracy_loop map concat total_size fold_right]. unfold bind, get, lift, on_net.
    rewrite forward_ok by assumption. cbn [fst snd].
    set (n1 := set_spikes (net t) _ _).
    assert (H1 : spikes_ok (net (set_net t n1))) by (apply spikes_ok_add; exact H).
    destruct (py_mul (NpFloat64 (accuracy_rate (params (net t)) b)) (PyInt (size0 b)))
      as [x|e1] eqn:Em; cbn [fst snd].
    + assert (exists p, x = NpFloat64 p) as [p ->].
      { revert Em. cbn [py_mul py_float bind_result].
        destruct (PyLong_AsDouble (size0 b)); cbn [bind_result]; [|discriminate].
        intros E. injection E as <-. eauto. }
      rewrite py_add_acc by exact Ht. cbn [py_add].
      destruct (IH (NpFloat64 (acc_float tacc + p)) (tot + size0 b)%Z (set_net t n1) H1 Hs I)
        as [IE IO].
      split; [exact IE|]. intros r E. destruct (IO r E) as (A & B & C).
      split; [exact A|]. split.
      * rewrite B. f_equal. fold (total_size rest). lia.
      * rewrite C. cbn [net set_net params total_spike_count n1 set_spikes].
        rewrite add_spikes_app. reflexivity.
    + split; [|discriminate]. intros e E. injection E as <-.
      eapply py_mul_raises. exact Em.
Qed.

Lemma half_key : fkey 0.5 = (/ 2)%R.
Proof.
  unfold fkey. change (Prim2SF 0.5) with (S754_finite false 4503599627370496 (-53)).
  cbn [SFkey SF2R cond_Zopp]. change (Z.pos 4503599627370496) with (2 ^ 52)%Z.
  rewrite F2R_pow2 by lia. change (-53 + 52)%Z with (-1)%Z.
  pose proof (bpow_succ (-1)) as E. change (-1 + 1)%Z with 0%Z in E. rewrite bpow_0 in E. lra.
Qed.

(** A trial from the search space that is not pruned gets its network and
    its trainer. *)
Lemma objective_construction (p0 : Params) (tr : Trial) :
  in_search_space tr ->
  exists (n : Net) threshold,
    Net_init p0 (Timesteps tr) (Neurons_per_Hidden_Layer tr) (Hidden_Layers tr)
             (First_Layer_beta tr) = Ok n /\
    SNNTrainer_init n (number tr) 30 (Timesteps tr) (Learning_Rate tr) 300 0.05
      = Ok (mkTrainer n 30 (Timesteps tr) (Learning_Rate tr) (number tr) 300 threshold
                      [] [] 0 0) /\
    spikes_ok n /\ (0 < num_steps n)%Z /\ params n = p0 /\
    (0 <=? threshold)%float = true /\ (threshold <=? 0.05)%float = true.
Proof.
  intros (Hs & Hh & Hn & L0 & _ & B0 & B1).
  assert (Hlr : (0 <=? Learning_Rate tr)%float = true).
  { apply leb_key in L0. apply leb_key.
    assert (K : (0 <=? 1e-4)%float = true) by reflexivity.
    apply leb_key in K. split; [discriminate|]. split; [tauto|]. lra. }
  assert (Z0 : (0 <=? First_Layer_beta tr)%float = true).
  { apply leb_key in B0. apply leb_key. rewrite half_key in B0. rewrite fkey_zero.
    split; [discriminate|]. split; [tauto|]. lra. }
  assert (En : exists n : Net,
             Net_init p0 (Timesteps tr) (Neurons_per_Hidden_Layer tr) (Hidden_Layers tr)
               (First_Layer_beta tr) = Ok n).
  { unfold Net_init. rewrite Z0, B1. cbn [andb negb].
    destruct (Z.leb_spec 0 (Hidden_Layers tr)); [|lia]. cbn [negb]. eauto. }
  destruct En as [n En].
  destruct (Net_init_inv _ _ _ _ _ _ En) as (_ & Eh & Ep & Et & _ & _ & _ & Est).
  assert (H3 : (num_hidden_layers n ^ 3 <= (2 ^ 53 - 1) * 2 ^ 971)%Z).
  { rewrite Eh. apply Z.le_trans with (10 ^ 3)%Z; [apply Z.pow_le_mono_l; lia|].
    vm_compute. discriminate. }
  destruct (threshold_bounds_aux n (number tr) 30 (Timesteps tr) (Learning_Rate tr) 300 0.05)
    as (thr & E & T0 & T1); [lia|exact H3|exact Hlr|split; reflexivity|].
  exists n, thr. repeat split; try assumption; try lia.
  unfold spikes_ok. rewrite Et. reflexivity.
Qed.

Lemma get_accuracy_outcome (bs : list Batch) (t : SNNTrainer) :
  spikes_ok (net t) -> (0 < num_steps (net t))%Z ->
  (forall e, fst (get_accuracy bs t) = Raise e ->
     e = ZeroDivisionError \/ e = OverflowError) /\
  (forall v, fst (get_accuracy bs t) = Ok v ->
     forward_count (net (snd (get_accuracy bs t)))
       = (forward_count (net t) + Z.of_nat (length bs))%Z /\
     total_spike_count (net (snd (get_accuracy bs t)))
       = add_spikes (total_spike_count (net t))
           (concat (map (spike_sums (params (net t))) bs))).
Proof.
  intros H Hs. unfold get_accuracy, bind, on_net, modify, lift. cbn [fst snd net set_net].
  set (t0 := set_net t (set_training (net t) false)).
  assert (H0 : spikes_ok (net t0)) by (apply spikes_ok_set_training; exact H).
  destruct (accuracy_loop_outcome bs (PyInt 0) 0 t0 H0 Hs eq_refl) as [OE OO].
  destruct (accuracy_loop_sums bs (PyInt 0) 0 t0 H0 Hs eq_refl) as [_ OC].
  destruct (accuracy_loop bs (PyInt 0) (PyInt 0) t0) as [[r|e0] t1]; cbn [fst snd] in *.
  - destruct (OO r eq_refl) as (_ & _ & T). specialize (OC r eq_refl). split.
    + intros e E. eapply py_truediv_raises. exact E.
    + intros v _. split; [exact OC|exact T].
  - split; [|discriminate]. intros e E. injection E as <-. right. apply OE. reflexivity.
Qed.

(** The objective of a trial that passed the size check, step by step. *)
Lemma objective_unpruned (p0 : Params) (vl : list Batch) (tr : Trial)
    (tl : Z -> list Batch) (test : list Batch) :
  in_search_space tr ->
  (Hidden_Layers tr * Neurons_per_Hidden_Layer tr * Timesteps tr <= 300 * 15)%Z ->
  exists (t1 : SNNTrainer),
    (spikes_ok (net t1) /\ (0 < num_steps (net t1))%Z) /\
    (0 <= epochs t1 <= 30)%Z /\ (0 <= batches t1)%Z /\
    batches t1 = Z.of_nat (length (loss_hist t1)) /\
    let t2 := set_net t1 (set_spikes (net t1) (PyInt 0) 0) in
    optuna_objective p0 vl tr tl test =
      bind_result (fst (get_accuracy vl t2)) (fun va =>
      bind_result (fst (get_spikes_per_digit (net (snd (get_accuracy vl t2))))) (fun sp =>
      Ok (mkObjective va sp (epochs t1) (batches t1)))).
Proof.
  intros Hs Hg.
  destruct (objective_construction p0 tr Hs) as (n & thr & En & Et & Hn & Hst & _).
  unfold optuna_objective. destruct (Z.ltb_spec (300 * 15) (Hidden_Layers tr *
    Neurons_per_Hidden_Layer tr * Timesteps tr)) as [G|_]; [lia|].
  rewrite En. cbn [bind_result]. rewrite Et. cbn [bind_result].
  set (t0 := mkTrainer n 30 (Timesteps tr) (Learning_Rate tr) (number tr) 300 thr [] [] 0 0).
  destruct (train_run tl t0 Hn Hst) as (ls & E & R).
  exists (snd (train tl t0)).
  destruct E as (E1 & E2 & _ & _ & _ & _ & _ & E8 & E9).
  split; [split; [exact E8|rewrite E9; exact Hst]|]. split.
  { destruct R as [(_ & Ep & _)|(_ & _ & e & He & Ep & _)]; rewrite Ep;
      unfold t0 in *; cbn [epochs num_epochs] in *; lia. }
  split; [rewrite E2; unfold t0; cbn [batches]; lia|].
  split; [rewrite E2, E1; unfold t0; cbn [batches loss_hist app]; lia|].
  cbv zeta. unfold bind at 1.
  destruct (train tl t0) as [r t1]. cbn [fst snd] in *.
  assert (exists r0, r = Ok r0) as [r0 ->].
  { destruct R as [(-> & _)|(-> & _)]; eauto. }
  unfold bind, get, on_net, reset_spikes, modify, ret. cbn [fst snd].
  destruct (get_accuracy vl _) as [[va|e] t3]; cbn [fst snd bind_result]; [|reflexivity].
  destruct (get_spikes_per_digit (net t3)) as [[sp|e] n4]; reflexivity.
Qed.

End Objective.

(** X10. Inside the search space [optuna_objective] raises [TrialPruned]
    exactly when layers * neurons * timesteps exceeds 300 * 15, before any
    network is built; a trial that passes this check never fails an
    assertion of the constructors, and nothing ever depends on the
    [test_loader] argument: the evaluation reads the validation loader. *)
Theorem objective_pruned_iff :
  forall (cap : Capability) (p0 : Params) (vl : list Batch) (tr : Trial)
         (tl : Z -> list Batch) (test test' : list Batch),
    in_search_space tr ->
    (optuna_objective p0 vl tr tl test = Raise TrialPruned <->
     (300 * 15 < Hidden_Layers tr * Neurons_per_Hidden_Layer tr * Timesteps tr)%Z) /\
    optuna_objective p0 vl tr tl test <> Raise AssertionError /\
    optuna_objective p0 vl tr tl test = optuna_objective p0 vl tr tl test'.
Proof.
  intros cap p0 vl tr tl test test' Hs.
  split; [|split; [|reflexivity]].
  - split.
    + intros E. destruct (Z_lt_le_dec (300 * 15)
        (Hidden_Layers tr * Neurons_per_Hidden_Layer tr * Timesteps tr)) as [G|G]; [exact G|].
      exfalso.
      destruct (objective_unpruned p0 vl tr tl test Hs G) as (t1 & [H1 Hs1] & _ & _ & _ & O).
      cbv zeta in O. rewrite O in E. clear O.
      set (t2 := set_net t1 (set_spikes (net t1) (PyInt 0) 0)) in *.
      destruct (get_accuracy_outcome vl t2 (eq_refl : spikes_ok (net t2)) Hs1) as [GE _].
      destruct (fst (get_accuracy vl t2)) as [va|e]; cbn [bind_result] in E.
      * unfold get_spikes_per_digit, bind, get, lift in E. cbn [fst] in E.
        destruct (py_truediv _ _) as [sp|e] eqn:Ed; cbn [bind_result] in E; [discriminate|].
        injection E as ->. apply py_truediv_raises in Ed. destruct Ed; discriminate.
      * injection E as ->. destruct (GE _ eq_refl); discriminate.
    + intros G. unfold optuna_objective.
      destruct (Z.ltb_spec (300 * 15) (Hidden_Layers tr *
        Neurons_per_Hidden_Layer tr * Timesteps tr)); [reflexivity|lia].
  - intros E. destruct (Z_lt_le_dec (300 * 15)
        (Hidden_Layers tr * Neurons_per_Hidden_Layer tr * Timesteps tr)) as [G|G].
    + unfold optuna_objective in E. destruct (Z.ltb_spec (300 * 15) (Hidden_Layers tr *
        Neurons_per_Hidden_Layer tr * Timesteps tr)); [discriminate|lia].
    + destruct (objective_unpruned p0 vl tr tl test Hs G) as (t1 & [H1 Hs1] & _ & _ & _ & O).
      cbv zeta in O. rewrite O in E. clear O.
      set (t2 := set_net t1 (set_spikes (net t1) (PyInt 0) 0)) in *.
      destruct (get_accuracy_outcome vl t2 (eq_refl : spikes_ok (net t2)) Hs1) as [GE _].
      destruct (fst (get_accuracy vl t2)) as [va|e]; cbn [bind_result] in E.
      * unfold get_spikes_per_digit, bind, get, lift in E. cbn [fst] in E.
        destruct (py_truediv _ _) as [sp|e] eqn:Ed; cbn [bind_result] in E; [discriminate|].
        injection E as ->. apply py_truediv_raises in Ed. destruct Ed; discriminate.
      * injection E as ->. destruct (GE _ eq_refl); discriminate.
Qed.

(** X11. A trial that passes the size check is trained to the end and then fails
    with [ZeroDivisionError] when the validation loader is empty. *)
Theorem objective_empty_validation :
  forall (cap : Capability) (p0 : Params) (tr : Trial) (tl : Z -> list Batch)
         (test : list Batch),
    in_search_space tr ->
    (Hidden_Layers tr * Neurons_per_Hidden_Layer tr * Timesteps tr <= 300 * 15)%Z ->
    optuna_objective p0 [] tr tl test = Raise ZeroDivisionError.
Proof.
  intros cap p0 tr tl test Hs Hg.
  destruct (objective_unpruned p0 [] tr tl test Hs Hg) as (t1 & _ & _ & _ & _ & O).
  cbv zeta in O. rewrite O. reflexivity.
Qed.


Lemma demo_trial_in_search_space : @in_search_space demo_trial.
Proof. unfold in_search_space, demo_trial. cbn. repeat split; try lia; reflexivity. Qed.

(** X10 at work: the demonstration trial passes the size check. *)
Lemma objective_pruned_iff_witness :
  (@optuna_objective replay O [observed 3 0.1 1.0] demo_trial scenario_loader [] = Raise TrialPruned
   <-> (300 * 15 < 1 * 5 * 10)%Z) /\
  @optuna_objective replay O [observed 3 0.1 1.0] demo_trial scenario_loader []
    <> Raise AssertionError /\
  @optuna_objective replay O [observed 3 0.1 1.0] demo_trial scenario_loader []
    = @optuna_objective replay O [observed 3 0.1 1.0] demo_trial scenario_loader [observed 1 1 1].
Proof.
  exact (objective_pruned_iff replay O [observed 3 0.1 1.0] demo_trial scenario_loader []
           [observed 1 1 1] demo_trial_in_search_space).
Defined.

(** X11 at work: the demonstration trial with nothing to validate on. *)
Lemma objective_empty_validation_witness :
  @optuna_objective replay O [] demo_trial scenario_loader [] = Raise ZeroDivisionError.
Proof.
  exact (objective_empty_validation replay O demo_trial scenario_loader []
           demo_trial_in_search_space ltac:(vm_compute; discriminate)).
Defined.


(** ** Sampling the accuracy *)

Lemma div_100_step i :
  (1 <= i)%Z -> (i / 100 - (i - 1) / 100 = if (i mod 100 =? 0)%Z then 1 else 0)%Z.
Proof.
  intros Hi. destruct (Z.eqb_spec (i mod 100) 0) as [E|E];
    Z.to_euclidean_division_equations; lia.
Qed.

Lemma train_epoch_samples {cap : Capability} epoch (bs : list Batch) :
  forall i s (t : SNNTrainer) s',
    spikes_ok (net t) -> (0 < num_steps (net t))%Z -> (1 <= i)%Z ->
    fst (train_epoch epoch i bs s t) = Ok (Next s') ->
    Z.of_nat (length (acc_hist (snd (train_epoch epoch i bs s t))))
    = (Z.of_nat (length (acc_hist t))
       + ((i + Z.of_nat (length bs) - 1) / 100 - (i - 1) / 100))%Z.
Proof.
  induction bs as [|b rest IH]; intros i s t s' H Hs Hi E.
  - cbn. replace (i + 0 - 1)%Z with (i - 1)%Z by lia. lia.
  - revert E. cbn [train_epoch]. unfold bind. rewrite train_batch_ok by assumption. cbv zeta.
    destruct (should_stop epoch _ (patience t)); cbn [fst snd ret]; [discriminate|].
    intros E.
    destruct (after_batch_fields i b t H Hs)
      as (_ & _ & _ & A & _ & _ & _ & _ & _ & _ & H1 & S1).
    cbv zeta in A.
    rewrite (IH (i + 1)%Z _ (after_batch i b t) s' H1 ltac:(rewrite S1; exact Hs)
               ltac:(lia) E).
    rewrite A.
    pose proof (div_100_step i Hi) as D.
    replace (i + 1 - 1)%Z with i by lia.
    replace (i + 1 + Z.of_nat (length rest) - 1)%Z
      with (i + Z.of_nat (length (b :: rest)) - 1)%Z by (cbn [length]; lia).
    destruct (Z.eqb_spec (i mod 100) 0) as [E0|E0]; cbn [andb].
    + destruct (Z.eqb_spec i 0); [lia|]. cbn [negb]. rewrite length_app. cbn [length]. lia.
    + lia.
Qed.

(** X13. The accuracy is sampled on every hundredth batch of an epoch, the
    first one excepted: a pass over [n >= 1] batches that is not stopped
    appends [(n - 1) div 100] samples to [acc_hist]. *)
Theorem accuracy_sampled_every_100_batches :
  forall (cap : Capability) (epoch : Z) (bs : list Batch) (s s' : EarlyStopState)
         (t : SNNTrainer),
    spikes_ok (net t) -> bs <> [] ->
    fst (train_epoch epoch 0 bs s t) = Ok (Next s') ->
    Z.of_nat (length (acc_hist (snd (train_epoch epoch 0 bs s t))))
    = (Z.of_nat (length (acc_hist t)) + (Z.of_nat (length bs) - 1) / 100)%Z.
Proof.
  intros cap epoch bs s s' t H Hne.
  destruct (Z.ltb_spec 0 (num_steps (net t))) as [Hs|Hs];
    [|intros E; rewrite (proj1 (train_epoch_stuck epoch 0 bs s t Hs Hne)) in E;
      discriminate].
  destruct bs as [|b rest]; [congruence|].
  cbn [train_epoch]. unfold bind. rewrite train_batch_ok by assumption. cbv zeta.
  destruct (should_stop epoch _ (patience t)); cbn [fst snd ret]; [discriminate|].
  intros E.
  destruct (after_batch_fields 0 b t H Hs)
    as (_ & _ & _ & A & _ & _ & _ & _ & _ & _ & H1 & S1).
  cbv zeta in A. cbn in A.
  rewrite (train_epoch_samples epoch rest (0 + 1)%Z _ (after_batch 0 b t) s' H1
             ltac:(rewrite S1; exact Hs) ltac:(lia) E).
  rewrite A. cbn [length]. change ((0 + 1 - 1) / 100)%Z with 0%Z.
  replace (0 + 1 + Z.of_nat (length rest) - 1)%Z with (Z.of_nat (S (length rest)) - 1)%Z by lia.
  lia.
Qed.

(** X13 at work: an epoch of 201 batches yields two samples. *)
Lemma accuracy_sampled_every_100_batches_witness :
  Z.of_nat (length (acc_hist (snd (@train_epoch replay 0 0 (repeat (observed 128 1 0.5) 201)
                                     initial_early_stop (demo_trainer 1 300 0.05)))))
  = (Z.of_nat 0 + (Z.of_nat (length (repeat (observed 128 1 0.5) 201)) - 1) / 100)%Z.
Proof.
  apply (accuracy_sampled_every_100_batches replay 0 (repeat (observed 128 1 0.5) 201)
           initial_early_stop
           (feed 0.05 (repeat 1%float 201) initial_early_stop)
           (demo_trainer 1 300 0.05)).
  - exact (eq_refl : 0%Z = 0%Z).
  - discriminate.
  - vm_compute. reflexivity.
Defined.

(** ** A network without time steps *)

(** X14. A network whose [num_steps] is not positive cannot be run: the
    forward pass counts itself, counts no spike and fails with
    [RuntimeError].  So [train] fails on the first batch of the first epoch,
    before a loss is recorded or a batch counted, and [get_accuracy] fails
    on any loader that yields a batch. *)
Theorem no_time_step_runtime_error :
  forall (cap : Capability) (f : Z -> list Batch) (t : SNNTrainer) (bs : list Batch),
    (num_steps (net t) <= 0)%Z ->
    (forall b : Batch,
       fst (forward b (net t)) = Raise RuntimeError /\
       forward_count (snd (forward b (net t))) = (forward_count (net t) + 1)%Z /\
       total_spike_count (snd (forward b (net t))) = total_spike_count (net t)) /\
    ((1 <= num_epochs t)%Z -> f 0%Z <> [] ->
       fst (train f t) = Raise RuntimeError /\
       loss_hist (snd (train f t)) = loss_hist t /\
       batches (snd (train f t)) = batches t /\
       epochs (snd (train f t)) = epochs t /\
       forward_count (net (snd (train f t))) = (forward_count (net t) + 1)%Z) /\
    (bs <> [] -> fst (get_accuracy bs t) = Raise RuntimeError).
Proof.
  intros cap f t bs Hs. split; [|split].
  - intros b. rewrite forward_stuck by exact Hs. cbn. auto.
  - intros Hn Hf. unfold train, bind, get.
    replace (Z.to_nat (num_epochs t)) with (S (Z.to_nat (num_epochs t - 1))) by lia.
    cbn [train_epochs]. unfold bind.
    destruct (train_epoch_stuck 0 0 (f 0%Z) initial_early_stop t Hs Hf)
      as (E & L & B & Ep & C).
    destruct (train_epoch 0 0 (f 0%Z) initial_early_stop t) as [r t1].
    cbn [fst snd] in *. subst r. cbn [fst snd]. auto.
  - intros Hb. unfold get_accuracy, bind, on_net, modify. cbn [fst snd net set_net].
    pose proof (accuracy_loop_stuck bs (PyInt 0) (PyInt 0)
                  (set_net t (set_training (net t) false)) Hs Hb) as E.
    destruct (accuracy_loop bs (PyInt 0) (PyInt 0) _) as [r t1]. cbn [fst] in E.
    subst r. reflexivity.
Qed.

(** X14 at work: training and evaluating [Net(0, 5, 1, 0.9)]. *)
Lemma no_time_step_runtime_error_witness :
  fst (@train replay (fun _ => scenario_loader 1) idle_trainer) = Raise RuntimeError /\
  loss_hist (snd (@train replay (fun _ => scenario_loader 1) idle_trainer)) = [] /\
  fst (@get_accuracy replay [observed 3 0.1 1.0] idle_trainer) = Raise RuntimeError.
Proof.
  destruct (no_time_step_runtime_error replay (fun _ => scenario_loader 1) idle_trainer
              [observed 3 0.1 1.0] ltac:(vm_compute; discriminate)) as (_ & T & A).
  destruct (T ltac:(vm_compute; discriminate) ltac:(discriminate)) as (E & L & _).
  split; [exact E|]. split; [exact L|]. apply A. discriminate.
Defined.
